(** * Accessibility runner: configuration, classification, reports, decision

    A shallow embedding of [utils/accessibility.ts]: the helpers
    ([validatePageDescription], [getArtifactsDir], [ensureDir],
    [reportBaseName], [countByImpact], [filterViolationsByImpact],
    [validateFailImpacts]), the scan and report wrappers, and the public
    entry points [runA11yTestAndGenerateReports] and [expectNoViolations];
    of the test of the home page that calls them; and of the previous
    version of the module, [utils/accessibility_old.ts].

    JavaScript strings are modelled by [string]; a character stands for the
    UTF-16 code unit with the same number (U+0000 to U+00FF).  The clock is
    read as a time value, the milliseconds since 1970-01-01T00:00:00Z.
    Thrown [Error]s are values of [RunError], tagged by the place that
    throws.  The file system, the console and the calls to the scan engine
    and the HTML reporter are threaded through a state-and-exception
    monad. *)

From Stdlib Require Import Ascii String List Arith ZArith Lia Bool.
From stdpp Require Import gmap strings list pretty.
Import ListNotations.

Local Open Scope string_scope.

(** ** Character classes and regular-expression replacements *)

Module Chars.

Definition code (c : ascii) : nat := nat_of_ascii c.

Definition between (lo hi : nat) (c : ascii) : bool :=
  (lo <=? code c)%nat && (code c <=? hi)%nat.

(** [String.prototype.toLowerCase] on one code unit below U+0100:
    A-Z, and the Latin-1 capitals U+00C0..U+00DE except the
    multiplication sign U+00D7, move up by 32. *)
Definition lower (c : ascii) : ascii :=
  if between 65 90 c then ascii_of_nat (code c + 32)
  else if between 192 222 c && negb (code c =? 215)%nat
       then ascii_of_nat (code c + 32)
  else c.

(** The class [\s] below U+0100: TAB, LF, VT, FF, CR, SPACE, NBSP. *)
Definition is_space (c : ascii) : bool :=
  between 9 13 c || (code c =? 32)%nat || (code c =? 160)%nat.

(** The class [[a-z0-9_-]]. *)
Definition is_name_char (c : ascii) : bool :=
  between 97 122 c || between 48 57 c || (code c =? 95)%nat || (code c =? 45)%nat.

(** The class [[:.]]. *)
Definition is_colon_or_dot (c : ascii) : bool :=
  (code c =? 58)%nat || (code c =? 46)%nat.

End Chars.

Module Str.

Fixpoint map (f : ascii -> ascii) (s : string) : string :=
  match s with
  | EmptyString => EmptyString
  | String c s' => String (f c) (map f s')
  end.

Definition toLowerCase (s : string) : string := map Chars.lower s.

(** [s.replace(/[cls]+/g, rep)]: every maximal run of characters of the
    class is replaced by one copy of [rep].  [in_run] tells that the
    previous character belonged to a run already replaced. *)
Fixpoint replace_runs_from (in_run : bool) (cls : ascii -> bool)
         (rep : string) (s : string) : string :=
  match s with
  | EmptyString => EmptyString
  | String c s' =>
      if cls c
      then (if in_run then EmptyString else rep)
             +:+ replace_runs_from true cls rep s'
      else String c (replace_runs_from false cls rep s')
  end.

Definition replace_runs := replace_runs_from false.

(** [s.replace(/[cls]/g, rep)]: every character of the class is replaced
    by [rep]. *)
Fixpoint replace_each (cls : ascii -> bool) (rep : string) (s : string) : string :=
  match s with
  | EmptyString => EmptyString
  | String c s' =>
      if cls c then rep +:+ replace_each cls rep s'
      else String c (replace_each cls rep s')
  end.

Fixpoint all (p : ascii -> bool) (s : string) : bool :=
  match s with
  | EmptyString => true
  | String c s' => p c && all p s'
  end.

(** [xs.join(sep)] *)
Fixpoint join (sep : string) (xs : list string) : string :=
  match xs with
  | [] => EmptyString
  | [x] => x
  | x :: rest => x +:+ sep +:+ join sep rest
  end.

(** [s.split(sep)] for a one-character separator. *)
Fixpoint split_from (sep : ascii) (acc : string) (s : string) : list string :=
  match s with
  | EmptyString => [acc]
  | String c s' =>
      if Ascii.eqb c sep then acc :: split_from sep EmptyString s'
      else split_from sep (acc +:+ String c EmptyString) s'
  end.

Definition split (sep : ascii) (s : string) : list string :=
  split_from sep EmptyString s.

End Str.

(** ** Data model *)

(** [type A11yTag] *)
Inductive A11yTag := wcag2a | wcag2aa | wcag21a | wcag21aa.

(** An [impact] as the engine may deliver it: the property can be missing,
    [null], or a string (one of the four levels, or anything else). *)
Inductive js_impact :=
| ImpactUndefined
| ImpactNull
| ImpactStr (s : string).

(** JavaScript truthiness of an impact value. *)
Definition truthy_impact (i : js_impact) : bool :=
  match i with
  | ImpactStr s => negb (String.eqb s "")
  | _ => false
  end.

(** What a template literal prints for an impact. *)
Definition impact_to_string (i : js_impact) : string :=
  match i with
  | ImpactUndefined => "undefined"
  | ImpactNull => "null"
  | ImpactStr s => s
  end.

Record Violation := {
  v_id : string;
  v_description : string;
  v_impact : js_impact;
  v_helpUrl : string;
  v_nodes : list string
}.

(** [AxeResults], as far as this module reads it. *)
Record AxeResults := {
  violations : option (list Violation);
  url : option string
}.

(** [results.violations ?? []] *)
Definition violations_or_empty (r : AxeResults) : list Violation :=
  default [] (violations r).

(** A property a caller passes: left out ([undefined] or [null]), of a type
    other than the declared one, or a value of the declared type. *)
Inductive js_arg (A : Type) :=
| Missing
| IllTyped
| Given (a : A).
Arguments Missing {A}.
Arguments IllTyped {A}.
Arguments Given {A} a.

Definition DEFAULT_TAGS : list A11yTag := [wcag2a; wcag2aa; wcag21a; wcag21aa].
Definition DEFAULT_FAIL_IMPACTS : list string := ["critical"; "serious"; "moderate"; "minor"].
Definition DEFAULT_OUTPUT_DIR : string := "artifacts/accessibility".

(** ** Counting and filtering *)

(** A property value of the [counts] object: a number, or the string that
    [+= 1] leaves behind when the previous value was not a number. *)
Inductive js_prop :=
| PNum (n : nat)
| PText.

(** The names every object literal inherits from [Object.prototype]; the
    [in] operator answers [true] for them. *)
Definition object_prototype_keys : list string :=
  [ "constructor"; "__defineGetter__"; "__defineSetter__"; "hasOwnProperty";
    "__lookupGetter__"; "__lookupSetter__"; "isPrototypeOf";
    "propertyIsEnumerable"; "toString"; "valueOf"; "__proto__";
    "toLocaleString" ].

(** [k in o] for an object literal [o] with own properties [o]. *)
Definition has_property (o : gmap string js_prop) (k : string) : bool :=
  bool_decide (is_Some (o !! k)) || bool_decide (k ∈ object_prototype_keys).

(** [o[k] += 1], used only where [k in o] holds.  An own number is
    incremented.  An inherited value is a function or an object: adding 1
    gives a string, stored as a new own property, except for [__proto__]
    whose setter drops a string. *)
Definition add_one (o : gmap string js_prop) (k : string) : gmap string js_prop :=
  match o !! k with
  | Some (PNum n) => <[k := PNum (n + 1)]> o
  | Some PText => <[k := PText]> o
  | None => if String.eqb k "__proto__" then o else <[k := PText]> o
  end.

Definition initial_counts : gmap string js_prop :=
  <["critical" := PNum 0]> (<["serious" := PNum 0]>
    (<["moderate" := PNum 0]> (<["minor" := PNum 0]> ∅))).

(** One turn of the loop of [countByImpact]. *)
Definition count_step (counts : gmap string js_prop) (violation : Violation)
  : gmap string js_prop :=
  if negb (truthy_impact (v_impact violation)) then counts
  else match v_impact violation with
       | ImpactStr s => if has_property counts s then add_one counts s else counts
       | _ => counts
       end.

Definition countByImpact (results : AxeResults) : gmap string js_prop :=
  fold_left count_step (violations_or_empty results) initial_counts.

(** Reading [counts.critical] and its siblings as numbers. *)
Definition bucket (counts : gmap string js_prop) (k : string) : nat :=
  match counts !! k with
  | Some (PNum n) => n
  | _ => 0
  end.

Definition sum_of_buckets (counts : gmap string js_prop) : nat :=
  bucket counts "critical" + bucket counts "serious"
  + bucket counts "moderate" + bucket counts "minor".

(** [impactSet.has(violation.impact)] *)
Definition set_has (impactSet : gset string) (i : js_impact) : bool :=
  match i with
  | ImpactStr s => bool_decide (s ∈ impactSet)
  | _ => false
  end.

(** [filterViolationsByImpact] *)
Definition filterViolationsByImpact (results : AxeResults) (impacts : list string)
  : list Violation :=
  if (length impacts =? 0)%nat then []
  else
    let impactSet : gset string := list_to_set impacts in
    List.filter (fun violation =>
                   truthy_impact (v_impact violation)
                   && set_has impactSet (v_impact violation))
                (violations_or_empty results).

(** ** Validation *)

(** The two kinds of report. *)
Inductive Report := HtmlReport | JsonReport.

(** An absolute path, as the list of its segments below the root. *)
Abbreviation path := (list string) (only parsing).

(** What the "Accessibility test failed." message is built from. *)
Record FailureDetails := {
  fd_page : string;
  fd_url : option string;
  fd_failImpacts : list string;
  fd_total : nat;
  fd_counts : gmap string js_prop;
  fd_htmlPath : option path;
  fd_jsonPath : option path;
  fd_failing : list Violation
}.

(** The [Error]s the module throws or lets through, tagged by origin:
    the two validators, [fs.mkdir], the scan engine, the HTML reporter (always
    caught and wrapped), the two report writers, and the fail decision. *)
Inductive RunError :=
| InvalidConfiguration (message : string)
| FileSystemError (message : string)
| ScanEngineFailure (message : string)
| ReporterError (message : string)
| ReportWriteFailure (which : Report) (message : string)
| AccessibilityViolationsFound (details : FailureDetails).

(** [validatePageDescription]: [!value || typeof value !== "string"]. *)
Definition validatePageDescription (value : js_arg string) : RunError + string :=
  match value with
  | Given s =>
      if String.eqb s ""
      then inl (InvalidConfiguration
                  "pageDescription is required and must be a non-empty string")
      else inr s
  | _ => inl (InvalidConfiguration
                "pageDescription is required and must be a non-empty string")
  end.

(** [a ?? d] *)
Definition or_default {A} (a : js_arg A) (d : A) : js_arg A :=
  match a with
  | Missing => Given d
  | other => other
  end.

(** [validImpacts.includes(impact)] *)
Definition includes (xs : list string) (x : string) : bool :=
  existsb (String.eqb x) xs.

(** [validateFailImpacts]; an [IllTyped] argument is a value for which
    [Array.isArray] answers [false].  The validated array is handed back. *)
Definition validateFailImpacts (impacts : js_arg (list string))
  : RunError + list string :=
  match impacts with
  | Given impacts =>
      let validImpacts := ["critical"; "serious"; "moderate"; "minor"] in
      let invalidImpacts :=
        List.filter (fun impact => negb (includes validImpacts impact)) impacts in
      if (0 <? length invalidImpacts)%nat
      then inl (InvalidConfiguration
                  ("Invalid impact levels: " +:+ Str.join ", " invalidImpacts
                   +:+ ". Valid values are: " +:+ Str.join ", " validImpacts))
      else inr impacts
  | _ => inl (InvalidConfiguration "failImpacts must be an array")
  end.

(** ** Paths and the report base name *)

(** [path.join(base, rel)] for an absolute, normalized [base], kept as its
    list of segments: empty and [.] segments vanish, [..] climbs. *)
Definition join_segment (p : path) (seg : string) : path :=
  if String.eqb seg "" || String.eqb seg "." then p
  else if String.eqb seg ".." then removelast p
  else (p ++ [seg])%list.

Definition path_join (base : path) (rel : string) : path :=
  fold_left join_segment (Str.split "/" rel) base.

Definition path_to_string (p : path) : string :=
  "/" +:+ Str.join "/" p.

(** The UTC fields of a time value, as [toISOString] prints them. *)
Record DateTime := {
  year : Z;
  month : nat;
  day : nat;
  hour : nat;
  minute : nat;
  second : nat;
  millisecond : nat
}.

(** *** Time values

    A [Date] holds a time value: milliseconds since 1970-01-01T00:00:00Z,
    negative before.  The fields follow the definitions of ECMAScript for
    days, years, months and the time within the day. *)

Definition msPerDay : Z := 86400000.

Definition is_leap_year (y : Z) : bool :=
  ((y mod 4 =? 0) && (negb (y mod 100 =? 0) || (y mod 400 =? 0)))%Z.

Definition DaysInYear (y : Z) : Z := if is_leap_year y then 366%Z else 365%Z.

(** From day [day] of year [y], counted from 0, walk forward to the year
    that holds it. *)
Fixpoint year_forward (fuel : nat) (y day : Z) : Z * Z :=
  match fuel with
  | O => (y, day)
  | S fuel' =>
      if (day <? DaysInYear y)%Z then (y, day)
      else year_forward fuel' (y + 1)%Z (day - DaysInYear y)%Z
  end.

(** The same for a negative [day], walking backward. *)
Fixpoint year_backward (fuel : nat) (y day : Z) : Z * Z :=
  match fuel with
  | O => (y, day)
  | S fuel' =>
      let day' := (day + DaysInYear (y - 1))%Z in
      if (0 <=? day')%Z then ((y - 1)%Z, day')
      else year_backward fuel' (y - 1)%Z day'
  end.

(** More years than a time value can be away from 1970. *)
Definition year_fuel : nat := Z.to_nat 300000.

(** The year of a day number and the day within that year. *)
Definition year_and_day (day : Z) : Z * Z :=
  if (0 <=? day)%Z then year_forward year_fuel 1970 day
  else year_backward year_fuel 1970 day.

(** The month (from 1) and the day of the month (from 1) of a day within
    the year. *)
Definition month_and_date (doy : Z) (leap : bool) : Z * Z :=
  let L := (if leap then 1 else 0)%Z in
  if (doy <? 31)%Z then (1, doy + 1)%Z
  else if (doy <? 59 + L)%Z then (2, doy - 31 + 1)%Z
  else if (doy <? 90 + L)%Z then (3, doy - (59 + L) + 1)%Z
  else if (doy <? 120 + L)%Z then (4, doy - (90 + L) + 1)%Z
  else if (doy <? 151 + L)%Z then (5, doy - (120 + L) + 1)%Z
  else if (doy <? 181 + L)%Z then (6, doy - (151 + L) + 1)%Z
  else if (doy <? 212 + L)%Z then (7, doy - (181 + L) + 1)%Z
  else if (doy <? 243 + L)%Z then (8, doy - (212 + L) + 1)%Z
  else if (doy <? 273 + L)%Z then (9, doy - (243 + L) + 1)%Z
  else if (doy <? 304 + L)%Z then (10, doy - (273 + L) + 1)%Z
  else if (doy <? 334 + L)%Z then (11, doy - (304 + L) + 1)%Z
  else (12, doy - (334 + L) + 1)%Z.

Definition utc_fields (t : Z) : DateTime :=
  let tod := (t mod msPerDay)%Z in
  let yd := year_and_day (t / msPerDay)%Z in
  let md := month_and_date yd.2 (is_leap_year yd.1) in
  {| year := yd.1;
     month := Z.to_nat md.1;
     day := Z.to_nat md.2;
     hour := Z.to_nat (tod / 3600000);
     minute := Z.to_nat (tod / 60000 mod 60);
     second := Z.to_nat (tod / 1000 mod 60);
     millisecond := Z.to_nat (tod mod 1000) |}.

Definition digit (n : nat) : ascii := ascii_of_nat (48 + n mod 10).

(** The last [width] decimal digits of [n], zero-padded. *)
Fixpoint pad (width n : nat) : string :=
  match width with
  | O => EmptyString
  | S w => pad w (n / 10) +:+ String (digit n) EmptyString
  end.

(** The year as [toISOString] prints it: four digits, or the expanded form
    [+YYYYYY] or [-YYYYYY] outside 0..9999. *)
Definition iso_year (y : Z) : string :=
  if ((0 <=? y) && (y <=? 9999))%Z then pad 4 (Z.to_nat y)
  else (if (y <? 0)%Z then "-" else "+") +:+ pad 6 (Z.to_nat (Z.abs y)).

(** [YYYY-MM-DDTHH:mm:ss.sssZ] *)
Definition iso_format (t : DateTime) : string :=
  iso_year (year t) +:+ "-" +:+ pad 2 (month t) +:+ "-" +:+ pad 2 (day t)
  +:+ "T" +:+ pad 2 (hour t) +:+ ":" +:+ pad 2 (minute t) +:+ ":"
  +:+ pad 2 (second t) +:+ "." +:+ pad 3 (millisecond t) +:+ "Z".

(** [Date.prototype.toISOString] of the date with time value [t]. *)
Definition toISOString (t : Z) : string := iso_format (utc_fields t).

(** The first three lines of [reportBaseName]. *)
Definition normalized (pageDescription : string) : string :=
  Str.replace_each (fun c => negb (Chars.is_name_char c)) ""
    (Str.replace_runs Chars.is_space "-" (Str.toLowerCase pageDescription)).

(** [new Date().toISOString().replace(/[:.]/g, "-")], where [now] is the
    time value of [new Date()]. *)
Definition timestamp (now : Z) : string :=
  Str.replace_each Chars.is_colon_or_dot "-" (toISOString now).

(** [reportBaseName]; [now] is what the clock shows at the call. *)
Definition reportBaseName (now : Z) (pageDescription : string) : string :=
  normalized pageDescription +:+ "-" +:+ timestamp now.

(** ** The world: files, console, external calls *)

(** What a file holds: the JSON text of a result, or bytes written by the
    HTML reporter. *)
Inductive file_data :=
| JsonOf (results : AxeResults)
| Rendered (text : string).

Inductive node :=
| Dir
| File (data : file_data).

(** [options] of [createHtmlReport] as a string-keyed object. *)
Record HtmlCall := {
  hc_results : AxeResults;
  hc_options : gmap string string
}.

(** [AxeBuilder]: the scope, rule and tag selections made so far. *)
Record AxeBuilder := {
  b_page : nat;
  b_include : list string;
  b_exclude : list string;
  b_disabledRules : list string;
  b_tags : option (list A11yTag)
}.

(** What the run does to the outside, in order. *)
Inductive Event :=
| EvMkdir (dir : path) (recursive : bool)
| EvAnalyze (builder : AxeBuilder)
| EvLog (line : string)
| EvCreateHtmlReport (call : HtmlCall)
| EvWriteFile (file : path).

Record World := {
  files : gmap path node;
  events : list Event
}.

(** The collaborators outside this module: the working directory, the
    clock, the scan engine and the HTML reporter.  The reporter may write
    whatever it likes, or throw. *)
Record Env := {
  cwd : path;
  now : Z;
  analyze : AxeBuilder -> string + AxeResults;
  createHtmlReport : HtmlCall -> gmap path node -> string + gmap path node
}.

(** State and exceptions: a thrown error keeps the effects done so far. *)
Definition M (A : Type) : Type := World -> (RunError + A) * World.

Global Instance M_ret : MRet M := fun A a w => (inr a, w).
Global Instance M_bind : MBind M := fun A B f m w =>
  match m w with
  | (inr a, w') => f a w'
  | (inl e, w') => (inl e, w')
  end.

Definition throw {A} (e : RunError) : M A := fun w => (inl e, w).

Definition lift {A} (r : RunError + A) : M A := fun w => (r, w).

Definition emit (e : Event) : M unit :=
  fun w => (inr tt, {| files := files w; events := (events w ++ [e])%list |}).

Definition try_catch {A} (body : M A) (handler : RunError -> M A) : M A :=
  fun w =>
    match body w with
    | (inl e, w') => handler e w'
    | ok => ok
    end.

(** ** File system *)

Definition is_dir (fs : gmap path node) (p : path) : bool :=
  match p with
  | [] => true
  | _ => match fs !! p with Some Dir => true | _ => false end
  end.

(** [mkdir -p]: walk down from [prefix], creating what is missing; a file
    in the way is an error, a directory in the way is not. *)
Fixpoint mkdir_p (prefix : path) (rest : list string) (fs : gmap path node)
  : string + gmap path node :=
  match rest with
  | [] => inr fs
  | seg :: rest' =>
      let here := (prefix ++ [seg])%list in
      match fs !! here with
      | Some (File _) => inl "ENOTDIR: not a directory"
      | Some Dir => mkdir_p here rest' fs
      | None => mkdir_p here rest' (<[here := Dir]> fs)
      end
  end.

(** [fs.mkdir(dir, { recursive })] on the file tree.  Permissions and
    device errors are outside the model. *)
Definition fs_mkdir_on (recursive : bool) (dir : path) (fs : gmap path node)
  : string + gmap path node :=
  if recursive then mkdir_p [] dir fs
  else if is_dir fs dir || bool_decide (is_Some (fs !! dir))
       then inl "EEXIST: file already exists"
  else if is_dir fs (removelast dir) then inr (<[dir := Dir]> fs)
  else inl "ENOENT: no such file or directory".

(** [fs.writeFile(file, data)] on the file tree. *)
Definition fs_writeFile_on (file : path) (data : file_data) (fs : gmap path node)
  : string + gmap path node :=
  if is_dir fs file then inl "EISDIR: illegal operation on a directory"
  else if is_dir fs (removelast file) then inr (<[file := File data]> fs)
  else inl "ENOENT: no such file or directory".

(** Run a file-tree operation in the world; a failure is thrown as is. *)
Definition on_files (op : gmap path node -> string + gmap path node) : M unit :=
  fun w =>
    match op (files w) with
    | inr fs' => (inr tt, {| files := fs'; events := events w |})
    | inl msg => (inl (FileSystemError msg), w)
    end.

Definition fs_mkdir (dir : path) (recursive : bool) : M unit :=
  emit (EvMkdir dir recursive) ;; on_files (fs_mkdir_on recursive dir).

Definition fs_writeFile (file : path) (data : file_data) : M unit :=
  emit (EvWriteFile file) ;; on_files (fs_writeFile_on file data).

Definition console_log (line : string) : M unit := emit (EvLog line).

(** ** Options *)

(** [interface RunA11yOptions].  [page] is an opaque handle. *)
Record RunA11yOptions := {
  page : nat;
  pageDescription : js_arg string;
  include : option (list string);
  exclude : option (list string);
  tags : option (list A11yTag);
  disableRules : option (list string);
  failOnViolations : option bool;
  failImpacts : js_arg (list string);
  outputDir : option string;
  reporterOptions : option (gmap string string);
  generateHtmlReport : option bool;
  generateJsonReport : option bool;
  logSummary : option bool
}.

(** [flag !== false] *)
Definition not_false (flag : option bool) : bool :=
  match flag with
  | Some false => false
  | _ => true
  end.

(** Truthiness of an optional boolean. *)
Definition truthy_flag (flag : option bool) : bool :=
  match flag with
  | Some true => true
  | _ => false
  end.

(** Truthiness of an optional string. *)
Definition truthy_string (s : option string) : bool :=
  match s with
  | Some s => negb (String.eqb s "")
  | None => false
  end.

Definition nl : string := String (ascii_of_nat 10) EmptyString.

(** The four counts as the summary line and the error message print them. *)
Definition count_text (counts : gmap string js_prop) : string :=
  "critical=" +:+ pretty (bucket counts "critical")
  +:+ ", serious=" +:+ pretty (bucket counts "serious")
  +:+ ", moderate=" +:+ pretty (bucket counts "moderate")
  +:+ ", minor=" +:+ pretty (bucket counts "minor").

(** One entry of [violationSummary]; [idx] counts from 0. *)
Definition summary_item (idx : nat) (v : Violation) : string :=
  "  " +:+ pretty (idx + 1) +:+ ". [" +:+ impact_to_string (v_impact v) +:+ "] "
  +:+ v_id v +:+ ": " +:+ v_description v +:+ nl
  +:+ "     Nodes affected: " +:+ pretty (length (v_nodes v)) +:+ nl
  +:+ "     Help: " +:+ v_helpUrl v.

(** The message of the "test failed" error: the lines that are not empty,
    joined by line feeds. *)
Definition failure_message (d : FailureDetails) : string :=
  let violationSummary := Str.join nl (imap summary_item (fd_failing d)) in
  Str.join nl
    (List.filter (fun line => negb (String.eqb line ""))
       [ "Accessibility test failed.";
         "Page: " +:+ fd_page d;
         (if truthy_string (fd_url d) then "URL: " +:+ default "" (fd_url d) else "");
         "Fail impacts: " +:+ Str.join ", " (fd_failImpacts d);
         "Totals: total=" +:+ pretty (fd_total d) +:+ ", " +:+ count_text (fd_counts d);
         match fd_htmlPath d with
         | Some p => "HTML report: " +:+ path_to_string p
         | None => ""
         end;
         match fd_jsonPath d with
         | Some p => "JSON report: " +:+ path_to_string p
         | None => ""
         end;
         nl +:+ "Failing violations (" +:+ pretty (length (fd_failing d)) +:+ "):"
            +:+ nl +:+ violationSummary ]).

(** [error instanceof Error ? error.message : String(error)] *)
Definition error_message (e : RunError) : string :=
  match e with
  | InvalidConfiguration m | FileSystemError m | ScanEngineFailure m
  | ReporterError m | ReportWriteFailure _ m => m
  | AccessibilityViolationsFound d => failure_message d
  end.

(** ** The runner *)

Section Runner.

Variable env : Env.

(** [getArtifactsDir] *)
Definition getArtifactsDir (outputDir : option string) : path :=
  path_join (cwd env) (default DEFAULT_OUTPUT_DIR outputDir).

(** [ensureDir] *)
Definition ensureDir (dir : path) : M unit :=
  fs_mkdir dir true.

(** [builder.analyze()] *)
Definition builder_analyze (builder : AxeBuilder) : M AxeResults :=
  emit (EvAnalyze builder) ;;
  match analyze env builder with
  | inr results => mret results
  | inl msg => throw (ScanEngineFailure msg)
  end.

Definition builder_include (builder : AxeBuilder) (selector : string) : AxeBuilder :=
  {| b_page := b_page builder;
     b_include := (b_include builder ++ [selector])%list;
     b_exclude := b_exclude builder;
     b_disabledRules := b_disabledRules builder;
     b_tags := b_tags builder |}.

Definition builder_exclude (builder : AxeBuilder) (selector : string) : AxeBuilder :=
  {| b_page := b_page builder;
     b_include := b_include builder;
     b_exclude := (b_exclude builder ++ [selector])%list;
     b_disabledRules := b_disabledRules builder;
     b_tags := b_tags builder |}.

Definition builder_disableRules (builder : AxeBuilder) (rules : list string) : AxeBuilder :=
  {| b_page := b_page builder;
     b_include := b_include builder;
     b_exclude := b_exclude builder;
     b_disabledRules := (b_disabledRules builder ++ rules)%list;
     b_tags := b_tags builder |}.

Definition builder_withTags (builder : AxeBuilder) (ts : list A11yTag) : AxeBuilder :=
  {| b_page := b_page builder;
     b_include := b_include builder;
     b_exclude := b_exclude builder;
     b_disabledRules := b_disabledRules builder;
     b_tags := Some ts |}.

(** [xs?.length], as a truth value. *)
Definition has_length {A} (xs : option (list A)) : bool :=
  match xs with
  | Some (_ :: _) => true
  | _ => false
  end.

(** [runAxeScan], up to the call of [analyze]: the builder it has
    configured. *)
Definition configured_builder (opts : RunA11yOptions) : AxeBuilder :=
  let builder :=
    {| b_page := page opts; b_include := []; b_exclude := [];
       b_disabledRules := []; b_tags := None |} in
  let builder :=
    if has_length (include opts)
    then fold_left builder_include (default [] (include opts)) builder
    else builder in
  let builder :=
    if has_length (exclude opts)
    then fold_left builder_exclude (default [] (exclude opts)) builder
    else builder in
  let builder :=
    if has_length (disableRules opts)
    then builder_disableRules builder (default [] (disableRules opts))
    else builder in
  builder_withTags builder (default DEFAULT_TAGS (tags opts)).

(** [runAxeScan] *)
Definition runAxeScan (opts : RunA11yOptions) : M AxeResults :=
  builder_analyze (configured_builder opts).

(** [writeJsonReport] *)
Definition writeJsonReport (dir : path) (baseName : string) (results : AxeResults)
  : M path :=
  try_catch
    (let jsonPath := path_join dir (baseName +:+ ".json") in
     fs_writeFile jsonPath (JsonOf results) ;;
     mret jsonPath)
    (fun error =>
       throw (ReportWriteFailure JsonReport
                ("Failed to write JSON report: " +:+ error_message error))).

(** The call into [axe-html-reporter]. *)
Definition reporter_runs (call : HtmlCall) : M unit :=
  fun w =>
    match createHtmlReport env call (files w) with
    | inr fs' => (inr tt, {| files := fs'; events := events w |})
    | inl msg => (inl (ReporterError msg), w)
    end.

Definition call_createHtmlReport (call : HtmlCall) : M unit :=
  emit (EvCreateHtmlReport call) ;; reporter_runs call.

(** [writeHtmlReport]; the caller's [reporterOptions] are spread last and
    so win over the four options set here. *)
Definition writeHtmlReport (dir : path) (baseName : string)
           (pageDescription : string) (results : AxeResults)
           (reporterOptions : option (gmap string string)) : M path :=
  try_catch
    (call_createHtmlReport
       {| hc_results := results;
          hc_options :=
            default ∅ reporterOptions ∪
            <["projectKey" := pageDescription]>
              (<["reportFileName" := baseName +:+ ".html"]>
                 (<["outputDirPath" := path_to_string dir]>
                    (<["outputDir" := "."]> ∅))) |} ;;
     mret (path_join dir (baseName +:+ ".html")))
    (fun error =>
       throw (ReportWriteFailure HtmlReport
                ("Failed to generate HTML report: " +:+ error_message error))).

(** [runA11yTestAndGenerateReports] *)
Definition runA11yTestAndGenerateReports (opts : RunA11yOptions) : M AxeResults :=
  description ← lift (validatePageDescription (pageDescription opts));

  let dir := getArtifactsDir (outputDir opts) in
  ensureDir dir ;;

  results ← runAxeScan opts;

  let totalViolations := length (violations_or_empty results) in
  let counts := countByImpact results in

  (if not_false (logSummary opts)
   then console_log ("[A11Y] " +:+ description +:+ " -> total="
                     +:+ pretty totalViolations +:+ " (" +:+ count_text counts +:+ ")")
   else mret tt) ;;

  paths ←
    (if (0 <? totalViolations)%nat
     then
       let base := reportBaseName (now env) description in
       htmlPath ←
         (if not_false (generateHtmlReport opts)
          then p ← writeHtmlReport dir base description results (reporterOptions opts);
               mret (Some p)
          else mret None);
       jsonPath ←
         (if not_false (generateJsonReport opts)
          then p ← writeJsonReport dir base results; mret (Some p)
          else mret None);
       mret (htmlPath, jsonPath)
     else mret (None, None));

  failImpacts ← lift (validateFailImpacts (or_default (failImpacts opts) DEFAULT_FAIL_IMPACTS));

  if truthy_flag (failOnViolations opts)
  then
    let failingViolations := filterViolationsByImpact results failImpacts in
    if (0 <? length failingViolations)%nat
    then throw (AccessibilityViolationsFound
                  {| fd_page := description;
                     fd_url := url results;
                     fd_failImpacts := failImpacts;
                     fd_total := totalViolations;
                     fd_counts := counts;
                     fd_htmlPath := paths.1;
                     fd_jsonPath := paths.2;
                     fd_failing := failingViolations |})
    else mret results
  else mret results.

End Runner.

(** [expectNoViolations]: the count, and the lines it prints.  The two
    pictographs of the console text are kept as their UTF-8 bytes. *)
Definition violation_lines (index : nat) (violation : Violation) : list string :=
  [ pretty (index + 1) +:+ ". " +:+ v_id violation +:+ ": " +:+ v_description violation;
    "   Impact: " +:+ impact_to_string (v_impact violation);
    "   Affected nodes: " +:+ pretty (length (v_nodes violation)) +:+ nl ].

Fixpoint log_all (lines : list string) : M unit :=
  match lines with
  | [] => mret tt
  | line :: rest => console_log line ;; log_all rest
  end.

Definition expectNoViolations (results : AxeResults) : M nat :=
  let count := length (violations_or_empty results) in
  (if (0 <? count)%nat
   then
     console_log (nl +:+ "⚠️  Found " +:+ pretty count
                  +:+ " accessibility violation(s):" +:+ nl) ;;
     log_all (concat (imap violation_lines (violations_or_empty results)))
   else console_log "✓ No accessibility violations found") ;;
  mret count.

(** ** The test of the home page

    The test that uses the module: go to the page, run the scan with the
    page description only, print the violations, expect their number to
    be 0.  Navigation is outside the model but for its failure. *)

(** How the test can fail: [page.goto] throws, the run throws, or the
    expectation does not hold. *)
Inductive TestFailure :=
| NavigationError (message : string)
| Thrown (e : RunError)
| ExpectedToBe (received expected : nat).

Definition home_page_url : string := "https://ilovepeanutbutter.com/".

(** [{ page, pageDescription: "Home page" }] *)
Definition home_page_options (page : nat) : RunA11yOptions :=
  {| page := page;
     pageDescription := Given "Home page";
     include := None;
     exclude := None;
     tags := None;
     disableRules := None;
     failOnViolations := None;
     failImpacts := Missing;
     outputDir := None;
     reporterOptions := None;
     generateHtmlReport := None;
     generateJsonReport := None;
     logSummary := None |}.

(** The body of the test; [goto] answers with the message of the error
    [page.goto] throws, if it throws. *)
Definition home_page_test (env : Env) (goto : string -> option string) (page : nat)
  : World -> (TestFailure + unit) * World :=
  fun w =>
    match goto home_page_url with
    | Some message => (inl (NavigationError message), w)
    | None =>
        match runA11yTestAndGenerateReports env (home_page_options page) w with
        | (inl e, w1) => (inl (Thrown e), w1)
        | (inr result, w1) =>
            match expectNoViolations result w1 with
            | (inl e, w2) => (inl (Thrown e), w2)
            | (inr violationCount, w2) =>
                if (violationCount =? 0)%nat then (inr tt, w2)
                else (inl (ExpectedToBe violationCount 0), w2)
            end
        end
    end.

(** ** The previous version of the module

    [utils/accessibility_old.ts]: no severity filter and no summary line,
    rules are switched off one by one from a [rules] object, the report
    writers let errors through as they come, and [violations] is read
    without a guard.  [getArtifactsDir], [ensureDir] and [reportBaseName]
    are the same functions as in the current version. *)

Module Old.

(** A value of the [rules] object. *)
Inductive rule_config :=
| RuleObject (enabled : option bool)
| RuleNull
| RuleOther.

(** [typeof ruleConfig === 'object' && ruleConfig?.enabled === false] *)
Definition switched_off (ruleConfig : rule_config) : bool :=
  match ruleConfig with
  | RuleObject (Some false) => true
  | _ => false
  end.

(** [type RunA11yOptions]; [rules] as its entries in the order of
    [Object.entries]. *)
Record RunA11yOptions := {
  page : nat;
  pageDescription : js_arg string;
  include : option (list string);
  exclude : option (list string);
  tags : option (list A11yTag);
  rules : option (list (string * rule_config));
  failOnViolations : option bool;
  outputDir : option string;
  reporterOptions : option (gmap string string);
  generateHtmlReport : option bool;
  generateJsonReport : option bool
}.

(** What this version throws: an error of the helpers both versions
    have, as it comes; the [TypeError] of reading [length] of
    [undefined]; the "test failed" error with its message. *)
Inductive Error :=
| Raised (e : RunError)
| TypeError
| ViolationsFound (message : string).

Definition Task (A : Type) : Type := World -> (Error + A) * World.

Global Instance Task_ret : MRet Task := fun A a w => (inr a, w).
Global Instance Task_bind : MBind Task := fun A B f m w =>
  match m w with
  | (inr a, w') => f a w'
  | (inl e, w') => (inl e, w')
  end.

Definition throw {A} (e : Error) : Task A := fun w => (inl e, w).

(** A call of a helper of the current version. *)
Definition call {A} (m : M A) : Task A :=
  fun w =>
    match m w with
    | (inr a, w') => (inr a, w')
    | (inl e, w') => (inl (Raised e), w')
    end.

(** [validatePageDescription] *)
Definition validatePageDescription (value : js_arg string) : Error + string :=
  match value with
  | Given s =>
      if String.eqb s ""
      then inl (Raised (InvalidConfiguration
                          "pageDescription is required and must be a string"))
      else inr s
  | _ => inl (Raised (InvalidConfiguration
                        "pageDescription is required and must be a string"))
  end.

Section OldRunner.

Variable env : Env.

(** [AxeBuilder.disableRules], which this version may call more than
    once on one builder. *)
Variable disableRules_method : AxeBuilder -> list string -> AxeBuilder.

(** [runAxe], up to the call of [analyze]. *)
Definition configured_builder (opts : RunA11yOptions) : AxeBuilder :=
  let builder :=
    {| b_page := page opts; b_include := []; b_exclude := [];
       b_disabledRules := []; b_tags := None |} in
  let builder :=
    if has_length (include opts)
    then fold_left builder_include (default [] (include opts)) builder
    else builder in
  let builder :=
    if has_length (exclude opts)
    then fold_left builder_exclude (default [] (exclude opts)) builder
    else builder in
  let builder :=
    match rules opts with
    | Some entries =>
        fold_left (fun builder entry =>
                     if switched_off entry.2
                     then disableRules_method builder [entry.1]
                     else builder)
                  entries builder
    | None => builder
    end in
  builder_withTags builder (default DEFAULT_TAGS (tags opts)).

(** [runAxe] *)
Definition runAxe (opts : RunA11yOptions) : Task AxeResults :=
  call (builder_analyze env (configured_builder opts)).

(** [writeJsonReport] *)
Definition writeJsonReport (dir : path) (baseName : string) (results : AxeResults)
  : Task path :=
  let jsonPath := path_join dir (baseName +:+ ".json") in
  call (fs_writeFile jsonPath (JsonOf results)) ;;
  mret jsonPath.

(** [writeHtmlReport] *)
Definition writeHtmlReport (dir : path) (baseName : string)
           (pageDescription : string) (results : AxeResults)
           (reporterOptions : option (gmap string string)) : Task path :=
  call (call_createHtmlReport env
          {| hc_results := results;
             hc_options :=
               default ∅ reporterOptions ∪
               <["projectKey" := pageDescription]>
                 (<["reportFileName" := baseName +:+ ".html"]>
                    (<["outputDirPath" := path_to_string dir]>
                       (<["outputDir" := "."]> ∅))) |}) ;;
  mret (path_join dir (baseName +:+ ".html")).

(** The message of the "test failed" error. *)
Definition failure_message (violations : nat) (pageDescription : string)
           (results : AxeResults) (htmlPath jsonPath : option path) : string :=
  Str.join nl
    (List.filter (fun line => negb (String.eqb line ""))
       [ "Accessibility test failed.";
         "Found " +:+ pretty violations +:+ " violation(s) on "
           +:+ pageDescription +:+ ".";
         (if truthy_string (url results)
          then "testUrl: " +:+ default "" (url results) else "");
         match htmlPath with
         | Some p => "HTML report: " +:+ path_to_string p
         | None => ""
         end;
         match jsonPath with
         | Some p => "JSON report: " +:+ path_to_string p
         | None => ""
         end ]).

(** [results.violations.length] *)
Definition violations_length (results : AxeResults) : Task nat :=
  match violations results with
  | Some vs => mret (length vs)
  | None => throw TypeError
  end.

(** [runA11yTestAndGenerateReports] *)
Definition runA11yTestAndGenerateReports (opts : RunA11yOptions) : Task AxeResults :=
  description ← (fun w => (validatePageDescription (pageDescription opts), w));

  let dir := getArtifactsDir env (outputDir opts) in
  call (ensureDir dir) ;;

  results ← runAxe opts;

  violations ← violations_length results;

  paths ←
    (if (0 <? violations)%nat
     then
       let base := reportBaseName (now env) description in
       htmlPath ←
         (if not_false (generateHtmlReport opts)
          then p ← writeHtmlReport dir base description results (reporterOptions opts);
               mret (Some p)
          else mret None);
       jsonPath ←
         (if not_false (generateJsonReport opts)
          then p ← writeJsonReport dir base results; mret (Some p)
          else mret None);
       mret (htmlPath, jsonPath)
     else mret (None, None));

  if truthy_flag (failOnViolations opts) && (0 <? violations)%nat
  then throw (ViolationsFound
                (failure_message violations description results paths.1 paths.2))
  else mret results.

End OldRunner.

(** [expectNoViolations] *)
Definition expectNoViolations (results : AxeResults) : Task nat :=
  count ← violations_length results;
  (if (0 <? count)%nat
   then
     call (console_log (nl +:+ "⚠️  Found " +:+ pretty count
                        +:+ " accessibility violation(s):" +:+ nl)) ;;
     call (log_all (concat (imap violation_lines (violations_or_empty results))))
   else call (console_log "✓ No accessibility violations found")) ;;
  mret count.

End Old.

(** ** Vocabulary of the statements *)

(** The violation carries exactly the level [k]. *)
Definition has_level (k : string) (v : Violation) : bool :=
  match v_impact v with
  | ImpactStr s => String.eqb s k
  | _ => false
  end.

(** The violation carries one of the four levels. *)
Definition recognized (v : Violation) : bool :=
  match v_impact v with
  | ImpactStr s => includes DEFAULT_FAIL_IMPACTS s
  | _ => false
  end.

Definition tally (k : string) (vs : list Violation) : nat :=
  length (List.filter (has_level k) vs).

Definition is_level (k : string) : Prop :=
  k = "critical" \/ k = "serious" \/ k = "moderate" \/ k = "minor".

(** The four buckets of a [counts] object hold numbers. *)
Definition four_numbers (c : gmap string js_prop) : Prop :=
  forall k, is_level k -> exists n, c !! k = Some (PNum n).

(** The four buckets, in the order critical, serious, moderate, minor. *)
Definition buckets (c : gmap string js_prop) : nat * nat * nat * nat :=
  (bucket c "critical", bucket c "serious", bucket c "moderate", bucket c "minor").

(** The result with the records of no recognized level left out. *)
Definition only_recognized (results : AxeResults) : AxeResults :=
  {| violations := Some (List.filter recognized (violations_or_empty results));
     url := url results |}.

Definition unrecognized_count (results : AxeResults) : nat :=
  length (List.filter (fun v => negb (recognized v)) (violations_or_empty results)).

(** A record with the given impact, for the examples. *)
Definition sample (i : js_impact) : Violation :=
  {| v_id := "image-alt";
     v_description := "Images must have alternate text";
     v_impact := i;
     v_helpUrl := "https://dequeuniversity.com/rules/axe/4.11/image-alt";
     v_nodes := ["<img src=x>"] |}.

Definition sample_results : AxeResults :=
  {| violations :=
       Some [ sample (ImpactStr "critical"); sample (ImpactStr "critical");
              sample (ImpactStr "unknown"); sample (ImpactStr "serious") ];
     url := Some "https://example.test/" |}.

(** Lexicographic combination of two comparisons. *)
Definition lex (c1 c2 : comparison) : comparison :=
  match c1 with
  | Eq => c2
  | other => other
  end.

(** Chronological order of two readings of the clock. *)
Definition dt_compare (a b : DateTime) : comparison :=
  lex (Z.compare (year a) (year b))
   (lex (Nat.compare (month a) (month b))
    (lex (Nat.compare (day a) (day b))
     (lex (Nat.compare (hour a) (hour b))
      (lex (Nat.compare (minute a) (minute b))
       (lex (Nat.compare (second a) (second b))
            (Nat.compare (millisecond a) (millisecond b))))))).

(** [a] comes before [b]: by the first components and, when these agree,
    by the second ones. *)
Definition pair_lt (a b : Z * Z) : Prop :=
  (a.1 < b.1)%Z \/ (a.1 = b.1 /\ (a.2 < b.2)%Z).

(** The day numbers and the time values of 0000-01-01T00:00:00.000Z and
    9999-12-31T23:59:59.999Z. *)
Definition first_day : Z := -719528.
Definition last_day : Z := 2932896.
Definition first_time : Z := -62167219200000.
Definition last_time : Z := 253402300799999.

(** ECMAScript's [DayFromYear]: the day number of 1 January of year [y]. *)
Definition DayFromYear (y : Z) : Z :=
  (365 * (y - 1970) + (y - 1969) / 4 - (y - 1901) / 100 + (y - 1601) / 400)%Z.

(** The least and the greatest time value a [Date] can hold. *)
Definition min_time : Z := -8640000000000000.
Definition max_time : Z := 8640000000000000.

(** Fields as [utc_fields] gives them for the time values of a [Date]. *)
Definition fields_in_range (t : DateTime) : Prop :=
  (-1000000 < year t < 1000000)%Z
  /\ month t < 10 ^ 2 /\ day t < 10 ^ 2 /\ hour t < 10 ^ 2
  /\ minute t < 10 ^ 2 /\ second t < 10 ^ 2 /\ millisecond t < 10 ^ 3.

(** The timestamp of a date with the given fields. *)
Definition stamp (t : DateTime) : string :=
  Str.replace_each Chars.is_colon_or_dot "-" (iso_format t).

(** Fields of the years 0000 to 9999, where [toISOString] prints four
    digits for the year. *)
Definition valid_datetime (t : DateTime) : bool :=
  (0 <=? year t)%Z && (year t <=? 9999)%Z
  && (1 <=? month t)%nat && (month t <=? 12)%nat
  && (1 <=? day t)%nat && (day t <=? 31)%nat
  && (hour t <? 24)%nat && (minute t <? 60)%nat && (second t <? 60)%nat
  && (millisecond t <? 1000)%nat.

Definition starts_outside (cls : ascii -> bool) (s : string) : bool :=
  match s with
  | EmptyString => true
  | String c _ => negb (cls c)
  end.

(** 2024-03-09T07:05:59.042Z *)
Definition sample_time : Z := 1709967959042.

(** One millisecond after [sample_time]. *)
Definition sample_time_next : Z := 1709967959043.

(** The world after some more events. *)
Definition logged (w : World) (new : list Event) : World :=
  {| files := files w; events := (events w ++ new)%list |}.

(** The argument [writeHtmlReport] passes to [createHtmlReport]. *)
Definition html_call (dir : path) (baseName pageDescription : string)
           (results : AxeResults) (reporterOptions : option (gmap string string))
  : HtmlCall :=
  {| hc_results := results;
     hc_options :=
       default ∅ reporterOptions ∪
       <["projectKey" := pageDescription]>
         (<["reportFileName" := baseName +:+ ".html"]>
            (<["outputDirPath" := path_to_string dir]>
               (<["outputDir" := "."]> ∅))) |}.

(** The event is an attempt to write a report. *)
Definition is_report_write (e : Event) : bool :=
  match e with
  | EvCreateHtmlReport _ | EvWriteFile _ => true
  | _ => false
  end.


(** The run got as far as the final decision: it returned, or it raised the
    "test failed" error. *)
Definition ends_in_decision (out : RunError + AxeResults) : Prop :=
  match out with
  | inr _ => True
  | inl (AccessibilityViolationsFound _) => True
  | inl _ => False
  end.

(** The [failImpacts] option is left out or is an array of levels. *)
Definition failImpacts_valid (a : js_arg (list string)) : Prop :=
  match a with
  | Missing => True
  | IllTyped => False
  | Given impacts => Forall is_level impacts
  end.

(** The severity of the record is a member of [impacts]. *)
Definition severity_in (impacts : list string) (v : Violation) : Prop :=
  exists s, v_impact v = ImpactStr s /\ s ∈ impacts.

(** Every entry of the tree lies in a directory. *)
Definition tree (fs : gmap path node) : Prop :=
  forall p n, fs !! p = Some n -> is_dir fs (removelast p) = true.

(** *** Sample collaborators and options *)

(** A reporter that writes the page where its options say. *)
Definition sample_reporter (call : HtmlCall) (fs : gmap path node)
  : string + gmap path node :=
  match hc_options call !! "outputDirPath", hc_options call !! "reportFileName" with
  | Some dir, Some name =>
      inr (<[path_join (path_join [] dir) name := File (Rendered "<html>")]> fs)
  | _, _ => inl "missing option"
  end.

(** A reporter that cannot write. *)
Definition failing_reporter (call : HtmlCall) (fs : gmap path node)
  : string + gmap path node :=
  inl "EACCES: permission denied".

Definition sample_env (results : AxeResults) : Env :=
  {| cwd := ["work"]; now := sample_time;
     analyze := fun _ => inr results;
     createHtmlReport := sample_reporter |}.

Definition readonly_env (results : AxeResults) : Env :=
  {| cwd := ["work"]; now := sample_time;
     analyze := fun _ => inr results;
     createHtmlReport := failing_reporter |}.

Definition no_violations : AxeResults :=
  {| violations := Some []; url := Some "https://example.test/" |}.

Definition options (description : js_arg string) (failOn : option bool)
           (impacts : js_arg (list string)) (html json : option bool)
  : RunA11yOptions :=
  {| page := 1;
     pageDescription := description;
     include := None;
     exclude := None;
     tags := None;
     disableRules := None;
     failOnViolations := failOn;
     failImpacts := impacts;
     outputDir := None;
     reporterOptions := None;
     generateHtmlReport := html;
     generateJsonReport := json;
     logSummary := None |}.

Definition fresh_world : World := {| files := ∅; events := [] |}.

(** A world where the default output directory exists already. *)
Definition prepared_world : World :=
  {| files :=
       <[ ["work"] := Dir ]>
         (<[ ["work"; "artifacts"] := Dir ]>
            (<[ ["work"; "artifacts"; "accessibility"] := Dir ]> ∅));
     events := [] |}.

(** What the final decision promises about the outcome [out] of a run
    that scanned [results] and validated [impacts]; [flag] is the
    truthiness of [failOnViolations]. *)
Definition decision_holds (flag : bool) (results : AxeResults)
           (impacts : list string) (out : RunError + AxeResults) : Prop :=
  ((exists d, out = inl (AccessibilityViolationsFound d))
   <-> flag = true /\ filterViolationsByImpact results impacts <> [])
  /\ (~ (flag = true /\ filterViolationsByImpact results impacts <> []) ->
      out = inr results)
  /\ (forall d, out = inl (AccessibilityViolationsFound d) ->
        fd_failing d = filterViolationsByImpact results impacts
        /\ fd_counts d = countByImpact results
        /\ (impacts = ["critical"] ->
            buckets (fd_counts d) = (2, 1, 0, 0) ->
            length (fd_failing d) = 2)).


Definition strict_options : RunA11yOptions :=
  options (Given "Home page") (Some true) (Given ["critical"]) None None.

Definition lenient_options : RunA11yOptions :=
  options (Given "Home page") (Some true) (Given []) None None.

Definition misspelt_options : RunA11yOptions :=
  options (Given "Home page") None (Given ["blocker"]) None None.

Definition default_options : RunA11yOptions :=
  options (Given "Home page") (Some true) Missing None None.

(** *** More vocabulary *)

(** The characters a base name is made of: the class [[a-z0-9_-]], and
    [T], [Z] and [+] from the timestamp. *)
Definition is_base_name_char (c : ascii) : bool :=
  Chars.is_name_char c
  || (Chars.code c =? 84)%nat || (Chars.code c =? 90)%nat || (Chars.code c =? 43)%nat.

(** A segment [path.join] keeps: neither empty nor [.]. *)
Definition is_plain_segment (seg : string) : bool :=
  negb (String.eqb seg "" || String.eqb seg ".").

(** What [o[k] += 1] leaves at [k]. *)
Definition bumped (old : option js_prop) (k : string) : option js_prop :=
  match old with
  | Some (PNum n) => Some (PNum (n + 1))
  | Some PText => Some PText
  | None => if String.eqb k "__proto__" then None else Some PText
  end.

(** The loop of [countByImpact] applies [+= 1] to the key [k] for the
    record [v]. *)
Definition counted (c : gmap string js_prop) (v : Violation) (k : string) : bool :=
  match v_impact v with
  | ImpactStr s => negb (String.eqb s "") && has_property c s && String.eqb s k
  | _ => false
  end.

(** The summary line of a run. *)
Definition summary_line (d : string) (results : AxeResults) : string :=
  "[A11Y] " +:+ d +:+ " -> total=" +:+ pretty (length (violations_or_empty results))
  +:+ " (" +:+ count_text (countByImpact results) +:+ ")".

(** The two report files, directly in the output directory. *)
Definition json_path (env : Env) (opts : RunA11yOptions) (d : string) : path :=
  (getArtifactsDir env (outputDir opts) ++ [reportBaseName (now env) d +:+ ".json"])%list.

Definition html_path (env : Env) (opts : RunA11yOptions) (d : string) : path :=
  (getArtifactsDir env (outputDir opts) ++ [reportBaseName (now env) d +:+ ".html"])%list.

(** The calls a run makes when nothing fails, in their order. *)
Definition expected_events (env : Env) (opts : RunA11yOptions) (d : string)
           (results : AxeResults) : list Event :=
  [ EvMkdir (getArtifactsDir env (outputDir opts)) true;
    EvAnalyze (configured_builder opts) ]
  ++ (if not_false (logSummary opts) then [EvLog (summary_line d results)] else [])
  ++ (if (0 <? length (violations_or_empty results))%nat
      then (if not_false (generateHtmlReport opts)
            then [EvCreateHtmlReport
                    (html_call (getArtifactsDir env (outputDir opts))
                               (reportBaseName (now env) d) d results
                               (reporterOptions opts))]
            else [])
           ++ (if not_false (generateJsonReport opts)
               then [EvWriteFile (json_path env opts d)]
               else [])
      else []).

(** The four options [writeHtmlReport] sets itself. *)
Definition own_reporter_option (dir : path) (baseName pageDescription : string)
           (k : string) : option string :=
  if String.eqb k "projectKey" then Some pageDescription
  else if String.eqb k "reportFileName" then Some (baseName +:+ ".html")
  else if String.eqb k "outputDirPath" then Some (path_to_string dir)
  else if String.eqb k "outputDir" then Some "."
  else None.

(** The builder of a scan with no option set. *)
Definition default_builder (page : nat) : AxeBuilder :=
  {| b_page := page; b_include := []; b_exclude := []; b_disabledRules := [];
     b_tags := Some DEFAULT_TAGS |}.

(** A world where a file sits where the output directory should go. *)
Definition blocked_world : World :=
  {| files := <[ ["work"] := Dir ]> (<[ ["work"; "artifacts"] := File (Rendered "") ]> ∅);
     events := [] |}.

(** An environment whose scan engine throws. *)
Definition broken_engine_env : Env :=
  {| cwd := ["work"]; now := sample_time;
     analyze := fun _ => inl "page crashed";
     createHtmlReport := sample_reporter |}.

(** A result with a record whose severity is the name of a method every
    object inherits. *)
Definition odd_results : AxeResults :=
  {| violations := Some [sample (ImpactStr "critical"); sample (ImpactStr "toString")];
     url := None |}.

(** A result whose only record carries no severity. *)
Definition unrated_results : AxeResults :=
  {| violations := Some [sample ImpactNull]; url := None |}.

(** The options of the current version that ask for what the previous
    version does: every severity fails, no summary line, no rule switched
    off. *)
Definition upgraded_options (opts : Old.RunA11yOptions) : RunA11yOptions :=
  {| page := Old.page opts;
     pageDescription := Old.pageDescription opts;
     include := Old.include opts;
     exclude := Old.exclude opts;
     tags := Old.tags opts;
     disableRules := None;
     failOnViolations := Old.failOnViolations opts;
     failImpacts := Missing;
     outputDir := Old.outputDir opts;
     reporterOptions := Old.reporterOptions opts;
     generateHtmlReport := Old.generateHtmlReport opts;
     generateJsonReport := Old.generateJsonReport opts;
     logSummary := Some false |}.

(** No entry of the [rules] object switches a rule off. *)
Definition no_rule_switched_off (opts : Old.RunA11yOptions) : Prop :=
  forall entries, Old.rules opts = Some entries ->
                  Forall (fun entry => Old.switched_off entry.2 = false) entries.

(** How the outcomes of the two versions correspond. *)
Definition outcomes_correspond (failOn : bool)
           (current : RunError + AxeResults) (old : Old.Error + AxeResults) : Prop :=
  match current, old with
  | inr results, inr results' => results' = results
  | inr results, inl Old.TypeError => violations results = None
  | inr results, inl (Old.ViolationsFound _) =>
      failOn = true
      /\ violations_or_empty results <> []
      /\ Forall (fun v => recognized v = false) (violations_or_empty results)
  | inl (AccessibilityViolationsFound _), inl (Old.ViolationsFound _) => True
  | inl (ReportWriteFailure HtmlReport m), inl (Old.Raised (ReporterError m')) =>
      m = "Failed to generate HTML report: " +:+ m'
  | inl (ReportWriteFailure JsonReport m), inl (Old.Raised (FileSystemError m')) =>
      m = "Failed to write JSON report: " +:+ m'
  | inl (InvalidConfiguration m), inl (Old.Raised (InvalidConfiguration m')) =>
      m = "pageDescription is required and must be a non-empty string"
      /\ m' = "pageDescription is required and must be a string"
  | inl (FileSystemError m), inl (Old.Raised (FileSystemError m')) => m' = m
  | inl (ScanEngineFailure m), inl (Old.Raised (ScanEngineFailure m')) => m' = m
  | _, _ => False
  end.

(** Options of the previous version, for the examples. *)
Definition old_options (failOn : option bool)
           (rules : option (list (string * Old.rule_config))) : Old.RunA11yOptions :=
  {| Old.page := 1;
     Old.pageDescription := Given "Home page";
     Old.include := None;
     Old.exclude := None;
     Old.tags := None;
     Old.rules := rules;
     Old.failOnViolations := failOn;
     Old.outputDir := None;
     Old.reporterOptions := None;
     Old.generateHtmlReport := None;
     Old.generateJsonReport := None |}.

Definition cautious_old_options : Old.RunA11yOptions :=
  old_options (Some true) (Some [("color-contrast", Old.RuleObject (Some true))]).



(** Both report writes of a run go through: when there are violations,
    the HTML reporter (if switched on) answers with a new file tree from
    the tree [fs1] that [mkdir] left, and the JSON write (if switched on)
    succeeds on the tree after that. *)
Definition reports_written (env : Env) (opts : RunA11yOptions) (d : string)
           (results : AxeResults) (fs1 : gmap path node) : Prop :=
  (0 <? length (violations_or_empty results))%nat = true ->
  exists fs2 : gmap path node,
    (if not_false (generateHtmlReport opts)
     then createHtmlReport env
            (html_call (getArtifactsDir env (outputDir opts))
                       (reportBaseName (now env) d) d results (reporterOptions opts))
            fs1
     else inr fs1) = inr fs2
    /\ (not_false (generateJsonReport opts) = true ->
        exists fs3 : gmap path node,
          fs_writeFile_on
            (path_join (getArtifactsDir env (outputDir opts))
                       (reportBaseName (now env) d +:+ ".json"))
            (JsonOf results) fs2 = inr fs3).

(** A world where the output directory exists and a directory sits where
    the JSON report of [sample_time] should go. *)
Definition occupied_world : World :=
  {| files :=
       <[ ["work"; "artifacts"; "accessibility";
           "home-page-2024-03-09T07-05-59-042Z.json"] := Dir ]>
         (files prepared_world);
     events := [] |}.

(** * Properties *)

(** ** Counting by impact *)

Lemma initial_counts_four_numbers : four_numbers initial_counts.
Proof.
  intros k [-> | [-> | [-> | ->]]]; exists 0; reflexivity.
Qed.

Lemma initial_counts_bucket k : bucket initial_counts k = 0.
Proof.
  unfold bucket, initial_counts.
  repeat (rewrite lookup_insert; case_decide; [reflexivity|]).
  rewrite lookup_empty. reflexivity.
Qed.

Lemma add_one_other c s k : s <> k -> add_one c s !! k = c !! k.
Proof.
  intros Hne. unfold add_one.
  destruct (c !! s) as [[n|]|]; try (rewrite lookup_insert_ne; auto).
  destruct (String.eqb s "__proto__"); [reflexivity|].
  rewrite lookup_insert_ne; auto.
Qed.

Lemma count_step_other c v k :
  has_level k v = false -> count_step c v !! k = c !! k.
Proof.
  unfold has_level, count_step. intros Hk.
  destruct (v_impact v) as [| |s]; simpl; try reflexivity.
  destruct (negb (s =? "")%string); simpl; [|reflexivity].
  destruct (has_property c s); [|reflexivity].
  apply add_one_other. intros ->. rewrite String.eqb_refl in Hk. discriminate.
Qed.

Lemma count_step_same c v k n :
  is_level k -> has_level k v = true -> c !! k = Some (PNum n) ->
  count_step c v !! k = Some (PNum (n + 1)).
Proof.
  unfold has_level, count_step. intros Hlevel Hk Hc.
  destruct (v_impact v) as [| |s]; try discriminate.
  apply String.eqb_eq in Hk. subst s.
  assert (Hne : (k =? "")%string = false)
    by (destruct Hlevel as [-> | [-> | [-> | ->]]]; reflexivity).
  unfold truthy_impact. rewrite Hne. simpl.
  unfold has_property. rewrite Hc.
  rewrite bool_decide_eq_true_2 by eauto. simpl.
  unfold add_one. rewrite Hc. apply lookup_insert_eq.
Qed.

Lemma count_step_four_numbers c v :
  four_numbers c -> four_numbers (count_step c v).
Proof.
  intros Hc k Hk. destruct (Hc k Hk) as [n Hn].
  destruct (has_level k v) eqn:E.
  - exists (n + 1). eapply count_step_same; eauto.
  - exists n. rewrite count_step_other; auto.
Qed.

Lemma count_step_bucket c v k :
  four_numbers c -> is_level k ->
  bucket (count_step c v) k = bucket c k + (if has_level k v then 1 else 0).
Proof.
  intros Hc Hk. destruct (Hc k Hk) as [n Hn]. unfold bucket.
  destruct (has_level k v) eqn:E.
  - rewrite (count_step_same c v k n), Hn; auto.
  - rewrite count_step_other, Hn; auto.
Qed.

Lemma fold_count_bucket vs : forall c k,
  four_numbers c -> is_level k ->
  bucket (fold_left count_step vs c) k = bucket c k + tally k vs.
Proof.
  induction vs as [|v vs IH]; intros c k Hc Hk; simpl.
  - unfold tally. simpl. lia.
  - rewrite IH by auto using count_step_four_numbers.
    rewrite count_step_bucket by auto.
    unfold tally. simpl. destruct (has_level k v); simpl; lia.
Qed.

Lemma countByImpact_bucket results k :
  is_level k ->
  bucket (countByImpact results) k = tally k (violations_or_empty results).
Proof.
  intros Hk. unfold countByImpact.
  rewrite fold_count_bucket by auto using initial_counts_four_numbers.
  rewrite initial_counts_bucket. reflexivity.
Qed.

(** Every record is of exactly one of the four levels, or of none. *)
Lemma level_indicator v :
  Nat.b2n (has_level "critical" v) + Nat.b2n (has_level "serious" v)
  + Nat.b2n (has_level "moderate" v) + Nat.b2n (has_level "minor" v)
  + Nat.b2n (negb (recognized v)) = 1.
Proof.
  unfold has_level, recognized, includes, DEFAULT_FAIL_IMPACTS.
  destruct (v_impact v) as [| |s]; simpl; try reflexivity.
  destruct (String.eqb_spec s "critical") as [->|]; simpl; [reflexivity|].
  destruct (String.eqb_spec s "serious") as [->|]; simpl; [reflexivity|].
  destruct (String.eqb_spec s "moderate") as [->|]; simpl; [reflexivity|].
  destruct (String.eqb_spec s "minor") as [->|]; simpl; reflexivity.
Qed.

Lemma tally_partition vs :
  length vs =
    tally "critical" vs + tally "serious" vs + tally "moderate" vs
    + tally "minor" vs + length (List.filter (fun v => negb (recognized v)) vs).
Proof.
  unfold tally. induction vs as [|v vs IH]; simpl; [reflexivity|].
  pose proof (level_indicator v) as Hv.
  destruct (has_level "critical" v), (has_level "serious" v),
    (has_level "moderate" v), (has_level "minor" v), (recognized v);
    simpl in *; lia.
Qed.

Lemma unrecognized_has_no_level k v :
  is_level k -> recognized v = false -> has_level k v = false.
Proof.
  intros Hk Hr.
  unfold has_level, recognized, includes, DEFAULT_FAIL_IMPACTS in *.
  destruct (v_impact v) as [| |s]; try reflexivity.
  simpl in Hr. repeat (apply orb_false_elim in Hr as [? Hr]).
  destruct Hk as [-> | [-> | [-> | ->]]]; assumption.
Qed.

Lemma tally_filter_recognized k vs :
  is_level k -> tally k (List.filter recognized vs) = tally k vs.
Proof.
  intros Hk. unfold tally. induction vs as [|v vs IH]; [reflexivity|].
  cbn [List.filter]. destruct (recognized v) eqn:Hr.
  - cbn [List.filter]. destruct (has_level k v); cbn [length]; rewrite IH; reflexivity.
  - rewrite (unrecognized_has_no_level k v Hk Hr). exact IH.
Qed.

Lemma countByImpact_buckets results :
  buckets (countByImpact results) =
    ( tally "critical" (violations_or_empty results),
      tally "serious" (violations_or_empty results),
      tally "moderate" (violations_or_empty results),
      tally "minor" (violations_or_empty results) ).
Proof.
  unfold buckets.
  rewrite !countByImpact_bucket by (unfold is_level; auto).
  reflexivity.
Qed.

(** C5. [countByImpact] tallies one occurrence per record for each of the
    four levels; records whose impact is missing, [null], empty or any other
    string change none of the four buckets (dropping them all leaves the four
    counts as they are); and for the impacts critical, critical, unknown,
    serious the result is exactly critical 2, serious 1, moderate 0,
    minor 0. *)
Theorem countByImpact_tallies_levels :
  (forall results,
      buckets (countByImpact results) =
        ( tally "critical" (violations_or_empty results),
          tally "serious" (violations_or_empty results),
          tally "moderate" (violations_or_empty results),
          tally "minor" (violations_or_empty results) ))
  /\ (forall results,
         buckets (countByImpact (only_recognized results)) =
           buckets (countByImpact results))
  /\ buckets (countByImpact sample_results) = (2, 1, 0, 0)
  /\ countByImpact sample_results
     = <["critical" := PNum 2]> (<["serious" := PNum 1]>
         (<["moderate" := PNum 0]> (<["minor" := PNum 0]> ∅))).
Proof.
  split; [exact countByImpact_buckets|]. split; [|split].
  - intros results. rewrite !countByImpact_buckets.
    change (violations_or_empty (only_recognized results))
      with (List.filter recognized (violations_or_empty results)).
    rewrite !tally_filter_recognized by (unfold is_level; auto).
    reflexivity.
  - rewrite countByImpact_buckets. reflexivity.
  - vm_compute. reflexivity.
Qed.

Lemma sum_of_buckets_total results :
  sum_of_buckets (countByImpact results) + unrecognized_count results
  = length (violations_or_empty results).
Proof.
  unfold sum_of_buckets, unrecognized_count.
  rewrite !countByImpact_bucket by (unfold is_level; auto).
  symmetry. apply tally_partition.
Qed.

(** ** The report base name *)

Lemma append_nil (b : string) : "" +:+ b = b.
Proof. reflexivity. Qed.

Lemma append_cons (x : ascii) (a b : string) :
  String x a +:+ b = String x (a +:+ b).
Proof. reflexivity. Qed.

Lemma append_assoc (a b c : string) : (a +:+ b) +:+ c = a +:+ (b +:+ c).
Proof.
  induction a as [|x a IH]; [reflexivity|].
  rewrite !append_cons. f_equal. exact IH.
Qed.

Lemma length_append (a b : string) :
  String.length (a +:+ b) = String.length a + String.length b.
Proof.
  induction a as [|x a IH]; [reflexivity|].
  rewrite append_cons. simpl. f_equal. exact IH.
Qed.

Lemma ascii_compare_refl c : Ascii.compare c c = Eq.
Proof. unfold Ascii.compare. apply N.compare_refl. Qed.

Lemma compare_append_prefix (p a b : string) :
  String.compare (p +:+ a) (p +:+ b) = String.compare a b.
Proof.
  induction p as [|x p IH]; [reflexivity|].
  rewrite !append_cons. simpl. now rewrite ascii_compare_refl.
Qed.

Lemma compare_append_same_length (a1 a2 b1 b2 : string) :
  String.length a1 = String.length a2 ->
  String.compare (a1 +:+ b1) (a2 +:+ b2)
  = lex (String.compare a1 a2) (String.compare b1 b2).
Proof.
  revert a2. induction a1 as [|x a1 IH]; intros [|y a2] Hlen;
    simpl in Hlen; try discriminate; [reflexivity|].
  rewrite !append_cons. simpl.
  destruct (Ascii.compare x y); simpl; [|reflexivity..].
  apply IH. congruence.
Qed.

Lemma all_replace_each_outside (p : ascii -> bool) (s : string) :
  Str.all p (Str.replace_each (fun c => negb (p c)) "" s) = true.
Proof.
  induction s as [|c s IH]; simpl; [reflexivity|].
  destruct (p c) eqn:E; simpl; [rewrite E|]; exact IH.
Qed.

Lemma replace_each_append cls rep (a b : string) :
  Str.replace_each cls rep (a +:+ b)
  = Str.replace_each cls rep a +:+ Str.replace_each cls rep b.
Proof.
  induction a as [|x a IH]; [reflexivity|].
  rewrite append_cons. simpl.
  destruct (cls x); rewrite IH; [symmetry; apply append_assoc | reflexivity].
Qed.

(** Inside a run already replaced, the rest of the run leaves no trace. *)
Lemma replace_runs_rest_of_run cls rep (v : string) :
  starts_outside cls v = true ->
  forall ws : string,
    Str.all cls ws = true ->
    Str.replace_runs_from true cls rep (ws +:+ v)
    = Str.replace_runs_from false cls rep v.
Proof.
  intros Hv. induction ws as [|c ws IH]; intros Hws.
  - rewrite append_nil. destruct v as [|c v]; [reflexivity|].
    simpl in *. destruct (cls c); [discriminate | reflexivity].
  - rewrite append_cons. simpl in *. apply andb_prop in Hws as [-> Hws].
    rewrite append_nil. auto.
Qed.

(** What [/[cls]+/g] does to a maximal run: one copy of [rep]. *)
Lemma replace_runs_run cls rep (ws v : string) :
  ws <> "" -> Str.all cls ws = true -> starts_outside cls v = true ->
  Str.replace_runs cls rep (ws +:+ v) = rep +:+ Str.replace_runs cls rep v.
Proof.
  intros Hne Hws Hv. destruct ws as [|c ws]; [congruence|].
  unfold Str.replace_runs. rewrite append_cons. simpl in *.
  apply andb_prop in Hws as [-> Hws].
  now rewrite replace_runs_rest_of_run.
Qed.

Lemma digit_cases (P : nat -> Prop) :
  P 0 -> P 1 -> P 2 -> P 3 -> P 4 -> P 5 -> P 6 -> P 7 -> P 8 -> P 9 ->
  forall n, n < 10 -> P n.
Proof.
  intros H0 H1 H2 H3 H4 H5 H6 H7 H8 H9 n Hn.
  do 10 (destruct n as [|n]; [assumption|]). lia.
Qed.

Lemma digit_compare n m :
  Ascii.compare (digit n) (digit m) = Nat.compare (n mod 10) (m mod 10).
Proof.
  unfold digit.
  pose proof (Nat.mod_upper_bound n 10 ltac:(lia)) as Hn.
  pose proof (Nat.mod_upper_bound m 10 ltac:(lia)) as Hm.
  revert Hm. generalize (m mod 10). revert Hn. generalize (n mod 10).
  intros i Hi. pattern i. apply digit_cases; [..|exact Hi];
    intros j Hj; pattern j; apply digit_cases; try exact Hj; reflexivity.
Qed.

Lemma digit_not_colon_or_dot n : Chars.is_colon_or_dot (digit n) = false.
Proof.
  unfold digit.
  pose proof (Nat.mod_upper_bound n 10 ltac:(lia)) as Hn.
  revert Hn. generalize (n mod 10). intros i Hi. pattern i.
  apply digit_cases; try exact Hi; reflexivity.
Qed.

Lemma lex_div_mod n m :
  lex (Nat.compare (n / 10) (m / 10)) (Nat.compare (n mod 10) (m mod 10))
  = Nat.compare n m.
Proof.
  pose proof (Nat.div_mod_eq n 10). pose proof (Nat.div_mod_eq m 10).
  pose proof (Nat.mod_upper_bound n 10 ltac:(lia)).
  pose proof (Nat.mod_upper_bound m 10 ltac:(lia)).
  destruct (Nat.compare_spec (n / 10) (m / 10)),
    (Nat.compare_spec (n mod 10) (m mod 10)),
    (Nat.compare_spec n m); simpl; try reflexivity; exfalso; lia.
Qed.

Lemma length_pad w : forall n, String.length (pad w n) = w.
Proof.
  induction w as [|w IH]; intros n; cbn [pad]; [reflexivity|].
  rewrite length_append, IH. simpl. lia.
Qed.

Lemma compare_singleton (a b : ascii) :
  String.compare (String a "") (String b "") = Ascii.compare a b.
Proof. simpl. destruct (Ascii.compare a b); reflexivity. Qed.

Lemma compare_pad w : forall n m,
  n < 10 ^ w -> m < 10 ^ w ->
  String.compare (pad w n) (pad w m) = Nat.compare n m.
Proof.
  induction w as [|w IH]; intros n m Hn Hm.
  - rewrite Nat.pow_0_r in Hn, Hm.
    assert (n = 0) as -> by lia. assert (m = 0) as -> by lia. reflexivity.
  - rewrite Nat.pow_succ_r' in Hn, Hm. cbn [pad].
    rewrite compare_append_same_length by now rewrite !length_pad.
    rewrite IH by (apply Nat.Div0.div_lt_upper_bound; lia).
    rewrite compare_singleton, digit_compare.
    apply lex_div_mod.
Qed.

Lemma replace_each_pad w : forall n,
  Str.replace_each Chars.is_colon_or_dot "-" (pad w n) = pad w n.
Proof.
  induction w as [|w IH]; intros n; cbn [pad]; [reflexivity|].
  rewrite replace_each_append, IH. cbn [Str.replace_each].
  now rewrite digit_not_colon_or_dot.
Qed.

Lemma valid_datetime_bounds t :
  valid_datetime t = true ->
  ((0 <= year t <= 9999)%Z /\ Z.to_nat (year t) < 10 ^ 4)
  /\ month t < 10 ^ 2 /\ day t < 10 ^ 2
  /\ hour t < 10 ^ 2 /\ minute t < 10 ^ 2 /\ second t < 10 ^ 2
  /\ millisecond t < 10 ^ 3.
Proof.
  unfold valid_datetime. intros H.
  repeat (apply andb_prop in H as [H ?]).
  repeat match goal with
         | H : (_ <=? _)%Z = true |- _ => apply Z.leb_le in H
         | H : (_ <=? _)%nat = true |- _ => apply Nat.leb_le in H
         | H : (_ <? _)%nat = true |- _ => apply Nat.ltb_lt in H
         end.
  assert (Z.to_nat (year t) <= Z.to_nat 9999) by (apply Z2Nat.inj_le; lia).
  assert (Z.to_nat 9999 < 10 ^ 4) by (apply Nat.ltb_lt; vm_compute; reflexivity).
  change (10 ^ 2) with 100. change (10 ^ 3) with 1000.
  repeat split; try assumption; try lia.
Qed.

(** For a valid reading the timestamp has a fixed layout. *)
Lemma stamp_layout t :
  valid_datetime t = true ->
  stamp t =
    pad 4 (Z.to_nat (year t)) +:+ "-" +:+ pad 2 (month t) +:+ "-"
    +:+ pad 2 (day t) +:+ "T" +:+ pad 2 (hour t) +:+ "-"
    +:+ pad 2 (minute t) +:+ "-" +:+ pad 2 (second t) +:+ "-"
    +:+ pad 3 (millisecond t) +:+ "Z".
Proof.
  intros Hv. apply valid_datetime_bounds in Hv as [[[Hy0 Hy1] _] _].
  unfold stamp, iso_format, iso_year.
  apply Z.leb_le in Hy0, Hy1. rewrite Hy0, Hy1. cbn [andb].
  rewrite !replace_each_append, !replace_each_pad. reflexivity.
Qed.

Lemma lex_eq_r c : lex c Eq = c.
Proof. destruct c; reflexivity. Qed.

(** The timestamps of valid readings compare as the readings do. *)
Lemma stamp_compare t1 t2 :
  valid_datetime t1 = true -> valid_datetime t2 = true ->
  String.compare (stamp t1) (stamp t2) = dt_compare t1 t2.
Proof.
  intros H1 H2.
  rewrite (stamp_layout t1 H1), (stamp_layout t2 H2).
  apply valid_datetime_bounds in H1 as ([Hy1 ?] & ? & ? & ? & ? & ? & ?).
  apply valid_datetime_bounds in H2 as ([Hy2 ?] & ? & ? & ? & ? & ? & ?).
  rewrite !compare_append_same_length by (rewrite ?length_pad; reflexivity).
  rewrite !compare_pad by assumption.
  rewrite Z2Nat.inj_compare by lia.
  change (String.compare "-" "-") with Eq.
  change (String.compare "T" "T") with Eq.
  change (String.compare "Z" "Z") with Eq.
  cbn [lex]. rewrite lex_eq_r. reflexivity.
Qed.

(** *** The calendar *)

Section Calendar.

Local Open Scope Z_scope.

Lemma DaysInYear_cases y : DaysInYear y = 365 \/ DaysInYear y = 366.
Proof. unfold DaysInYear. destruct (is_leap_year y); auto. Qed.

Lemma year_forward_lower fuel : forall y day, y <= (year_forward fuel y day).1.
Proof.
  induction fuel as [|fuel IH]; intros y day; cbn [year_forward fst]; [lia|].
  destruct (day <? DaysInYear y); cbn [fst]; [lia|].
  specialize (IH (y + 1) (day - DaysInYear y)). lia.
Qed.

Lemma year_forward_mono fuel : forall y d1 d2,
  d1 < d2 -> pair_lt (year_forward fuel y d1) (year_forward fuel y d2).
Proof.
  induction fuel as [|fuel IH]; intros y d1 d2 Hlt; cbn [year_forward].
  - right. cbn. lia.
  - destruct (Z.ltb_spec d1 (DaysInYear y)), (Z.ltb_spec d2 (DaysInYear y)).
    + right. cbn. lia.
    + left. cbn [fst].
      pose proof (year_forward_lower fuel (y + 1) (d2 - DaysInYear y)). lia.
    + lia.
    + apply IH. lia.
Qed.

Lemma year_forward_inv fuel : forall y day,
  0 <= day ->
  0 <= (year_forward fuel y day).2
  /\ ((year_forward fuel y day).2 < DaysInYear (year_forward fuel y day).1
      \/ (year_forward fuel y day).1 = y + Z.of_nat fuel).
Proof.
  induction fuel as [|fuel IH]; intros y day Hday; cbn [year_forward].
  - cbn. lia.
  - destruct (Z.ltb_spec day (DaysInYear y)).
    + cbn. lia.
    + destruct (IH (y + 1) (day - DaysInYear y) ltac:(lia)) as [H1 H2].
      split; [exact H1|]. destruct H2; [auto|right; lia].
Qed.

Lemma year_backward_upper fuel : forall y day,
  (year_backward fuel y day).1 <= y
  /\ (fuel <> O -> (year_backward fuel y day).1 <= y - 1).
Proof.
  induction fuel as [|fuel IH]; intros y day; cbn [year_backward].
  - cbn. split; [lia | congruence].
  - destruct (0 <=? day + DaysInYear (y - 1)); cbn [fst]; [lia|].
    destruct (IH (y - 1) (day + DaysInYear (y - 1))) as [H1 _]. lia.
Qed.

Lemma year_backward_mono fuel : forall y d1 d2,
  d1 < d2 -> pair_lt (year_backward fuel y d1) (year_backward fuel y d2).
Proof.
  induction fuel as [|fuel IH]; intros y d1 d2 Hlt; cbn [year_backward].
  - right. cbn. lia.
  - destruct (Z.leb_spec 0 (d1 + DaysInYear (y - 1))),
      (Z.leb_spec 0 (d2 + DaysInYear (y - 1))).
    + right. cbn. lia.
    + lia.
    + destruct fuel as [|fuel].
      * right. cbn. lia.
      * left. cbn [fst].
        destruct (year_backward_upper (S fuel) (y - 1) (d1 + DaysInYear (y - 1)))
          as [_ Hup]. specialize (Hup ltac:(congruence)). lia.
    + apply IH. lia.
Qed.

Lemma year_backward_inv fuel : forall y day,
  day < 0 ->
  ((0 <= (year_backward fuel y day).2
    /\ (year_backward fuel y day).2 < DaysInYear (year_backward fuel y day).1)
   \/ (year_backward fuel y day).1 = y - Z.of_nat fuel).
Proof.
  induction fuel as [|fuel IH]; intros y day Hday; cbn [year_backward].
  - right. cbn. lia.
  - destruct (Z.leb_spec 0 (day + DaysInYear (y - 1))).
    + left. cbn. lia.
    + destruct (IH (y - 1) (day + DaysInYear (y - 1)) ltac:(lia)) as [H1 | H2].
      * left. exact H1.
      * right. lia.
Qed.

(** Each step of the walk takes at least 365 days. *)
Lemma year_forward_pace fuel : forall y day,
  0 <= day ->
  365 * ((year_forward fuel y day).1 - y) <= day - (year_forward fuel y day).2
  /\ y <= (year_forward fuel y day).1.
Proof.
  induction fuel as [|fuel IH]; intros y day Hday; cbn [year_forward].
  - cbn. lia.
  - destruct (Z.ltb_spec day (DaysInYear y)).
    + cbn. lia.
    + destruct (DaysInYear_cases y);
        destruct (IH (y + 1) (day - DaysInYear y) ltac:(lia)); lia.
Qed.

Lemma year_backward_pace fuel : forall y day,
  day < 0 ->
  365 * (y - (year_backward fuel y day).1) <= (year_backward fuel y day).2 - day
  /\ (year_backward fuel y day).1 <= y
  /\ (year_backward fuel y day).2 < 366.
Proof.
  induction fuel as [|fuel IH]; intros y day Hday; cbn [year_backward].
  - cbn. lia.
  - destruct (Z.leb_spec 0 (day + DaysInYear (y - 1))).
    + cbn. destruct (DaysInYear_cases (y - 1)); lia.
    + destruct (DaysInYear_cases (y - 1));
        destruct (IH (y - 1) (day + DaysInYear (y - 1)) ltac:(lia)); lia.
Qed.

(** For the days of all time values the walk ends inside a year. *)
Lemma year_and_day_wide d :
  -100000000 <= d <= 100000000 ->
  -1000000 < (year_and_day d).1 < 1000000
  /\ 0 <= (year_and_day d).2 < DaysInYear (year_and_day d).1.
Proof.
  intros Hd.
  assert (Z.of_nat year_fuel = 300000) as Hfuel by (unfold year_fuel; lia).
  unfold year_and_day. destruct (Z.leb_spec 0 d).
  - destruct (year_forward_pace year_fuel 1970 d ltac:(lia)) as [Hpace Hlow].
    destruct (year_forward_inv year_fuel 1970 d ltac:(lia)) as [H1 [H2 | H2]]; lia.
  - destruct (year_backward_pace year_fuel 1970 d ltac:(lia)) as (Hpace & Hup & Hsmall).
    destruct (year_backward_inv year_fuel 1970 d ltac:(lia)) as [H1 | H2]; lia.
Qed.

Lemma year_and_day_mono d1 d2 :
  d1 < d2 -> pair_lt (year_and_day d1) (year_and_day d2).
Proof.
  intros Hlt. unfold year_and_day.
  destruct (Z.leb_spec 0 d1), (Z.leb_spec 0 d2).
  - now apply year_forward_mono.
  - lia.
  - left.
    pose proof (year_forward_lower year_fuel 1970 d2).
    destruct (year_backward_upper year_fuel 1970 d1) as [_ Hup].
    assert (year_fuel <> O) as Hfuel by (unfold year_fuel; lia).
    specialize (Hup Hfuel). lia.
  - now apply year_backward_mono.
Qed.

Lemma DayFromYear_step y : DayFromYear (y + 1) = DayFromYear y + DaysInYear y.
Proof.
  unfold DayFromYear, DaysInYear, is_leap_year.
  destruct (Z.eqb_spec (y mod 4) 0), (Z.eqb_spec (y mod 100) 0),
    (Z.eqb_spec (y mod 400) 0); cbn [andb orb negb];
    Z.div_mod_to_equations; lia.
Qed.

Lemma year_forward_DayFromYear fuel : forall y day,
  DayFromYear (year_forward fuel y day).1 + (year_forward fuel y day).2
  = DayFromYear y + day.
Proof.
  induction fuel as [|fuel IH]; intros y day; cbn [year_forward]; [reflexivity|].
  destruct (day <? DaysInYear y); [reflexivity|].
  rewrite IH, DayFromYear_step. lia.
Qed.

Lemma year_backward_DayFromYear fuel : forall y day,
  DayFromYear (year_backward fuel y day).1 + (year_backward fuel y day).2
  = DayFromYear y + day.
Proof.
  induction fuel as [|fuel IH]; intros y day; cbn [year_backward]; [reflexivity|].
  pose proof (DayFromYear_step (y - 1)) as Hstep.
  replace (y - 1 + 1) with y in Hstep by lia.
  destruct (0 <=? day + DaysInYear (y - 1)); cbn [fst snd]; [lia|].
  rewrite IH. lia.
Qed.

(** [year_and_day] gives ECMAScript's [YearFromTime] and [DayWithinYear]:
    the year is the one whose first day is the last not after the day. *)
Lemma year_and_day_YearFromTime d :
  -100000000 <= d <= 100000000 ->
  DayFromYear (year_and_day d).1 <= d < DayFromYear ((year_and_day d).1 + 1)
  /\ (year_and_day d).2 = d - DayFromYear (year_and_day d).1.
Proof.
  intros Hd. destruct (year_and_day_wide d Hd) as [_ Hdoy].
  assert (DayFromYear (year_and_day d).1 + (year_and_day d).2 = d) as Hsum.
  { unfold year_and_day. destruct (0 <=? d).
    - rewrite year_forward_DayFromYear. reflexivity.
    - rewrite year_backward_DayFromYear. reflexivity. }
  rewrite DayFromYear_step. lia.
Qed.

Lemma year_and_day_first : year_and_day first_day = (0, 0).
Proof. vm_compute. reflexivity. Qed.

Lemma year_and_day_last : year_and_day last_day = (9999, 364).
Proof. vm_compute. reflexivity. Qed.

(** Between the first and the last day the year has four digits. *)
Lemma year_and_day_range d :
  first_day <= d <= last_day -> 0 <= (year_and_day d).1 <= 9999.
Proof.
  intros [Hlo Hhi]. split.
  - destruct (Z.eq_dec d first_day) as [->|Hne];
      [rewrite year_and_day_first; cbn; lia|].
    destruct (year_and_day_mono first_day d ltac:(lia)) as [H | [H _]];
      rewrite year_and_day_first in H; cbn in H; lia.
  - destruct (Z.eq_dec d last_day) as [->|Hne];
      [rewrite year_and_day_last; cbn; lia|].
    destruct (year_and_day_mono d last_day ltac:(lia)) as [H | [H _]];
      rewrite year_and_day_last in H; cbn in H; lia.
Qed.

Lemma month_and_date_range (doy : Z) (leap : bool) :
  0 <= doy < (if leap then 366 else 365) ->
  1 <= (month_and_date doy leap).1 <= 12
  /\ 1 <= (month_and_date doy leap).2 <= 31.
Proof.
  intros Hdoy. unfold month_and_date.
  destruct leap;
    repeat match goal with
      | |- context [if ?a <? ?b then _ else _] => destruct (Z.ltb_spec a b)
      end; cbn [fst snd]; lia.
Qed.

Lemma month_and_date_mono (d1 d2 : Z) (leap : bool) :
  d1 < d2 -> pair_lt (month_and_date d1 leap) (month_and_date d2 leap).
Proof.
  intros Hlt. unfold pair_lt, month_and_date.
  destruct leap;
    repeat match goal with
      | |- context [if ?a <? ?b then _ else _] => destruct (Z.ltb_spec a b)
      end; cbn [fst snd]; lia.
Qed.

Lemma time_of_day_lex (a b : Z) :
  0 <= a < b -> b < msPerDay ->
  a / 3600000 < b / 3600000
  \/ (a / 3600000 = b / 3600000
      /\ (a / 60000 mod 60 < b / 60000 mod 60
          \/ (a / 60000 mod 60 = b / 60000 mod 60
              /\ (a / 1000 mod 60 < b / 1000 mod 60
                  \/ (a / 1000 mod 60 = b / 1000 mod 60
                      /\ a mod 1000 < b mod 1000))))).
Proof.
  unfold msPerDay. intros Ha Hb.
  Z.div_mod_to_equations. lia.
Qed.

Lemma time_of_day_range (a : Z) :
  0 <= a < msPerDay ->
  0 <= a / 3600000 < 24 /\ 0 <= a / 60000 mod 60 < 60
  /\ 0 <= a / 1000 mod 60 < 60 /\ 0 <= a mod 1000 < 1000.
Proof.
  unfold msPerDay. intros Ha.
  Z.div_mod_to_equations. lia.
Qed.

Lemma day_range t :
  first_time <= t <= last_time -> first_day <= t / msPerDay <= last_day.
Proof.
  unfold first_time, last_time, first_day, last_day, msPerDay. intros Ht.
  Z.div_mod_to_equations. lia.
Qed.

Lemma day_wide t :
  min_time <= t <= max_time ->
  -100000000 <= t / msPerDay <= 100000000 /\ 0 <= t mod msPerDay < msPerDay.
Proof.
  unfold min_time, max_time, msPerDay. intros Ht.
  Z.div_mod_to_equations. lia.
Qed.

(** What [utc_fields] gives for the time value of a [Date]. *)
Lemma utc_fields_bounds t :
  min_time <= t <= max_time ->
  -1000000 < (year_and_day (t / msPerDay)).1 < 1000000
  /\ 1 <= (month_and_date (year_and_day (t / msPerDay)).2
                          (is_leap_year (year_and_day (t / msPerDay)).1)).1 <= 12
  /\ 1 <= (month_and_date (year_and_day (t / msPerDay)).2
                          (is_leap_year (year_and_day (t / msPerDay)).1)).2 <= 31
  /\ 0 <= t mod msPerDay / 3600000 < 24
  /\ 0 <= t mod msPerDay / 60000 mod 60 < 60
  /\ 0 <= t mod msPerDay / 1000 mod 60 < 60
  /\ 0 <= t mod msPerDay mod 1000 < 1000.
Proof.
  intros Ht. destruct (day_wide t Ht) as [Hday Htod].
  destruct (year_and_day_wide _ Hday) as [Hyear Hdoy].
  pose proof (month_and_date_range (year_and_day (t / msPerDay)).2
                (is_leap_year (year_and_day (t / msPerDay)).1)) as Hmd.
  unfold DaysInYear in Hdoy. specialize (Hmd Hdoy).
  pose proof (time_of_day_range _ Htod). tauto.
Qed.

Lemma utc_fields_in_range t :
  min_time <= t <= max_time -> fields_in_range (utc_fields t).
Proof.
  intros Ht. pose proof (utc_fields_bounds t Ht) as H.
  unfold fields_in_range, utc_fields.
  cbn [year month day hour minute second millisecond].
  change (10 ^ 2)%nat with 100%nat. change (10 ^ 3)%nat with 1000%nat. lia.
Qed.

Lemma utc_fields_valid t :
  first_time <= t <= last_time -> valid_datetime (utc_fields t) = true.
Proof.
  intros Ht.
  assert (min_time <= t <= max_time) as Hwide
      by (unfold first_time, last_time, min_time, max_time in *; lia).
  pose proof (utc_fields_bounds t Hwide) as H.
  pose proof (year_and_day_range _ (day_range t Ht)) as Hyear.
  unfold valid_datetime, utc_fields.
  cbn [year month day hour minute second millisecond].
  repeat (apply andb_true_intro; split).
  all: first [ apply Z.leb_le | apply Nat.leb_le | apply Nat.ltb_lt ]; lia.
Qed.

Lemma lex_lt (c1 c2 : comparison) :
  c1 = Lt \/ (c1 = Eq /\ c2 = Lt) -> lex c1 c2 = Lt.
Proof. intros [-> | [-> ->]]; reflexivity. Qed.

Lemma nat_compare_to_nat (a b : Z) :
  0 <= a -> 0 <= b -> Nat.compare (Z.to_nat a) (Z.to_nat b) = Z.compare a b.
Proof. intros Ha Hb. now apply Z2Nat.inj_compare. Qed.

Lemma compare_lt_or_eq (a b : Z) (rest : comparison) :
  a < b \/ (a = b /\ rest = Lt) -> lex (a ?= b) rest = Lt.
Proof.
  intros [H | [-> H]]; apply lex_lt.
  - left. now apply Z.compare_lt_iff.
  - right. split; [apply Z.compare_refl | exact H].
Qed.

(** A later time value has later fields. *)
Lemma utc_fields_mono t1 t2 :
  min_time <= t1 -> t1 < t2 -> t2 <= max_time ->
  dt_compare (utc_fields t1) (utc_fields t2) = Lt.
Proof.
  intros Hlo Hlt Hhi.
  pose proof (utc_fields_bounds t1 ltac:(lia)) as H1.
  pose proof (utc_fields_bounds t2 ltac:(lia)) as H2.
  destruct (day_wide t1 ltac:(lia)) as [_ Htod1].
  destruct (day_wide t2 ltac:(lia)) as [_ Htod2].
  unfold dt_compare, utc_fields.
  cbn [year month day hour minute second millisecond].
  rewrite !nat_compare_to_nat by lia.
  assert (t1 / msPerDay < t2 / msPerDay
          \/ (t1 / msPerDay = t2 / msPerDay /\ t1 mod msPerDay < t2 mod msPerDay))
    as [Hday | [Hday Htod]].
  { unfold msPerDay. Z.div_mod_to_equations. lia. }
  - destruct (year_and_day_mono _ _ Hday) as [Hy | [Hy Hd]].
    + apply compare_lt_or_eq. left. exact Hy.
    + apply compare_lt_or_eq. right. split; [exact Hy|].
      rewrite Hy.
      destruct (month_and_date_mono _ _
                  (is_leap_year (year_and_day (t2 / msPerDay)).1) Hd)
        as [Hm | [Hm Hdate]].
      * apply compare_lt_or_eq. left. exact Hm.
      * apply compare_lt_or_eq. right. split; [exact Hm|].
        apply compare_lt_or_eq. left. exact Hdate.
  - rewrite Hday.
    rewrite !Z.compare_refl. cbn [lex].
    destruct (time_of_day_lex _ _ (conj (proj1 Htod1) Htod) (proj2 Htod2))
      as [Hh | [Hh [Hmi | [Hmi [Hs | [Hs Hms]]]]]].
    + apply compare_lt_or_eq. left. exact Hh.
    + apply compare_lt_or_eq. right. split; [exact Hh|].
      apply compare_lt_or_eq. left. exact Hmi.
    + apply compare_lt_or_eq. right. split; [exact Hh|].
      apply compare_lt_or_eq. right. split; [exact Hmi|].
      apply compare_lt_or_eq. left. exact Hs.
    + apply compare_lt_or_eq. right. split; [exact Hh|].
      apply compare_lt_or_eq. right. split; [exact Hmi|].
      apply compare_lt_or_eq. right. split; [exact Hs|].
      now apply Z.compare_lt_iff.
Qed.

End Calendar.

Lemma string_compare_refl (x : string) : String.compare x x = Eq.
Proof.
  induction x as [|c x IH]; simpl; [reflexivity|].
  now rewrite ascii_compare_refl.
Qed.

Lemma dt_compare_refl t : dt_compare t t = Eq.
Proof.
  unfold dt_compare. now rewrite Z.compare_refl, !Nat.compare_refl.
Qed.

(** *** Timestamps tell the fields apart *)

Lemma append_inj_length (a1 a2 b1 b2 : string) :
  String.length a1 = String.length a2 ->
  a1 +:+ b1 = a2 +:+ b2 -> a1 = a2 /\ b1 = b2.
Proof.
  revert a2. induction a1 as [|x a1 IH]; intros [|y a2] Hlen Heq;
    simpl in Hlen; try discriminate.
  - split; [reflexivity | exact Heq].
  - rewrite !append_cons in Heq. inversion Heq; subst y.
    destruct (IH a2 ltac:(congruence) ltac:(assumption)) as [-> ->].
    split; reflexivity.
Qed.

Lemma pad_inj w n m :
  n < 10 ^ w -> m < 10 ^ w -> pad w n = pad w m -> n = m.
Proof.
  intros Hn Hm Heq. apply Nat.compare_eq_iff.
  rewrite <- (compare_pad w n m Hn Hm), Heq. apply string_compare_refl.
Qed.

Lemma replace_each_iso_year y :
  Str.replace_each Chars.is_colon_or_dot "-" (iso_year y) = iso_year y.
Proof.
  unfold iso_year.
  destruct ((0 <=? y)%Z && (y <=? 9999)%Z); [apply replace_each_pad|].
  rewrite replace_each_append, replace_each_pad.
  destruct (y <? 0)%Z; reflexivity.
Qed.

(** Whatever the year, the timestamp has this layout. *)
Lemma stamp_layout_any t :
  stamp t =
    iso_year (year t) +:+ "-" +:+ pad 2 (month t) +:+ "-"
    +:+ pad 2 (day t) +:+ "T" +:+ pad 2 (hour t) +:+ "-"
    +:+ pad 2 (minute t) +:+ "-" +:+ pad 2 (second t) +:+ "-"
    +:+ pad 3 (millisecond t) +:+ "Z".
Proof.
  unfold stamp, iso_format.
  rewrite !replace_each_append, !replace_each_pad, replace_each_iso_year.
  reflexivity.
Qed.

Lemma digit_not_sign n (r1 r2 : string) :
  String (digit n) r1 <> "+" +:+ r2 /\ String (digit n) r1 <> "-" +:+ r2.
Proof.
  unfold digit.
  pose proof (Nat.mod_upper_bound n 10 ltac:(lia)) as Hn.
  revert Hn. generalize (n mod 10). intros i Hi. pattern i.
  apply digit_cases; try exact Hi; split; discriminate.
Qed.

Lemma four_digits (y : Z) : (0 <= y <= 9999)%Z -> Z.to_nat y < 10 ^ 4.
Proof.
  intros Hy.
  assert (Z.to_nat y <= Z.to_nat 9999) by (apply Z2Nat.inj_le; lia).
  assert (Z.to_nat 9999 < 10 ^ 4) by (apply Nat.ltb_lt; vm_compute; reflexivity).
  lia.
Qed.

Lemma six_digits (y : Z) :
  (-1000000 < y < 1000000)%Z -> Z.to_nat (Z.abs y) < 10 ^ 6.
Proof.
  intros Hy.
  assert (Z.to_nat (Z.abs y) <= Z.to_nat 999999) by (apply Z2Nat.inj_le; lia).
  assert (Z.to_nat 999999 < 10 ^ 6) by (apply Nat.ltb_lt; vm_compute; reflexivity).
  lia.
Qed.

(** A year of four digits starts with a digit. *)
Lemma pad_four_head n (r : string) :
  exists k rest, pad 4 n +:+ r = String (digit k) rest.
Proof.
  exists (n / 10 / 10 / 10). eexists. cbn [pad].
  rewrite !append_assoc, append_nil, append_cons. reflexivity.
Qed.

Lemma string_cons_inj (c1 c2 : ascii) (a b : string) :
  String c1 a = String c2 b -> c1 = c2 /\ a = b.
Proof. intros H. injection H as -> ->. split; reflexivity. Qed.

(** The year and what follows it can be read back from the text. *)
Lemma iso_year_inj (y1 y2 : Z) (r1 r2 : string) :
  (-1000000 < y1 < 1000000)%Z -> (-1000000 < y2 < 1000000)%Z ->
  iso_year y1 +:+ r1 = iso_year y2 +:+ r2 -> y1 = y2 /\ r1 = r2.
Proof.
  intros H1 H2. unfold iso_year.
  destruct (Z.leb_spec 0 y1), (Z.leb_spec y1 9999),
    (Z.leb_spec 0 y2), (Z.leb_spec y2 9999); cbn [andb]; intros Heq;
    try lia.
  all: repeat match type of Heq with
         | context [(?a <? ?b)%Z] => destruct (Z.ltb_spec a b); try lia
         end.
  all: lazymatch type of Heq with
       | pad 4 _ +:+ _ = pad 4 _ +:+ _ =>
           apply append_inj_length in Heq as [Hy ->]; [|now rewrite !length_pad];
           apply pad_inj in Hy; [|now apply four_digits ..];
           split; [lia | reflexivity]
       | pad 4 ?n +:+ ?r = _ =>
           destruct (pad_four_head n r) as (k & rest & Hhead);
           rewrite Hhead, append_assoc in Heq; exfalso;
           first [ now apply (proj1 (digit_not_sign k rest _)) in Heq
                 | now apply (proj2 (digit_not_sign k rest _)) in Heq ]
       | _ = pad 4 ?n +:+ ?r =>
           destruct (pad_four_head n r) as (k & rest & Hhead);
           rewrite Hhead, append_assoc in Heq; symmetry in Heq; exfalso;
           first [ now apply (proj1 (digit_not_sign k rest _)) in Heq
                 | now apply (proj2 (digit_not_sign k rest _)) in Heq ]
       | _ =>
           rewrite !append_assoc, !append_cons, !append_nil in Heq;
           apply string_cons_inj in Heq as [Hsign Hrest];
           first
             [ discriminate Hsign
             | apply append_inj_length in Hrest as [Hy ->];
               [|now rewrite !length_pad];
               apply pad_inj in Hy; [|now apply six_digits ..];
               split; [lia | reflexivity] ]
       end.
Qed.

(** The fields can be read back from the timestamp. *)
Lemma stamp_inj t1 t2 :
  fields_in_range t1 -> fields_in_range t2 -> stamp t1 = stamp t2 -> t1 = t2.
Proof.
  intros (Hy1 & ? & ? & ? & ? & ? & ?) (Hy2 & ? & ? & ? & ? & ? & ?).
  rewrite !stamp_layout_any. intros Heq.
  apply iso_year_inj in Heq as [Hyear Heq]; [|assumption ..].
  repeat match type of Heq with
         | String _ _ = String _ _ =>
             apply string_cons_inj in Heq as [_ Heq]
         | _ +:+ _ = _ +:+ _ =>
             first
               [ rewrite !(append_cons _ EmptyString), !append_nil in Heq
               | let Hf := fresh "Hfield" in
                 apply append_inj_length in Heq as [Hf Heq];
                 [apply pad_inj in Hf; [|assumption ..] | now rewrite !length_pad] ]
         end.
  destruct t1, t2. cbn in *. congruence.
Qed.

Lemma append_inj_prefix (p a b : string) : p +:+ a = p +:+ b -> a = b.
Proof.
  induction p as [|x p IH]; intros H; [exact H|].
  rewrite !append_cons in H. apply string_cons_inj in H as [_ H]. auto.
Qed.

(** Two time values of a [Date] never share a base name. *)
Lemma reportBaseName_distinct d t1 t2 :
  (min_time <= t1)%Z -> (t1 < t2)%Z -> (t2 <= max_time)%Z ->
  reportBaseName t1 d <> reportBaseName t2 d.
Proof.
  intros Hlo Hlt Hhi Heq. unfold reportBaseName in Heq.
  do 2 apply append_inj_prefix in Heq.
  change (stamp (utc_fields t1) = stamp (utc_fields t2)) in Heq.
  apply stamp_inj in Heq; [|apply utc_fields_in_range; lia ..].
  pose proof (utc_fields_mono t1 t2 Hlo Hlt Hhi) as Hmono.
  rewrite Heq, dt_compare_refl in Hmono. discriminate.
Qed.

(** Between the years 0000 and 9999 the base names of one description
    compare as the times of the calls do. *)
Lemma reportBaseName_compare d t1 t2 :
  (first_time <= t1)%Z -> (t1 < t2)%Z -> (t2 <= last_time)%Z ->
  String.compare (reportBaseName t1 d) (reportBaseName t2 d) = Lt.
Proof.
  intros Hlo Hlt Hhi. unfold reportBaseName.
  rewrite !compare_append_prefix.
  change (String.compare (stamp (utc_fields t1)) (stamp (utc_fields t2)) = Lt).
  rewrite stamp_compare by (apply utc_fields_valid; lia).
  apply utc_fields_mono; unfold first_time, last_time, min_time, max_time in *; lia.
Qed.

(** C6, as stated, fails: one millisecond after the last instant of the
    year 9999 the year is printed as [+010000], and the later name sorts
    before the earlier one. *)
Lemma reportBaseName_order_counterexample :
  reportBaseName last_time "Home page" = "home-page-9999-12-31T23-59-59-999Z"
  /\ reportBaseName (last_time + 1) "Home page"
     = "home-page-+010000-01-01T00-00-00-000Z"
  /\ String.compare (reportBaseName last_time "Home page")
                    (reportBaseName (last_time + 1) "Home page") = Gt.
Proof.
  split; [vm_compute; reflexivity|].
  split; vm_compute; reflexivity.
Qed.

(** C6, amended. The base name is the page description lower-cased, with
    every run of whitespace turned into one hyphen and every character
    outside [[a-z0-9_-]] dropped, followed by a hyphen and the timestamp;
    for "My Page! 2024" it is [my-page-2024-<timestamp>]; two calls with
    the same description, the second at least one millisecond of the clock
    after the first, give distinct names; and when both calls fall in the
    years 0000 to 9999 the names sort in the order of the calls. *)
Theorem reportBaseName_sorts_by_time
        (d : string) (t1 t2 : Z) (ws rest : string)
        (Hmin : (min_time <= t1)%Z)
        (Hapart : (t1 + 1 <= t2)%Z)
        (Hmax : (t2 <= max_time)%Z)
        (Hrun : ws <> "")
        (Hspaces : Str.all Chars.is_space ws = true)
        (Hrest : starts_outside Chars.is_space rest = true) :
  reportBaseName t1 d = normalized d +:+ "-" +:+ timestamp t1
  /\ normalized d =
       Str.replace_each (fun c => negb (Chars.is_name_char c)) ""
         (Str.replace_runs Chars.is_space "-" (Str.toLowerCase d))
  /\ Str.replace_runs Chars.is_space "-" (ws +:+ rest)
     = "-" +:+ Str.replace_runs Chars.is_space "-" rest
  /\ Str.all Chars.is_name_char (normalized d) = true
  /\ reportBaseName t1 "My Page! 2024" = "my-page-2024-" +:+ timestamp t1
  /\ reportBaseName t1 d <> reportBaseName t2 d
  /\ ((first_time <= t1)%Z -> (t2 <= last_time)%Z ->
      String.compare (reportBaseName t1 d) (reportBaseName t2 d) = Lt).
Proof.
  split; [reflexivity|]. split; [reflexivity|].
  split; [now apply replace_runs_run|].
  split; [apply all_replace_each_outside|].
  split; [reflexivity|].
  split.
  - apply reportBaseName_distinct; lia.
  - intros Hfirst Hlast. apply reportBaseName_compare; lia.
Qed.

Lemma reportBaseName_sorts_by_time_witness :
  reportBaseName sample_time "Home page"
  = "home-page-2024-03-09T07-05-59-042Z"
  /\ reportBaseName sample_time_next "Home page"
     = "home-page-2024-03-09T07-05-59-043Z"
  /\ reportBaseName sample_time "Home page"
     <> reportBaseName sample_time_next "Home page"
  /\ String.compare (reportBaseName sample_time "Home page")
                    (reportBaseName sample_time_next "Home page") = Lt.
Proof.
  pose proof (reportBaseName_sorts_by_time
                "Home page" sample_time sample_time_next " " "page"
                ltac:(vm_compute; discriminate) ltac:(vm_compute; discriminate)
                ltac:(vm_compute; discriminate) ltac:(discriminate)
                eq_refl eq_refl)
    as (_ & _ & _ & _ & _ & Hdistinct & Hsorted).
  split; [vm_compute; reflexivity|]. split; [vm_compute; reflexivity|].
  split; [exact Hdistinct|].
  apply Hsorted; vm_compute; discriminate.
Defined.

(** ** Running the monad, one call at a time *)

Lemma bind_run {A B} (m : M A) (f : A -> M B) (w : World) :
  (m ≫= f) w =
    match m w with
    | (inr a, w') => f a w'
    | (inl e, w') => (inl e, w')
    end.
Proof. reflexivity. Qed.

Lemma lift_run {A} (r : RunError + A) w : lift r w = (r, w).
Proof. reflexivity. Qed.

Lemma mret_run {A} (a : A) (w : World) : (mret a : M A) w = (inr a, w).
Proof. reflexivity. Qed.

Lemma throw_run {A} (e : RunError) (w : World) : (throw e : M A) w = (inl e, w).
Proof. reflexivity. Qed.

Lemma console_log_run line w :
  console_log line w = (inr tt, logged w [EvLog line]).
Proof. reflexivity. Qed.

Lemma ensureDir_run dir w :
  ensureDir dir w =
    match fs_mkdir_on true dir (files w) with
    | inr fs1 =>
        (inr tt, {| files := fs1;
                    events := (events w ++ [EvMkdir dir true])%list |})
    | inl m => (inl (FileSystemError m), logged w [EvMkdir dir true])
    end.
Proof.
  unfold ensureDir, fs_mkdir, on_files, emit, logged, mbind, M_bind.
  cbn [files events].
  destruct (fs_mkdir_on true dir (files w)); reflexivity.
Qed.

Lemma runAxeScan_run env opts w :
  runAxeScan env opts w =
    match analyze env (configured_builder opts) with
    | inr results =>
        (inr results, logged w [EvAnalyze (configured_builder opts)])
    | inl m =>
        (inl (ScanEngineFailure m), logged w [EvAnalyze (configured_builder opts)])
    end.
Proof.
  unfold runAxeScan, builder_analyze, emit, logged, mbind, M_bind.
  destruct (analyze env (configured_builder opts)); reflexivity.
Qed.

Lemma writeHtmlReport_run env dir base d results ro w :
  writeHtmlReport env dir base d results ro w =
    match createHtmlReport env (html_call dir base d results ro) (files w) with
    | inr fs' =>
        (inr (path_join dir (base +:+ ".html")),
         {| files := fs';
            events := (events w
                       ++ [EvCreateHtmlReport (html_call dir base d results ro)])%list |})
    | inl m =>
        (inl (ReportWriteFailure HtmlReport
                ("Failed to generate HTML report: " +:+ m)),
         logged w [EvCreateHtmlReport (html_call dir base d results ro)])
    end.
Proof.
  unfold writeHtmlReport, call_createHtmlReport, reporter_runs, try_catch,
    throw, emit, logged, mbind, M_bind, mret, M_ret, html_call.
  cbn [files events].
  destruct (createHtmlReport env _ (files w)); reflexivity.
Qed.

Lemma writeJsonReport_run dir base results w :
  writeJsonReport dir base results w =
    match fs_writeFile_on (path_join dir (base +:+ ".json")) (JsonOf results)
                          (files w) with
    | inr fs' =>
        (inr (path_join dir (base +:+ ".json")),
         {| files := fs';
            events := (events w
                       ++ [EvWriteFile (path_join dir (base +:+ ".json"))])%list |})
    | inl m =>
        (inl (ReportWriteFailure JsonReport ("Failed to write JSON report: " +:+ m)),
         logged w [EvWriteFile (path_join dir (base +:+ ".json"))])
    end.
Proof.
  unfold writeJsonReport, fs_writeFile, on_files, try_catch, throw, emit,
    logged, mbind, M_bind, mret, M_ret.
  cbn [files events].
  destruct (fs_writeFile_on _ _ (files w)); reflexivity.
Qed.

(** Run the calls of a computation in hypothesis [H], one after the other,
    splitting on every outcome. *)
Ltac exec_in H :=
  repeat first
    [ rewrite bind_run in H
    | rewrite lift_run in H
    | rewrite mret_run in H
    | rewrite throw_run in H
    | rewrite console_log_run in H
    | rewrite ensureDir_run in H
    | rewrite runAxeScan_run in H
    | rewrite writeHtmlReport_run in H
    | rewrite writeJsonReport_run in H
    | match type of H with
      | context [match ?x with _ => _ end] =>
          match x with
          | context [match _ with _ => _ end] => fail 1
          | _ => destruct x eqn:?
          end
      end
    | progress cbv beta iota in H ].

(** Bring the events of the final world into the shape [events w ++ new]. *)
Ltac show_events :=
  unfold logged; cbn [events files]; rewrite <- ?app_assoc; cbn [app].

(** ** The file tree *)

Lemma is_dir_lookup (fs : gmap path node) (p : path) :
  p <> [] -> is_dir fs p = true <-> fs !! p = Some Dir.
Proof.
  intros Hp. unfold is_dir. destruct p as [|x p]; [congruence|].
  repeat case_match; split; congruence.
Qed.

(** [mkdir -p] changes nothing but absent entries, which become
    directories. *)
Lemma mkdir_p_keeps rest : forall prefix (fs fs' : gmap path node),
  mkdir_p prefix rest fs = inr fs' ->
  forall p : path, fs' !! p = fs !! p \/ (fs !! p = None /\ fs' !! p = Some Dir).
Proof.
  induction rest as [|seg rest IH]; intros prefix fs fs' H p; simpl in H.
  - left. congruence.
  - destruct (fs !! (prefix ++ [seg])%list) as [[|data]|] eqn:Hhere;
      [eauto | discriminate |].
    destruct (IH _ _ _ H p) as [Hp | [Hp1 Hp2]].
    + destruct (decide ((prefix ++ [seg])%list = p)) as [<- | Hne].
      * rewrite lookup_insert_eq in Hp. right. split; assumption.
      * rewrite lookup_insert_ne in Hp by assumption. left. assumption.
    + destruct (decide ((prefix ++ [seg])%list = p)) as [<- | Hne].
      * rewrite lookup_insert_eq in Hp1. discriminate.
      * rewrite lookup_insert_ne in Hp1 by assumption. right. split; assumption.
Qed.



Lemma fs_mkdir_recursive_keeps_files (dir : path) (fs fs' : gmap path node) :
  fs_mkdir_on true dir fs = inr fs' ->
  forall (p : path) data, fs' !! p = Some (File data) <-> fs !! p = Some (File data).
Proof.
  unfold fs_mkdir_on. intros H p data.
  destruct (mkdir_p_keeps _ _ _ _ H p) as [-> | [Hp1 Hp2]]; [reflexivity|].
  rewrite Hp1, Hp2. split; discriminate.
Qed.

Lemma tree_prefix_is_dir (fs : gmap path node) :
  tree fs ->
  forall suffix prefix : path,
    is_dir fs (prefix ++ suffix)%list = true -> is_dir fs prefix = true.
Proof.
  intros Htree suffix. induction suffix as [|x suffix IH] using rev_ind;
    intros prefix H.
  - now rewrite app_nil_r in H.
  - apply IH. rewrite app_assoc in H.
    apply is_dir_lookup in H; [|intros E; now apply app_eq_nil in E as [_ ?]].
    apply Htree in H. now rewrite removelast_last in H.
Qed.

Lemma mkdir_p_existing (fs : gmap path node) :
  tree fs ->
  forall rest prefix,
    is_dir fs (prefix ++ rest)%list = true -> mkdir_p prefix rest fs = inr fs.
Proof.
  intros Htree rest. induction rest as [|seg rest IH]; intros prefix H;
    [reflexivity|].
  simpl.
  replace (prefix ++ seg :: rest)%list with ((prefix ++ [seg]) ++ rest)%list in H
    by (rewrite <- app_assoc; reflexivity).
  pose proof (tree_prefix_is_dir fs Htree _ _ H) as Hhere.
  apply is_dir_lookup in Hhere; [|intros E; now apply app_eq_nil in E as [_ ?]].
  rewrite Hhere. now apply IH.
Qed.

(** Without [recursive] the same call is refused. *)
Lemma fs_mkdir_plain_existing (dir : path) (fs : gmap path node) :
  is_dir fs dir = true ->
  fs_mkdir_on false dir fs = inl "EEXIST: file already exists".
Proof. intros H. unfold fs_mkdir_on. now rewrite H. Qed.

(** [mkdir] with [recursive: true] on a directory that exists: no error,
    nothing changes. *)
Lemma fs_mkdir_recursive_existing (dir : path) (fs : gmap path node) :
  tree fs -> is_dir fs dir = true -> fs_mkdir_on true dir fs = inr fs.
Proof.
  intros Htree H. unfold fs_mkdir_on. now apply mkdir_p_existing.
Qed.

(** *** The file operations keep the tree well formed *)

Lemma tree_empty : tree ∅.
Proof. intros p n H. rewrite lookup_empty in H. discriminate. Qed.







(** ** Validation *)

Lemma includes_levels x :
  includes ["critical"; "serious"; "moderate"; "minor"] x = true <-> is_level x.
Proof.
  unfold includes, is_level. cbn [existsb].
  rewrite !orb_true_iff, !String.eqb_eq. intuition discriminate.
Qed.

Lemma validatePageDescription_ok v d :
  validatePageDescription v = inr d <-> v = Given d /\ d <> "".
Proof.
  unfold validatePageDescription. destruct v as [| |s].
  - split; [discriminate | intros [? _]; discriminate].
  - split; [discriminate | intros [? _]; discriminate].
  - destruct (String.eqb_spec s "") as [->|Hne].
    + split; [discriminate | intros [E Hd]; congruence].
    + split; [intros E | intros [E Hd]]; inversion E; subst; auto.
Qed.

Lemma validatePageDescription_error v e :
  validatePageDescription v = inl e -> exists m, e = InvalidConfiguration m.
Proof.
  unfold validatePageDescription. intros H.
  repeat case_match; inversion H; eauto.
Qed.

Lemma validateFailImpacts_error a e :
  validateFailImpacts a = inl e -> exists m, e = InvalidConfiguration m.
Proof.
  unfold validateFailImpacts. intros H.
  repeat case_match; inversion H; eauto.
Qed.

Lemma filter_invalid_nil impacts :
  List.filter
    (fun impact => negb (includes ["critical"; "serious"; "moderate"; "minor"] impact))
    impacts = []
  <-> Forall is_level impacts.
Proof.
  induction impacts as [|x impacts IH]; cbn [List.filter].
  - split; auto.
  - destruct (includes ["critical"; "serious"; "moderate"; "minor"] x) eqn:E;
      cbn [negb].
    + rewrite IH. apply includes_levels in E. split; [auto | now inversion 1].
    + split; [discriminate|]. inversion 1 as [|? ? Hx].
      apply includes_levels in Hx. congruence.
Qed.

(** [validateFailImpacts] lets through exactly the arrays of levels. *)
Lemma validateFailImpacts_ok a impacts :
  validateFailImpacts a = inr impacts
  <-> a = Given impacts /\ Forall is_level impacts.
Proof.
  unfold validateFailImpacts. destruct a as [| |l].
  - split; [discriminate | intros [? _]; discriminate].
  - split; [discriminate | intros [? _]; discriminate].
  - cbv zeta. split.
    + intros H. destruct (List.filter _ l) as [|x xs] eqn:E;
        cbn [length Nat.ltb Nat.leb] in H; [|discriminate].
      inversion H; subst. split; [reflexivity|]. now apply filter_invalid_nil.
    + intros [E HF]. inversion E; subst. apply filter_invalid_nil in HF.
      now rewrite HF.
Qed.

(** ** The failing subset *)

Lemma filterViolationsByImpact_nil results :
  filterViolationsByImpact results [] = [].
Proof. reflexivity. Qed.

Lemma filterViolationsByImpact_critical results :
  length (filterViolationsByImpact results ["critical"])
  = bucket (countByImpact results) "critical".
Proof.
  rewrite countByImpact_bucket by (unfold is_level; auto).
  unfold filterViolationsByImpact, tally. cbn [length Nat.eqb].
  f_equal. apply filter_ext. intros v.
  unfold has_level, truthy_impact, set_has.
  destruct (v_impact v) as [| |s]; try reflexivity.
  destruct (String.eqb_spec s "critical") as [->|Hne].
  - reflexivity.
  - rewrite bool_decide_eq_false_2; [apply andb_false_r|].
    rewrite elem_of_list_to_set. rewrite list_elem_of_In. simpl. intuition.
Qed.

(** For validated impacts the filter keeps exactly the records whose
    severity is one of them. *)
Lemma filterViolationsByImpact_members results impacts v :
  Forall is_level impacts ->
  v ∈ filterViolationsByImpact results impacts
  <-> v ∈ violations_or_empty results /\ severity_in impacts v.
Proof.
  intros Hvalid. unfold filterViolationsByImpact, severity_in.
  destruct impacts as [|k impacts].
  - cbn [length Nat.eqb]. split.
    + intros H. apply elem_of_nil in H. contradiction.
    + intros [_ (s & _ & H)]. apply elem_of_nil in H. contradiction.
  - cbn [length Nat.eqb]. rewrite !list_elem_of_In, filter_In.
    rewrite <- !list_elem_of_In. apply and_iff_compat_l.
    unfold truthy_impact, set_has.
    destruct (v_impact v) as [| |s].
    + split; [discriminate | intros (s & E & _); discriminate].
    + split; [discriminate | intros (s & E & _); discriminate].
    + rewrite andb_true_iff, bool_decide_eq_true, elem_of_list_to_set.
      split.
      * intros [_ Hin]. eauto.
      * intros (s' & E & Hin). inversion E; subst s'. split; [|assumption].
        rewrite List.Forall_forall in Hvalid.
        apply list_elem_of_In in Hin. apply Hvalid in Hin.
        destruct Hin as [-> | [-> | [-> | ->]]]; reflexivity.
Qed.

Lemma positive_length_nonempty {A} (l : list A) :
  (0 <? length l)%nat = true <-> l <> [].
Proof.
  destruct l; cbn [length Nat.ltb Nat.leb]; split; intros H;
    first [ reflexivity | discriminate H | now (intros E; discriminate E)
          | now (exfalso; apply H) ].
Qed.

Lemma decision_raises results impacts details :
  (0 <? length (filterViolationsByImpact results impacts))%nat = true ->
  fd_failing details = filterViolationsByImpact results impacts ->
  fd_counts details = countByImpact results ->
  decision_holds true results impacts (inl (AccessibilityViolationsFound details)).
Proof.
  intros Hlen Hfailing Hcounts. apply positive_length_nonempty in Hlen.
  split; [split; eauto|]. split.
  - intros Hn. exfalso. apply Hn. auto.
  - intros d Hd. inversion Hd; subst d.
    split; [assumption|]. split; [assumption|].
    intros -> Hb. rewrite Hfailing, filterViolationsByImpact_critical, <- Hcounts.
    unfold buckets in Hb. congruence.
Qed.

Lemma decision_returns flag results impacts :
  flag = false
  \/ (0 <? length (filterViolationsByImpact results impacts))%nat = false ->
  decision_holds flag results impacts (inr results).
Proof.
  intros Hno.
  assert (~ (flag = true /\ filterViolationsByImpact results impacts <> [])) as Hn.
  { intros [Hflag Hne]. apply positive_length_nonempty in Hne.
    destruct Hno; congruence. }
  split; [split|split].
  - intros [d Hd]. discriminate.
  - intros Hyes. contradiction.
  - reflexivity.
  - intros d Hd. discriminate.
Qed.

(** ** The run, case by case *)

Ltac tidy :=
  unfold logged in *; cbn [files events fst snd] in *;
  repeat match goal with
    | H : validateFailImpacts _ = inl _ |- _ =>
        apply validateFailImpacts_error in H as [? ->]
    | H : validatePageDescription _ = inl _ |- _ =>
        apply validatePageDescription_error in H as [? ->]
    end.

(** Every way [runA11yTestAndGenerateReports] can end, from the equation
    [H] that names its outcome and final world. *)
Ltac run_cases H :=
  unfold runA11yTestAndGenerateReports in H; exec_in H; tidy;
  inversion H; subst; clear H.

Lemma log_all_run lines : forall w,
  log_all lines w = (inr tt, logged w (List.map EvLog lines)).
Proof.
  induction lines as [|line lines IH]; intros w.
  - unfold logged. cbn [log_all List.map]. rewrite mret_run, app_nil_r.
    destruct w; reflexivity.
  - cbn [log_all List.map]. rewrite bind_run, console_log_run. cbv beta iota.
    rewrite IH. unfold logged. cbn [files events].
    now rewrite <- app_assoc.
Qed.

Lemma prepared_world_tree : tree (files prepared_world).
Proof.
  intros p n H. unfold prepared_world in *. cbn [files] in *.
  repeat (rewrite lookup_insert in H; case_decide;
          [subst p; vm_compute; reflexivity|]).
  rewrite lookup_empty in H. discriminate.
Qed.

(** ** Order of validation, scan and reports *)

(** C1. The code checks [failImpacts] late: whenever the page description
    is valid and the run ends in [InvalidConfiguration] (which then comes
    from [validateFailImpacts]), the output directory has been created and
    the scan engine has been invoked before the error is raised. *)
Theorem failImpacts_checked_after_scan env opts w d m w'
        (Hdescription : validatePageDescription (pageDescription opts) = inr d)
        (Hraised : runA11yTestAndGenerateReports env opts w
                   = (inl (InvalidConfiguration m), w')) :
  exists after,
    events w' = (events w
                 ++ EvMkdir (getArtifactsDir env (outputDir opts)) true
                 :: EvAnalyze (configured_builder opts) :: after)%list.
Proof.
  run_cases Hraised; try congruence; show_events.
  all: eexists; reflexivity.
Qed.

Lemma failImpacts_checked_after_scan_witness :
  validatePageDescription (pageDescription misspelt_options) = inr "Home page"
  /\ (runA11yTestAndGenerateReports (sample_env sample_results)
        misspelt_options fresh_world).1
     = inl (InvalidConfiguration
              "Invalid impact levels: blocker. Valid values are: critical, serious, moderate, minor")
  /\ (exists after,
        events (runA11yTestAndGenerateReports (sample_env sample_results)
                  misspelt_options fresh_world).2
        = (events fresh_world
           ++ EvMkdir (getArtifactsDir (sample_env sample_results)
                                       (outputDir misspelt_options)) true
           :: EvAnalyze (configured_builder misspelt_options) :: after)%list)
  /\ getArtifactsDir (sample_env sample_results) (outputDir misspelt_options)
     = ["work"; "artifacts"; "accessibility"]
  /\ List.map is_report_write
       (events (runA11yTestAndGenerateReports (sample_env sample_results)
                  misspelt_options fresh_world).2)
     = [false; false; false; true; true].
Proof.
  assert (runA11yTestAndGenerateReports (sample_env sample_results)
            misspelt_options fresh_world
          = (inl (InvalidConfiguration
                    "Invalid impact levels: blocker. Valid values are: critical, serious, moderate, minor"),
             (runA11yTestAndGenerateReports (sample_env sample_results)
                misspelt_options fresh_world).2)) as Hrun
      by (vm_compute; reflexivity).
  split; [reflexivity|]. split; [vm_compute; reflexivity|].
  split; [|split; vm_compute; reflexivity].
  exact (failImpacts_checked_after_scan (sample_env sample_results)
           misspelt_options fresh_world "Home page" _ _ eq_refl Hrun).
Defined.



(** C4. When the scan returns a result without violations, the run makes
    no attempt to write a report, whatever [generateHtmlReport],
    [generateJsonReport] and [failOnViolations] say: no call of the HTML
    reporter and no file write among its events, and the files of the tree
    are those it started with. *)
Theorem no_reports_without_violations env opts w results
        (Hscan : analyze env (configured_builder opts) = inr results)
        (Hnone : length (violations_or_empty results) = 0) :
  (exists new,
      events (runA11yTestAndGenerateReports env opts w).2 = (events w ++ new)%list
      /\ Forall (fun e => is_report_write e = false) new)
  /\ (forall (p : path) data,
         files (runA11yTestAndGenerateReports env opts w).2 !! p = Some (File data)
         <-> files w !! p = Some (File data)).
Proof.
  destruct (runA11yTestAndGenerateReports env opts w) as [out w'] eqn:H.
  cbn [fst snd].
  run_cases H; simplify_eq;
    try match goal with
      | H1 : (0 <? length _)%nat = true |- _ =>
          apply Nat.ltb_lt in H1; lia
      end.
  all: split;
    [ show_events; eexists; split; [try reflexivity; symmetry; apply app_nil_r|];
      repeat constructor
    | eauto using fs_mkdir_recursive_keeps_files ].
  all: reflexivity.
Qed.

Lemma no_reports_without_violations_witness :
  analyze (sample_env no_violations) (configured_builder default_options)
  = inr no_violations
  /\ length (violations_or_empty no_violations) = 0
  /\ (exists new,
        events (runA11yTestAndGenerateReports (sample_env no_violations)
                  default_options fresh_world).2 = new
        /\ Forall (fun e => is_report_write e = false) new)
  /\ forall (p : path) data,
       files (runA11yTestAndGenerateReports (sample_env no_violations)
                default_options fresh_world).2 !! p = Some (File data)
       <-> files fresh_world !! p = Some (File data).
Proof.
  destruct (no_reports_without_violations (sample_env no_violations)
              default_options fresh_world no_violations eq_refl eq_refl)
    as [(new & Hevents & Hnew) Hfiles].
  split; [reflexivity|]. split; [reflexivity|].
  split; [exists new; split; assumption | exact Hfiles].
Defined.

(** ** Configuration errors *)

(** C8, as stated, fails: a non-empty page description with a misspelt
    impact level ends in [InvalidConfiguration]. *)
Lemma nonempty_description_counterexample :
  pageDescription misspelt_options = Given "Home page"
  /\ "Home page" <> ""
  /\ (runA11yTestAndGenerateReports (sample_env no_violations)
        misspelt_options fresh_world).1
     = inl (InvalidConfiguration
              "Invalid impact levels: blocker. Valid values are: critical, serious, moderate, minor").
Proof.
  split; [reflexivity|]. split; [discriminate|]. vm_compute. reflexivity.
Qed.

(** C8, amended. For a configuration whose page description is a non-empty
    string and whose [failImpacts] is left out or is an array of the four
    levels only, the run never raises [InvalidConfiguration]. *)
Theorem valid_options_never_invalid env opts w d
        (Hgiven : pageDescription opts = Given d)
        (Hnonempty : d <> "")
        (Himpacts : failImpacts_valid (failImpacts opts)) :
  forall m,
    (runA11yTestAndGenerateReports env opts w).1 <> inl (InvalidConfiguration m).
Proof.
  intros m.
  assert (validatePageDescription (pageDescription opts) = inr d) as Hd
      by (apply validatePageDescription_ok; auto).
  assert (exists impacts,
             validateFailImpacts (or_default (failImpacts opts) DEFAULT_FAIL_IMPACTS)
             = inr impacts) as [impacts Hi].
  { destruct (failImpacts opts) as [| |l]; cbn [or_default failImpacts_valid] in *.
    - exists DEFAULT_FAIL_IMPACTS. reflexivity.
    - contradiction.
    - exists l. apply validateFailImpacts_ok. auto. }
  destruct (runA11yTestAndGenerateReports env opts w) as [out w'] eqn:H.
  cbn [fst snd].
  run_cases H; congruence.
Qed.

Lemma valid_options_never_invalid_witness :
  pageDescription default_options = Given "Home page"
  /\ "Home page" <> ""
  /\ failImpacts_valid (failImpacts default_options)
  /\ forall m,
       (runA11yTestAndGenerateReports (sample_env sample_results)
          default_options fresh_world).1 <> inl (InvalidConfiguration m).
Proof.
  split; [reflexivity|]. split; [discriminate|]. split; [exact I|].
  exact (valid_options_never_invalid (sample_env sample_results) default_options
           fresh_world "Home page" eq_refl ltac:(discriminate) I).
Defined.

(** ** The fail decision *)

(** C3, as stated, fails: with [failImpacts] empty, [failOnViolations]
    true and violations found, a run whose JSON report cannot be written
    (a directory sits at its path) raises the report-write failure and
    does not return. *)
Lemma empty_failImpacts_counterexample :
  failImpacts lenient_options = Given []
  /\ (runA11yTestAndGenerateReports (sample_env sample_results)
        lenient_options occupied_world).1
     = inl (ReportWriteFailure JsonReport
              "Failed to write JSON report: EISDIR: illegal operation on a directory")
  /\ ~ exists returned,
         (runA11yTestAndGenerateReports (sample_env sample_results)
            lenient_options occupied_world).1 = inr returned.
Proof.
  assert ((runA11yTestAndGenerateReports (sample_env sample_results)
             lenient_options occupied_world).1
          = inl (ReportWriteFailure JsonReport
                   "Failed to write JSON report: EISDIR: illegal operation on a directory"))
    as Hrun by (vm_compute; reflexivity).
  split; [reflexivity|]. split; [exact Hrun|].
  intros [returned Hreturned]. rewrite Hrun in Hreturned. discriminate.
Qed.

(** Use what [reports_written] says about the report writes of a run. *)
Ltac settle_reports :=
  repeat match goal with
    | Hr : reports_written _ _ _ _ _, Hp : (0 <? length _)%nat = true |- _ =>
        destruct (Hr Hp) as (?fs2 & ?Hhtml & ?Hjson); clear Hr
    | Hx : not_false _ = _, Hh : context [not_false _] |- _ =>
        rewrite Hx in Hh
    | Hh : inr _ = inr _ |- _ => inversion Hh; subst; clear Hh
    | Hh : ?x = inr _, Hx : ?x = inl _ |- _ => rewrite Hx in Hh; discriminate Hh
    | Hj : ?c = true -> exists _, _, Hc : ?c = true |- _ =>
        destruct (Hj Hc) as [?fs3 ?Hwrite]; clear Hj
    | Hj : true = true -> exists _, _ |- _ =>
        destruct (Hj eq_refl) as [?fs3 ?Hwrite]; clear Hj
    end.

(** C3, amended. With an empty [failImpacts] the failing subset is empty
    for every scan result and the run never raises
    [AccessibilityViolationsFound], also when [failOnViolations] is true and
    there are violations; and the run returns the scan result exactly when
    the page description is valid, the output directory can be created, the
    scan succeeds and no report write fails. *)
Theorem empty_failImpacts_never_fails env opts w
        (Hempty : failImpacts opts = Given []) :
  (forall results, filterViolationsByImpact results [] = [])
  /\ (forall d, (runA11yTestAndGenerateReports env opts w).1
                <> inl (AccessibilityViolationsFound d))
  /\ (forall results,
         (runA11yTestAndGenerateReports env opts w).1 = inr results
         <-> exists d fs1,
               validatePageDescription (pageDescription opts) = inr d
               /\ fs_mkdir_on true (getArtifactsDir env (outputDir opts)) (files w)
                  = inr fs1
               /\ analyze env (configured_builder opts) = inr results
               /\ reports_written env opts d results fs1).
Proof.
  split; [reflexivity|].
  destruct (runA11yTestAndGenerateReports env opts w) as [out w'] eqn:H.
  cbn [fst snd].
  unfold runA11yTestAndGenerateReports in H. rewrite Hempty in H.
  cbn [or_default] in H.
  change (validateFailImpacts (Given [])) with (@inr RunError _ (@nil string)) in H.
  split; [intros d | intros results; split].
  - exec_in H; inversion H; subst; clear H; try discriminate.
    all: try match goal with
         | Hx : (0 <? length (filterViolationsByImpact _ []))%nat = true |- _ =>
             rewrite filterViolationsByImpact_nil in Hx; discriminate Hx
         end.
    all: match goal with
         | Hx : validatePageDescription _ = inl _ |- _ =>
             apply validatePageDescription_error in Hx as [? ->]; discriminate
         end.
  - intros ->. exec_in H; inversion H; subst; clear H.
    all: do 2 eexists; split; [reflexivity|]; split; [reflexivity|];
      split; [reflexivity|].
    all: intros Hpos; try congruence.
    all: repeat match goal with
           | Hb : ?b = true |- context [?b] => rewrite Hb
           | Hb : ?b = false |- context [?b] => rewrite Hb
           end.
    all: eexists; split; [first [eassumption | reflexivity]|].
    all: intros Hj; try discriminate; eauto.
  - intros (d & fs1 & Hd & Hmk & Hscan & Hreports).
    rewrite bind_run, lift_run, Hd in H. cbv beta iota in H.
    rewrite bind_run, ensureDir_run, Hmk in H. cbv beta iota in H.
    rewrite bind_run, runAxeScan_run, Hscan in H. cbv beta iota in H.
    exec_in H; unfold logged in *; cbn [files events] in *; settle_reports;
      inversion H; subst; clear H; try reflexivity; try discriminate.
    all: exfalso; congruence.
Qed.

Lemma empty_failImpacts_never_fails_witness :
  failImpacts lenient_options = Given []
  /\ truthy_flag (failOnViolations lenient_options) = true
  /\ length (violations_or_empty sample_results) = 4
  /\ (runA11yTestAndGenerateReports (sample_env sample_results)
        lenient_options prepared_world).1 = inr sample_results.
Proof.
  assert (is_dir (files prepared_world)
            (getArtifactsDir (sample_env sample_results)
                             (outputDir lenient_options)) = true) as Hthere
      by (vm_compute; reflexivity).
  split; [reflexivity|]. split; [reflexivity|]. split; [reflexivity|].
  apply (proj2 (proj2 (empty_failImpacts_never_fails (sample_env sample_results)
                         lenient_options prepared_world eq_refl))).
  exists "Home page", (files prepared_world).
  split; [reflexivity|].
  split; [exact (fs_mkdir_recursive_existing _ _ prepared_world_tree Hthere)|].
  split; [reflexivity|].
  intros _.
  exists (<[ ["work"; "artifacts"; "accessibility";
              "home-page-2024-03-09T07-05-59-042Z.html"]
             := File (Rendered "<html>") ]> (files prepared_world)).
  split; [reflexivity|].
  intros _.
  exists (<[ ["work"; "artifacts"; "accessibility";
              "home-page-2024-03-09T07-05-59-042Z.json"]
             := File (JsonOf sample_results) ]>
            (<[ ["work"; "artifacts"; "accessibility";
                 "home-page-2024-03-09T07-05-59-042Z.html"]
                := File (Rendered "<html>") ]> (files prepared_world))).
  reflexivity.
Defined.

(** C2, as stated, fails: with [failOnViolations] true and a non-empty
    failing subset, a run whose HTML report cannot be written raises a
    report-write failure, not [AccessibilityViolationsFound]. *)
Lemma final_decision_counterexample :
  ~ ((exists d,
         (runA11yTestAndGenerateReports (readonly_env sample_results)
            strict_options fresh_world).1
         = inl (AccessibilityViolationsFound d))
     <-> truthy_flag (failOnViolations strict_options) = true
         /\ filterViolationsByImpact sample_results ["critical"] <> []).
Proof.
  intros [_ Hraises].
  destruct Hraises as [d Hd].
  - split; [reflexivity|]. vm_compute. discriminate.
  - vm_compute in Hd. discriminate.
Qed.

(** C2, amended. A run that gets as far as the final decision (it ends
    neither in a configuration, file-system, scan nor report-write error)
    raises [AccessibilityViolationsFound] if and only if [failOnViolations]
    is true and the failing subset is non-empty, and otherwise returns the
    scan result; the failing subset is the records whose severity is a member
    of the validated [failImpacts], and the error carries it; with counts
    2, 1, 0, 0 and [failImpacts] = [critical] it has exactly 2 entries. *)
Theorem final_decision env opts w
        (Hreached : ends_in_decision (runA11yTestAndGenerateReports env opts w).1) :
  exists results impacts,
    analyze env (configured_builder opts) = inr results
    /\ validateFailImpacts (or_default (failImpacts opts) DEFAULT_FAIL_IMPACTS)
       = inr impacts
    /\ (forall v, v ∈ filterViolationsByImpact results impacts
                  <-> v ∈ violations_or_empty results /\ severity_in impacts v)
    /\ ((exists d, (runA11yTestAndGenerateReports env opts w).1
                   = inl (AccessibilityViolationsFound d))
        <-> truthy_flag (failOnViolations opts) = true
            /\ filterViolationsByImpact results impacts <> [])
    /\ (~ (truthy_flag (failOnViolations opts) = true
           /\ filterViolationsByImpact results impacts <> []) ->
        (runA11yTestAndGenerateReports env opts w).1 = inr results)
    /\ (forall d, (runA11yTestAndGenerateReports env opts w).1
                  = inl (AccessibilityViolationsFound d) ->
          fd_failing d = filterViolationsByImpact results impacts
          /\ fd_counts d = countByImpact results
          /\ (impacts = ["critical"] ->
              buckets (fd_counts d) = (2, 1, 0, 0) ->
              length (fd_failing d) = 2)).
Proof.
  destruct (runA11yTestAndGenerateReports env opts w) as [out w'] eqn:H.
  cbn [fst snd] in *.
  run_cases H; cbn [ends_in_decision] in Hreached; try contradiction.
  all: match goal with
       | Hi : validateFailImpacts _ = inr ?l, Ha : analyze _ _ = inr ?a |- _ =>
           exists a, l; split; [reflexivity|]; split; [reflexivity|];
           apply validateFailImpacts_ok in Hi as [_ Hi];
           split; [intros v; now apply filterViolationsByImpact_members|]
       end.
  all: match goal with
       | |- ((exists d, ?o = _)
             <-> ?flag = true /\ filterViolationsByImpact ?a ?l <> []) /\ _ =>
           change (decision_holds flag a l o)
       end.
  all: first [ apply decision_raises; [assumption | reflexivity | reflexivity]
             | apply decision_returns; auto ].
Qed.

Lemma final_decision_witness :
  ends_in_decision
    (runA11yTestAndGenerateReports (sample_env sample_results)
       strict_options fresh_world).1
  /\ exists d,
      (runA11yTestAndGenerateReports (sample_env sample_results)
         strict_options fresh_world).1 = inl (AccessibilityViolationsFound d)
      /\ buckets (fd_counts d) = (2, 1, 0, 0)
      /\ length (fd_failing d) = 2.
Proof.
  assert (ends_in_decision
            (runA11yTestAndGenerateReports (sample_env sample_results)
               strict_options fresh_world).1) as Hreached
      by (vm_compute; exact I).
  split; [exact Hreached|].
  destruct (final_decision (sample_env sample_results) strict_options
              fresh_world Hreached)
    as (results & impacts & Hscan & Hvalid & _ & Hiff & _ & Hcarried).
  cbn in Hscan. inversion Hscan; subst results.
  vm_compute in Hvalid. inversion Hvalid; subst impacts.
  destruct (proj2 Hiff) as [d Hd].
  - split; [reflexivity|]. vm_compute. discriminate.
  - exists d. split; [exact Hd|].
    destruct (Hcarried d Hd) as (_ & Hcounts & Htwo).
    assert (buckets (fd_counts d) = (2, 1, 0, 0)) as Hb
        by (rewrite Hcounts; vm_compute; reflexivity).
    split; [exact Hb | exact (Htwo eq_refl Hb)].
Defined.

(** ** Report-write failures *)




(** ** Totals *)

(** C10. [expectNoViolations] returns the number of all violation records,
    and the run uses the same number as its total: in the error it raises,
    in the summary line, and to decide whether reports are written.  The
    four counts of [countByImpact] and the records of no recognized
    severity add up to it, so the sum of the four counts is at most the
    total, and strictly less exactly when some record has no recognized
    severity. *)
Theorem expectNoViolations_counts_every_record results w :
  (expectNoViolations results w).1 = inr (length (violations_or_empty results))
  /\ sum_of_buckets (countByImpact results) + unrecognized_count results
     = length (violations_or_empty results)
  /\ sum_of_buckets (countByImpact results) <= length (violations_or_empty results)
  /\ (sum_of_buckets (countByImpact results) < length (violations_or_empty results)
      <-> exists v, v ∈ violations_or_empty results /\ recognized v = false)
  /\ (forall env opts d,
         (runA11yTestAndGenerateReports env opts w).1
         = inl (AccessibilityViolationsFound d) ->
         exists scanned,
           analyze env (configured_builder opts) = inr scanned
           /\ fd_total d = length (violations_or_empty scanned)
           /\ fd_counts d = countByImpact scanned)
  /\ (forall env opts d fs1 scanned,
         validatePageDescription (pageDescription opts) = inr d ->
         fs_mkdir_on true (getArtifactsDir env (outputDir opts)) (files w) = inr fs1 ->
         analyze env (configured_builder opts) = inr scanned ->
         exists new,
           events (runA11yTestAndGenerateReports env opts w).2
           = (events w ++ new)%list
           /\ existsb is_report_write new
              = (0 <? length (violations_or_empty scanned))%nat
                && (not_false (generateHtmlReport opts)
                    || not_false (generateJsonReport opts))
           /\ (not_false (logSummary opts) = true ->
               In (EvLog ("[A11Y] " +:+ d +:+ " -> total="
                          +:+ pretty (length (violations_or_empty scanned))
                          +:+ " (" +:+ count_text (countByImpact scanned) +:+ ")"))
                  new)).
Proof.
  pose proof (sum_of_buckets_total results) as Hsum.
  split; [|split; [exact Hsum|split; [lia|split; [|split]]]].
  - unfold expectNoViolations. rewrite bind_run.
    destruct (0 <? length (violations_or_empty results))%nat.
    + rewrite bind_run, console_log_run. cbv beta iota.
      rewrite log_all_run. reflexivity.
    + rewrite console_log_run. reflexivity.
  - unfold unrecognized_count in Hsum. split.
    + intros Hlt.
      destruct (List.filter (fun v => negb (recognized v))
                            (violations_or_empty results))
        as [|v vs] eqn:E; [simpl in Hsum; lia|].
      assert (In v (List.filter (fun v => negb (recognized v))
                                (violations_or_empty results)))
        as Hin by (rewrite E; left; reflexivity).
      apply filter_In in Hin as [Hin Hv]. exists v. split.
      * now apply list_elem_of_In.
      * now apply negb_true_iff.
    + intros (v & Hin & Hv).
      assert (In v (List.filter (fun v => negb (recognized v))
                                (violations_or_empty results)))
        as Hf.
      { apply filter_In. split; [now apply list_elem_of_In | now rewrite Hv]. }
      destruct (List.filter _ _); [contradiction|]. simpl in Hsum. lia.
  - intros env opts d.
    destruct (runA11yTestAndGenerateReports env opts w) as [out w'] eqn:H.
    cbn [fst snd]. intros ->.
    run_cases H; eexists; split; reflexivity || (split; reflexivity).
  - intros env opts d fs1 scanned Hd Hmkdir Hscan.
    destruct (runA11yTestAndGenerateReports env opts w) as [out w'] eqn:H.
    cbn [fst snd].
    run_cases H; simplify_eq; show_events; eexists;
      (split; [try reflexivity; symmetry; apply app_nil_r|]);
      repeat match goal with
        | Hb : ?b = true |- context [?b] => rewrite Hb
        | Hb : ?b = false |- context [?b] => rewrite Hb
        end;
      (split; [reflexivity|]); intros Hlog; try discriminate Hlog;
      cbn [In]; auto.
Qed.

Lemma expectNoViolations_counts_every_record_witness :
  (expectNoViolations sample_results fresh_world).1 = inr 4
  /\ sum_of_buckets (countByImpact sample_results) = 3
  /\ sum_of_buckets (countByImpact sample_results)
     < length (violations_or_empty sample_results).
Proof.
  destruct (expectNoViolations_counts_every_record sample_results fresh_world)
    as (Hcount & _ & _ & Hless & _ & _).
  split; [exact Hcount|]. split; [vm_compute; reflexivity|].
  apply Hless. exists (sample (ImpactStr "unknown")). split.
  - apply list_elem_of_In. simpl. auto.
  - reflexivity.
Defined.

(** * Further properties *)

(** ** The failing subset, once more *)

Lemma filter_sublist {A} (p : A -> bool) (l : list A) : sublist (List.filter p l) l.
Proof.
  induction l as [|x l IH]; cbn [List.filter]; [constructor|].
  destruct (p x); now constructor.
Qed.

Lemma filter_sublist_implied {A} (p q : A -> bool) (l : list A) :
  (forall x, p x = true -> q x = true) ->
  sublist (List.filter p l) (List.filter q l).
Proof.
  intros Hpq. induction l as [|x l IH]; cbn [List.filter]; [constructor|].
  destruct (p x) eqn:Hp.
  - rewrite (Hpq _ Hp). now constructor.
  - destruct (q x); [now constructor | assumption].
Qed.

Lemma selected_iff (impacts : list string) (v : Violation) :
  truthy_impact (v_impact v) && set_has (list_to_set impacts) (v_impact v) = true
  <-> exists s, v_impact v = ImpactStr s /\ s <> "" /\ s ∈ impacts.
Proof.
  unfold truthy_impact, set_has. destruct (v_impact v) as [| |s].
  - split; [discriminate | intros (s & E & _); discriminate].
  - split; [discriminate | intros (s & E & _); discriminate].
  - rewrite andb_true_iff, negb_true_iff, bool_decide_eq_true,
      elem_of_list_to_set, String.eqb_neq.
    split.
    + intros [Hne Hin]. eauto.
    + intros (s' & E & Hne & Hin). inversion E; subst s'. auto.
Qed.

Lemma filterViolationsByImpact_sublist results impacts :
  sublist (filterViolationsByImpact results impacts) (violations_or_empty results).
Proof.
  unfold filterViolationsByImpact.
  destruct (length impacts =? 0)%nat; [apply sublist_nil_l | apply filter_sublist].
Qed.



(** X2. With more impacts the failing subset only grows: when every entry
    of [impacts1] occurs in [impacts2], the records kept for [impacts1] are
    among those kept for [impacts2], in the same order; so the order and
    the repetitions of the entries make no difference. *)
Theorem filterViolationsByImpact_monotone results impacts1 impacts2
        (Hincl : forall s, s ∈ impacts1 -> s ∈ impacts2) :
  sublist (filterViolationsByImpact results impacts1)
          (filterViolationsByImpact results impacts2)
  /\ ((forall s, s ∈ impacts2 -> s ∈ impacts1) ->
      filterViolationsByImpact results impacts1
      = filterViolationsByImpact results impacts2).
Proof.
  assert (forall i1 i2 : list string, (forall s, s ∈ i1 -> s ∈ i2) ->
            sublist (filterViolationsByImpact results i1)
                    (filterViolationsByImpact results i2)) as Hmono.
  { intros i1 i2 H12. unfold filterViolationsByImpact.
    destruct i1 as [|k1 i1]; cbn [length Nat.eqb]; [apply sublist_nil_l|].
    destruct i2 as [|k2 i2]; cbn [length Nat.eqb].
    - exfalso. eapply elem_of_nil, (H12 k1). left.
    - apply filter_sublist_implied. intros v Hv.
      apply selected_iff. apply selected_iff in Hv as (s & E & Hne & Hin). eauto. }
  split; [now apply Hmono|].
  intros Hback. apply (anti_symm sublist); now apply Hmono.
Qed.

Lemma filterViolationsByImpact_monotone_witness :
  filterViolationsByImpact sample_results ["serious"; "critical"; "serious"]
  = filterViolationsByImpact sample_results ["critical"; "serious"].
Proof.
  refine (proj2 (filterViolationsByImpact_monotone sample_results
                   ["serious"; "critical"; "serious"] ["critical"; "serious"] _) _);
    intros s; rewrite !list_elem_of_In; simpl; tauto.
Defined.

Lemma one_level_indicator (impacts : list string) (v : Violation) :
  Forall is_level impacts -> NoDup impacts ->
  (if truthy_impact (v_impact v) && set_has (list_to_set impacts) (v_impact v)
   then 1 else 0)
  = sum_list (List.map (fun k => if has_level k v then 1 else 0) impacts).
Proof.
  intros Hlevels Hnodup.
  induction impacts as [|k impacts IH]; cbn [List.map sum_list].
  - unfold set_has. destruct (v_impact v); rewrite ?andb_false_r; try reflexivity.
  - inversion Hlevels as [|? ? Hk Hrest]; subst.
    inversion Hnodup as [|? ? Hfresh Hnodup']; subst.
    rewrite <- IH by assumption. clear IH.
    unfold has_level, truthy_impact, set_has.
    destruct (v_impact v) as [| |s]; try reflexivity.
    destruct (String.eqb_spec s k) as [->|Hne].
    + rewrite (bool_decide_eq_true_2 (k ∈ list_to_set (k :: impacts))) by set_solver.
      rewrite (bool_decide_eq_false_2 (k ∈ list_to_set impacts))
        by (rewrite elem_of_list_to_set; exact Hfresh).
      rewrite andb_false_r, andb_true_r.
      destruct Hk as [-> | [-> | [-> | ->]]]; reflexivity.
    + rewrite (bool_decide_ext (s ∈ (list_to_set (k :: impacts) : gset string))
                 (s ∈ (list_to_set impacts : gset string))); [reflexivity|].
      rewrite !elem_of_list_to_set, elem_of_cons. intuition congruence.
Qed.

Lemma sum_list_map_add {A} (f g : A -> nat) (l : list A) :
  sum_list (List.map (fun x => f x + g x) l)
  = sum_list (List.map f l) + sum_list (List.map g l).
Proof. induction l as [|x l IH]; simpl; lia. Qed.

Lemma tally_cons k v vs :
  tally k (v :: vs) = (if has_level k v then 1 else 0) + tally k vs.
Proof. unfold tally. cbn [List.filter]. destruct (has_level k v); reflexivity. Qed.

Lemma sum_list_tally_nil (impacts : list string) :
  sum_list (List.map (fun k => tally k []) impacts) = 0.
Proof. induction impacts; cbn; auto. Qed.

(** X3. For a list of distinct levels, the number of records that
    [filterViolationsByImpact] keeps is the sum of the counts that
    [countByImpact] gives for these levels. *)
Theorem failing_subset_size_matches_counts results impacts
        (Hlevels : Forall is_level impacts)
        (Hnodup : NoDup impacts) :
  length (filterViolationsByImpact results impacts)
  = sum_list (List.map (bucket (countByImpact results)) impacts).
Proof.
  rewrite (map_ext_in (bucket (countByImpact results))
             (fun k => tally k (violations_or_empty results))).
  2:{ intros k Hin. apply countByImpact_bucket.
      rewrite List.Forall_forall in Hlevels. auto. }
  unfold filterViolationsByImpact.
  destruct impacts as [|k0 rest] eqn:Himpacts; [reflexivity|].
  cbn [length Nat.eqb]. rewrite <- Himpacts in *. clear Himpacts k0 rest.
  induction (violations_or_empty results) as [|v vs IH].
  - now rewrite sum_list_tally_nil.
  - cbn [List.filter].
    rewrite (map_ext _ _ (fun k => tally_cons k v vs)), sum_list_map_add.
    rewrite <- (one_level_indicator impacts v Hlevels Hnodup), <- IH.
    destruct (truthy_impact (v_impact v) && set_has _ (v_impact v)); reflexivity.
Qed.

Lemma failing_subset_size_matches_counts_witness :
  Forall is_level ["critical"; "serious"] /\ NoDup ["critical"; "serious"]
  /\ length (filterViolationsByImpact sample_results ["critical"; "serious"]) = 3
  /\ sum_list (List.map (bucket (countByImpact sample_results)) ["critical"; "serious"]) = 3.
Proof.
  assert (Forall is_level ["critical"; "serious"]) as Hl
      by (repeat constructor; unfold is_level; auto).
  assert (NoDup ["critical"; "serious"]) as Hn
      by (apply NoDup_ListNoDup; repeat constructor; simpl; intuition discriminate).
  split; [exact Hl|]. split; [exact Hn|].
  pose proof (failing_subset_size_matches_counts sample_results _ Hl Hn) as H.
  split; [vm_compute; reflexivity|]. rewrite <- H. vm_compute. reflexivity.
Defined.

(** ** The counts as an object *)

Lemma has_property_add_one c s k :
  has_property c s = true -> has_property (add_one c s) k = has_property c k.
Proof.
  intros Hs. unfold has_property in *. destruct (decide (s = k)) as [<-|Hne].
  - rewrite Hs. apply orb_true_iff in Hs as [Hown | Hproto].
    + apply bool_decide_eq_true in Hown. unfold add_one.
      destruct (c !! s) as [[n|]|] eqn:E; [| |now destruct Hown as [? ?]].
      all: rewrite lookup_insert_eq; rewrite bool_decide_eq_true_2; eauto.
    + rewrite Hproto. apply orb_true_r.
  - now rewrite add_one_other.
Qed.

Lemma has_property_count_step c v k :
  has_property (count_step c v) k = has_property c k.
Proof.
  unfold count_step. destruct (truthy_impact (v_impact v)); [|reflexivity].
  cbn [negb]. destruct (v_impact v) as [| |s]; try reflexivity.
  destruct (has_property c s) eqn:Hs; [|reflexivity].
  now apply has_property_add_one.
Qed.

Lemma add_one_same c s : add_one c s !! s = bumped (c !! s) s.
Proof.
  unfold add_one, bumped. destruct (c !! s) as [[n|]|] eqn:E;
    rewrite ?lookup_insert_eq; try reflexivity.
  destruct (String.eqb s "__proto__"); [exact E | now rewrite lookup_insert_eq].
Qed.

Lemma count_step_lookup c v k :
  count_step c v !! k = if counted c v k then bumped (c !! k) k else c !! k.
Proof.
  unfold count_step, counted, truthy_impact.
  destruct (v_impact v) as [| |s]; try reflexivity.
  destruct (String.eqb s ""); [reflexivity|]. cbn [negb andb].
  destruct (has_property c s); [|reflexivity]. cbn [andb].
  destruct (String.eqb_spec s k) as [->|Hne].
  - apply add_one_same.
  - now apply add_one_other.
Qed.

Lemma counted_count_step c v1 v2 k :
  counted (count_step c v1) v2 k = counted c v2 k.
Proof.
  unfold counted. destruct (v_impact v2); try reflexivity.
  now rewrite has_property_count_step.
Qed.

Lemma bumped_comm (old : option js_prop) (k : string) (b1 b2 : bool) :
  (if b2 then bumped (if b1 then bumped old k else old) k
   else (if b1 then bumped old k else old))
  = (if b1 then bumped (if b2 then bumped old k else old) k
     else (if b2 then bumped old k else old)).
Proof. destruct b1, b2; reflexivity. Qed.

Lemma count_step_comm c v1 v2 :
  count_step (count_step c v1) v2 = count_step (count_step c v2) v1.
Proof.
  apply map_eq. intros k.
  rewrite !count_step_lookup, !counted_count_step. apply bumped_comm.
Qed.

Lemma fold_count_step_permutation (vs1 vs2 : list Violation) :
  Permutation vs1 vs2 ->
  forall c, fold_left count_step vs1 c = fold_left count_step vs2 c.
Proof.
  induction 1 as [|v vs1 vs2 _ IH|v1 v2 vs|vs1 vs2 vs3 _ IH1 _ IH2]; intros c.
  - reflexivity.
  - cbn [fold_left]. apply IH.
  - cbn [fold_left]. now rewrite count_step_comm.
  - now rewrite IH1.
Qed.

(** X4. The counts do not depend on the order of the violation records. *)
Theorem countByImpact_any_order results1 results2
        (Hsame : Permutation (violations_or_empty results1)
                             (violations_or_empty results2)) :
  countByImpact results1 = countByImpact results2.
Proof. unfold countByImpact. now apply fold_count_step_permutation. Qed.

Lemma countByImpact_any_order_witness :
  countByImpact
    {| violations := Some [ sample (ImpactStr "serious"); sample (ImpactStr "toString");
                            sample (ImpactStr "critical") ];
       url := None |}
  = countByImpact
      {| violations := Some [ sample (ImpactStr "critical"); sample (ImpactStr "serious");
                              sample (ImpactStr "toString") ];
         url := None |}.
Proof.
  apply countByImpact_any_order. cbn [violations_or_empty violations default].
  apply (Permutation_cons_app [_] [_]). apply perm_swap.
Defined.

Lemma fold_count_step_keys vs : forall c k,
  is_Some (fold_left count_step vs c !! k) ->
  is_Some (c !! k)
  \/ (k ∈ object_prototype_keys /\ k <> "__proto__"
      /\ exists v, v ∈ vs /\ v_impact v = ImpactStr k).
Proof.
  induction vs as [|v vs IH]; intros c k Hk; cbn [fold_left] in Hk; [now left|].
  apply IH in Hk as [Hk | (Hp & Hne & v' & Hin & Hv')].
  - rewrite count_step_lookup in Hk.
    destruct (counted c v k) eqn:Hc; [|now left].
    destruct (c !! k) as [p|] eqn:Hold; [left; eauto|].
    right. unfold counted in Hc. destruct (v_impact v) as [| |s] eqn:Ev;
      try discriminate.
    apply andb_true_iff in Hc as [Hc Hsk]. apply andb_true_iff in Hc as [_ Hhas].
    apply String.eqb_eq in Hsk. subst s.
    unfold has_property in Hhas. rewrite Hold in Hhas.
    rewrite (bool_decide_eq_false_2 (is_Some None)) in Hhas
      by (intros [? ?]; discriminate).
    cbn [orb] in Hhas. apply bool_decide_eq_true in Hhas.
    split; [exact Hhas|]. split.
    + intros ->. cbn in Hk. destruct Hk; discriminate.
    + exists v. split; [left | exact Ev].
  - right. split; [exact Hp|]. split; [exact Hne|].
    exists v'. split; [now right | exact Hv'].
Qed.

Lemma fold_count_step_four_numbers vs : forall c,
  four_numbers c -> four_numbers (fold_left count_step vs c).
Proof.
  induction vs as [|v vs IH]; intros c Hc; cbn [fold_left]; [exact Hc|].
  apply IH. now apply count_step_four_numbers.
Qed.

Lemma fold_count_step_text vs : forall c k,
  c !! k = None \/ c !! k = Some PText ->
  fold_left count_step vs c !! k = None
  \/ fold_left count_step vs c !! k = Some PText.
Proof.
  induction vs as [|v vs IH]; intros c k Hc; cbn [fold_left]; [exact Hc|].
  apply IH. rewrite count_step_lookup.
  destruct (counted c v k); [|exact Hc].
  destruct Hc as [-> | ->]; cbn [bumped]; [|now right].
  destruct (String.eqb k "__proto__"); auto.
Qed.

Lemma fold_count_step_stays vs : forall c k,
  is_Some (c !! k) -> is_Some (fold_left count_step vs c !! k).
Proof.
  induction vs as [|v vs IH]; intros c k Hc; cbn [fold_left]; [exact Hc|].
  apply IH. rewrite count_step_lookup.
  destruct (counted c v k); [|exact Hc].
  destruct Hc as [[n|] ->]; cbn [bumped]; eauto.
Qed.

Lemma fold_count_step_inherited vs : forall c k v,
  v ∈ vs -> v_impact v = ImpactStr k ->
  k ∈ object_prototype_keys -> k <> "__proto__" ->
  is_Some (fold_left count_step vs c !! k).
Proof.
  induction vs as [|v0 vs IH]; intros c k v Hin Hv Hproto Hne.
  - apply elem_of_nil in Hin. contradiction.
  - cbn [fold_left]. apply elem_of_cons in Hin as [<- | Hin]; [|eauto].
    apply fold_count_step_stays. rewrite count_step_lookup.
    assert (counted c v k = true) as ->.
    { unfold counted. rewrite Hv, String.eqb_refl, andb_true_r.
      apply andb_true_iff. split.
      - apply negb_true_iff, String.eqb_neq. intros ->.
        apply list_elem_of_In in Hproto. simpl in Hproto.
        intuition discriminate.
      - unfold has_property. rewrite (bool_decide_eq_true_2 _ Hproto).
        apply orb_true_r. }
    apply String.eqb_neq in Hne.
    destruct (c !! k) as [[n|]|]; cbn [bumped]; rewrite ?Hne; eauto.
Qed.

Lemma initial_counts_other k : ~ is_level k -> initial_counts !! k = None.
Proof.
  intros Hk. unfold initial_counts, is_level in *.
  rewrite !lookup_insert_ne by (intros <-; tauto).
  apply lookup_empty.
Qed.

(** X5. In the result of [countByImpact] the four levels always hold
    numbers.  Any other key holds a string, not a number, and is there
    exactly when it is a name inherited from [Object.prototype], other than
    [__proto__], that some record carries as its impact. *)
Theorem countByImpact_keys results :
  four_numbers (countByImpact results)
  /\ forall k, ~ is_level k ->
       (countByImpact results !! k = None \/ countByImpact results !! k = Some PText)
       /\ (countByImpact results !! k = Some PText
           <-> k ∈ object_prototype_keys /\ k <> "__proto__"
               /\ exists v, v ∈ violations_or_empty results
                            /\ v_impact v = ImpactStr k).
Proof.
  unfold countByImpact. split.
  - apply fold_count_step_four_numbers, initial_counts_four_numbers.
  - intros k Hk. pose proof (initial_counts_other k Hk) as Hinit.
    pose proof (fold_count_step_text (violations_or_empty results)
                  initial_counts k (or_introl Hinit)) as Htext.
    split; [exact Htext|]. split.
    + intros Hsome.
      destruct (fold_count_step_keys (violations_or_empty results)
                  initial_counts k) as [Hown | Hinherited].
      * rewrite Hsome. eauto.
      * rewrite Hinit in Hown. destruct Hown; discriminate.
      * exact Hinherited.
    + intros (Hproto & Hne & v & Hin & Hv).
      pose proof (fold_count_step_inherited _ initial_counts k v Hin Hv Hproto Hne)
        as [p Hp].
      destruct Htext as [Hnone | Hsome]; congruence.
Qed.

Lemma countByImpact_keys_witness :
  ~ is_level "toString"
  /\ countByImpact odd_results !! "toString" = Some PText
  /\ countByImpact odd_results !! "critical" = Some (PNum 1).
Proof.
  assert (~ is_level "toString") as Hk
      by (unfold is_level; intuition discriminate).
  split; [exact Hk|]. split; [|vm_compute; reflexivity].
  apply (proj2 (proj2 (countByImpact_keys odd_results) "toString" Hk)).
  split; [apply list_elem_of_In; simpl; auto 20|].
  split; [discriminate|].
  exists (sample (ImpactStr "toString")). split; [|reflexivity].
  apply list_elem_of_In. simpl. auto.
Defined.

(** ** The check of failImpacts *)



(** ** Names and paths *)

Ltac every_char c :=
  destruct c as [[] [] [] [] [] [] [] []]; vm_compute;
  first [ reflexivity | discriminate | (intros; first [reflexivity | discriminate]) ].

Lemma name_char_lower c : Chars.is_name_char c = true -> Chars.lower c = c.
Proof. every_char c. Qed.

Lemma name_char_not_space c : Chars.is_name_char c = true -> Chars.is_space c = false.
Proof. every_char c. Qed.

Lemma lower_lower c : Chars.lower (Chars.lower c) = Chars.lower c.
Proof. every_char c. Qed.

Lemma base_name_char_not_slash c :
  is_base_name_char c = true -> Ascii.eqb c "/" = false.
Proof. every_char c. Qed.

Lemma name_char_base_name_char c :
  Chars.is_name_char c = true -> is_base_name_char c = true.
Proof. unfold is_base_name_char. now intros ->. Qed.

Lemma digit_base_name_char n : is_base_name_char (digit n) = true.
Proof.
  unfold digit.
  pose proof (Nat.mod_upper_bound n 10 ltac:(lia)) as Hn.
  revert Hn. generalize (n mod 10). intros i Hi. pattern i.
  apply digit_cases; try exact Hi; reflexivity.
Qed.

Lemma all_append p (a b : string) :
  Str.all p (a +:+ b) = Str.all p a && Str.all p b.
Proof.
  induction a as [|x a IH]; [reflexivity|].
  rewrite append_cons. cbn [Str.all]. now rewrite IH, andb_assoc.
Qed.

Lemma all_implied (p q : ascii -> bool) (s : string) :
  (forall c, p c = true -> q c = true) ->
  Str.all p s = true -> Str.all q s = true.
Proof.
  intros Hpq. induction s as [|c s IH]; cbn [Str.all]; [reflexivity|].
  intros H. apply andb_true_iff in H as [Hc Hs].
  now rewrite (Hpq _ Hc), IH.
Qed.

Lemma all_pad w : forall n, Str.all is_base_name_char (pad w n) = true.
Proof.
  induction w as [|w IH]; intros n; cbn [pad]; [reflexivity|].
  rewrite all_append, IH. cbn [Str.all].
  now rewrite digit_base_name_char.
Qed.

Lemma all_iso_year y : Str.all is_base_name_char (iso_year y) = true.
Proof.
  unfold iso_year.
  destruct ((0 <=? y)%Z && (y <=? 9999)%Z); [apply all_pad|].
  rewrite all_append, all_pad. now destruct (y <? 0)%Z.
Qed.

Lemma all_timestamp now : Str.all is_base_name_char (timestamp now) = true.
Proof.
  change (timestamp now) with (stamp (utc_fields now)).
  rewrite stamp_layout_any.
  rewrite !all_append, !all_pad, all_iso_year. reflexivity.
Qed.

Lemma all_reportBaseName now d :
  Str.all is_base_name_char (reportBaseName now d) = true.
Proof.
  unfold reportBaseName. rewrite !all_append, all_timestamp.
  rewrite (all_implied Chars.is_name_char is_base_name_char);
    [reflexivity | apply name_char_base_name_char |].
  apply all_replace_each_outside.
Qed.

Lemma toLowerCase_names s :
  Str.all Chars.is_name_char s = true -> Str.toLowerCase s = s.
Proof.
  unfold Str.toLowerCase.
  induction s as [|c s IH]; cbn [Str.all Str.map]; [reflexivity|].
  intros H. apply andb_true_iff in H as [Hc Hs].
  now rewrite (name_char_lower _ Hc), IH.
Qed.

Lemma replace_runs_names s :
  Str.all Chars.is_name_char s = true ->
  Str.replace_runs Chars.is_space "-" s = s.
Proof.
  unfold Str.replace_runs.
  induction s as [|c s IH]; cbn [Str.all Str.replace_runs_from]; [reflexivity|].
  intros H. apply andb_true_iff in H as [Hc Hs].
  now rewrite (name_char_not_space _ Hc), IH.
Qed.

Lemma replace_each_names s :
  Str.all Chars.is_name_char s = true ->
  Str.replace_each (fun c => negb (Chars.is_name_char c)) "" s = s.
Proof.
  induction s as [|c s IH]; cbn [Str.all Str.replace_each]; [reflexivity|].
  intros H. apply andb_true_iff in H as [Hc Hs].
  rewrite Hc. cbn [negb]. now rewrite IH.
Qed.

Lemma toLowerCase_idempotent s :
  Str.toLowerCase (Str.toLowerCase s) = Str.toLowerCase s.
Proof.
  unfold Str.toLowerCase. induction s as [|c s IH]; cbn [Str.map]; [reflexivity|].
  now rewrite lower_lower, IH.
Qed.

Lemma length_map f s : String.length (Str.map f s) = String.length s.
Proof. induction s as [|c s IH]; cbn [Str.map String.length]; congruence. Qed.

Lemma length_replace_runs cls s : forall in_run,
  String.length (Str.replace_runs_from in_run cls "-" s) <= String.length s.
Proof.
  induction s as [|c s IH]; intros in_run; cbn [Str.replace_runs_from String.length];
    [lia|].
  destruct (cls c).
  - destruct in_run; [rewrite append_nil | rewrite append_cons, append_nil];
      cbn [String.length]; specialize (IH true); lia.
  - cbn [String.length]. specialize (IH false). lia.
Qed.

Lemma length_replace_each_dropped cls s :
  String.length (Str.replace_each cls "" s) <= String.length s.
Proof.
  induction s as [|c s IH]; cbn [Str.replace_each String.length]; [lia|].
  destruct (cls c); [rewrite append_nil | cbn [String.length]]; lia.
Qed.

(** X6. Normalizing a page description a second time changes nothing;
    descriptions that differ in letter case only are normalized alike; and
    the normalized text is never longer than the description. *)
Theorem normalized_idempotent d :
  normalized (normalized d) = normalized d
  /\ normalized (Str.toLowerCase d) = normalized d
  /\ String.length (normalized d) <= String.length d.
Proof.
  split; [|split].
  - assert (Str.all Chars.is_name_char (normalized d) = true) as Hsafe
        by apply all_replace_each_outside.
    unfold normalized at 1.
    now rewrite (toLowerCase_names _ Hsafe), (replace_runs_names _ Hsafe),
      (replace_each_names _ Hsafe).
  - unfold normalized. now rewrite toLowerCase_idempotent.
  - unfold normalized, Str.replace_runs, Str.toLowerCase.
    etransitivity; [apply length_replace_each_dropped|].
    etransitivity; [apply length_replace_runs|].
    now rewrite length_map.
Qed.

Lemma append_empty_r (a : string) : a +:+ "" = a.
Proof.
  induction a as [|x a IH]; [reflexivity|]. now rewrite append_cons, IH.
Qed.

Lemma split_from_no_separator sep s : forall acc,
  Str.all (fun c => negb (Ascii.eqb c sep)) s = true ->
  Str.split_from sep acc s = [acc +:+ s].
Proof.
  induction s as [|c s IH]; intros acc; cbn [Str.all Str.split_from].
  - intros _. now rewrite append_empty_r.
  - intros H. apply andb_true_iff in H as [Hc Hs].
    apply negb_true_iff in Hc. rewrite Hc, IH by assumption.
    now rewrite append_assoc.
Qed.

Lemma path_join_one_segment (dir : path) (name : string) :
  Str.all (fun c => negb (Ascii.eqb c "/")) name = true ->
  2 < String.length name ->
  path_join dir name = (dir ++ [name])%list.
Proof.
  intros Hplain Hlong. unfold path_join, Str.split.
  rewrite split_from_no_separator, append_nil by assumption.
  cbn [fold_left]. unfold join_segment.
  destruct (String.eqb_spec name "") as [->|_]; [simpl in Hlong; lia|].
  destruct (String.eqb_spec name ".") as [->|_]; [simpl in Hlong; lia|].
  destruct (String.eqb_spec name "..") as [->|_]; [simpl in Hlong; lia|].
  reflexivity.
Qed.

Lemma report_file_name_plain now d (ext : string) :
  Str.all (fun c => negb (Ascii.eqb c "/")) ext = true ->
  2 < String.length ext ->
  forall dir : path,
    path_join dir (reportBaseName now d +:+ ext)
    = (dir ++ [reportBaseName now d +:+ ext])%list.
Proof.
  intros Hext Hlong dir. apply path_join_one_segment.
  - rewrite all_append, Hext, andb_true_r.
    apply (all_implied is_base_name_char); [|apply all_reportBaseName].
    intros c Hc. now rewrite (base_name_char_not_slash _ Hc).
  - rewrite length_append. lia.
Qed.

Lemma length_iso_year y :
  String.length (iso_year y)
  = if ((0 <=? y) && (y <=? 9999))%Z then 4 else 7.
Proof.
  unfold iso_year. destruct ((0 <=? y) && (y <=? 9999))%Z; [apply length_pad|].
  rewrite length_append, length_pad. now destruct (y <? 0)%Z.
Qed.

Lemma length_timestamp now :
  String.length (timestamp now)
  = if ((0 <=? year (utc_fields now)) && (year (utc_fields now) <=? 9999))%Z
    then 24 else 27.
Proof.
  change (timestamp now) with (stamp (utc_fields now)).
  rewrite stamp_layout_any, !length_append, !length_pad, length_iso_year.
  destruct ((0 <=? year (utc_fields now)) && (year (utc_fields now) <=? 9999))%Z;
    reflexivity.
Qed.

(** X7. Whatever the page description and the clock, the base name is made
    of the characters [[a-z0-9_-]] and of [T], [Z] and [+] only; it is the
    normalized description, a hyphen and a timestamp of 24 characters (27
    outside the years 0000 to 9999); and both report files lie directly in
    the output directory: the description cannot lead the path elsewhere. *)
Theorem report_paths_in_output_dir (dir : path) (now : Z) (d : string) :
  Str.all is_base_name_char (reportBaseName now d) = true
  /\ String.length (reportBaseName now d)
     = String.length (normalized d) + 1
       + (if ((0 <=? year (utc_fields now)) && (year (utc_fields now) <=? 9999))%Z
          then 24 else 27)
  /\ path_join dir (reportBaseName now d +:+ ".html")
     = (dir ++ [reportBaseName now d +:+ ".html"])%list
  /\ path_join dir (reportBaseName now d +:+ ".json")
     = (dir ++ [reportBaseName now d +:+ ".json"])%list.
Proof.
  split; [apply all_reportBaseName|]. split.
  - unfold reportBaseName. rewrite !length_append, length_timestamp.
    cbn [String.length]. lia.
  - split; apply report_file_name_plain; first [reflexivity | simpl; lia].
Qed.

Lemma fold_join_segment segs : forall base : path,
  ".." ∉ segs ->
  fold_left join_segment segs base
  = (base ++ List.filter is_plain_segment segs)%list.
Proof.
  induction segs as [|seg segs IH]; intros base Hno; cbn [fold_left List.filter].
  - now rewrite app_nil_r.
  - rewrite IH by (intros Hin; apply Hno; now right).
    unfold join_segment, is_plain_segment.
    destruct (String.eqb seg "" || String.eqb seg "."); cbn [negb]; [reflexivity|].
    destruct (String.eqb_spec seg "..") as [->|_]; [exfalso; apply Hno; left|].
    now rewrite <- app_assoc.
Qed.

(** X8. For an [outputDir] without a [..] segment the output directory is
    the working directory followed by the segments of [outputDir] that are
    neither empty nor [.], hence below the working directory (a leading
    slash does not make it absolute); without [outputDir] it is
    [artifacts/accessibility] there; for the empty string it is the working
    directory itself. *)
Theorem getArtifactsDir_below_cwd env (rel : string)
        (Hno_climb : ".." ∉ Str.split "/" rel) :
  getArtifactsDir env (Some rel)
  = (cwd env ++ List.filter is_plain_segment (Str.split "/" rel))%list
  /\ cwd env `prefix_of` getArtifactsDir env (Some rel)
  /\ getArtifactsDir env None = (cwd env ++ ["artifacts"; "accessibility"])%list
  /\ getArtifactsDir env (Some "") = cwd env.
Proof.
  assert (getArtifactsDir env (Some rel)
          = (cwd env ++ List.filter is_plain_segment (Str.split "/" rel))%list) as E
      by (now apply fold_join_segment).
  split; [exact E|]. split; [rewrite E; now eexists|].
  split; [|reflexivity].
  unfold getArtifactsDir, path_join. rewrite fold_join_segment; [reflexivity|].
  intros H. apply list_elem_of_In in H. vm_compute in H. intuition discriminate.
Qed.

Lemma getArtifactsDir_below_cwd_witness :
  getArtifactsDir (sample_env no_violations) (Some "/reports//a11y/./today/")
  = ["work"; "reports"; "a11y"; "today"].
Proof.
  refine (eq_trans (proj1 (getArtifactsDir_below_cwd (sample_env no_violations)
                             "/reports//a11y/./today/" _)) _).
  - intros H. apply list_elem_of_In in H. vm_compute in H. intuition discriminate.
  - vm_compute. reflexivity.
Defined.

Lemma getArtifactsDir_default env :
  getArtifactsDir env None = (cwd env ++ ["artifacts"; "accessibility"])%list.
Proof.
  unfold getArtifactsDir, path_join. rewrite fold_join_segment; [reflexivity|].
  intros H. apply list_elem_of_In in H. vm_compute in H. intuition discriminate.
Qed.

(** ** The run, step by step *)

Lemma json_path_join env opts d :
  path_join (getArtifactsDir env (outputDir opts))
            (reportBaseName (now env) d +:+ ".json")
  = json_path env opts d.
Proof. apply report_file_name_plain; first [reflexivity | simpl; lia]. Qed.

Lemma html_path_join env opts d :
  path_join (getArtifactsDir env (outputDir opts))
            (reportBaseName (now env) d +:+ ".html")
  = html_path env opts d.
Proof. apply report_file_name_plain; first [reflexivity | simpl; lia]. Qed.

Ltac use_conditions :=
  repeat match goal with
    | Hb : ?b = true |- context [?b] => rewrite Hb
    | Hb : ?b = false |- context [?b] => rewrite Hb
    end.

Lemma validatePageDescription_invalid v :
  (forall d, v = Given d -> d = "")
  <-> validatePageDescription v
      = inl (InvalidConfiguration
               "pageDescription is required and must be a non-empty string").
Proof.
  unfold validatePageDescription. destruct v as [| |s].
  - split; [reflexivity | discriminate].
  - split; [reflexivity | discriminate].
  - destruct (String.eqb_spec s "") as [->|Hne].
    + split; [reflexivity | intros _ d E; congruence].
    + split; [intros H; now specialize (H s eq_refl) | discriminate].
Qed.

Lemma app_not_self {A} (l new : list A) : new <> [] -> (l ++ new)%list <> l.
Proof.
  intros Hne E. apply (f_equal (@length A)) in E. rewrite length_app in E.
  destruct new; [congruence | simpl in E; lia].
Qed.

Lemma run_starts_with_mkdir env opts w d :
  validatePageDescription (pageDescription opts) = inr d ->
  exists rest,
    events (runA11yTestAndGenerateReports env opts w).2
    = (events w ++ EvMkdir (getArtifactsDir env (outputDir opts)) true :: rest)%list.
Proof.
  intros Hd.
  destruct (runA11yTestAndGenerateReports env opts w) as [out w'] eqn:H.
  cbn [snd]. run_cases H; try congruence; show_events; eexists; reflexivity.
Qed.

(** X9. The run ends with the error about [pageDescription] and leaves the
    world as it was (no directory, no scan, no line printed) exactly when
    [pageDescription] is missing, not a string, or the empty string. *)
Theorem invalid_description_stops_run env opts w :
  (forall d, pageDescription opts = Given d -> d = "")
  <-> runA11yTestAndGenerateReports env opts w
      = (inl (InvalidConfiguration
                "pageDescription is required and must be a non-empty string"), w).
Proof.
  rewrite validatePageDescription_invalid. split.
  - intros Hinvalid. unfold runA11yTestAndGenerateReports.
    now rewrite bind_run, lift_run, Hinvalid.
  - intros Hrun.
    destruct (validatePageDescription (pageDescription opts)) as [e|d] eqn:Hd.
    + unfold runA11yTestAndGenerateReports in Hrun.
      rewrite bind_run, lift_run, Hd in Hrun. congruence.
    + exfalso.
      destruct (run_starts_with_mkdir env opts w d Hd) as [rest Hrest].
      rewrite Hrun in Hrest. cbn [snd] in Hrest. symmetry in Hrest.
      now apply app_not_self in Hrest.
Qed.

Lemma invalid_description_stops_run_witness :
  runA11yTestAndGenerateReports (sample_env sample_results)
    (options (Given "") (Some true) Missing None None) fresh_world
  = (inl (InvalidConfiguration
            "pageDescription is required and must be a non-empty string"),
     fresh_world).
Proof.
  apply (proj1 (invalid_description_stops_run (sample_env sample_results)
                  (options (Given "") (Some true) Missing None None) fresh_world)).
  intros d E. inversion E. reflexivity.
Defined.

Lemma mkdir_p_fails rest : forall (prefix : path) (fs : gmap path node) m,
  mkdir_p prefix rest fs = inl m
  <-> m = "ENOTDIR: not a directory"
      /\ exists k data, 0 < k <= length rest
                        /\ fs !! (prefix ++ take k rest)%list = Some (File data).
Proof.
  induction rest as [|seg rest IH]; intros prefix fs m; cbn [mkdir_p length].
  - split; [discriminate|]. intros [_ (k & data & Hk & _)]. lia.
  - cbv zeta.
    assert (forall k, (prefix ++ take (S k) (seg :: rest)
                       = (prefix ++ [seg]) ++ take k rest)%list) as Hshift
        by (intros k; cbn [take]; now rewrite <- app_assoc).
    destruct (fs !! (prefix ++ [seg])%list) as [[|data]|] eqn:Hhere.
    + rewrite IH. apply and_iff_compat_l. split.
      * intros (k & data & Hk & Hfile). exists (S k), data.
        rewrite Hshift. split; [lia | exact Hfile].
      * intros (k & data & Hk & Hfile). destruct k as [|k]; [lia|].
        rewrite Hshift in Hfile. destruct k as [|k].
        -- cbn [take] in Hfile. rewrite app_nil_r in Hfile. congruence.
        -- exists (S k), data. split; [lia | exact Hfile].
    + split.
      * intros E. inversion E. split; [reflexivity|].
        exists 1, data. cbn [take]. split; [lia | exact Hhere].
      * intros [-> _]. reflexivity.
    + rewrite IH. apply and_iff_compat_l.
      assert (forall k, 0 < k <= length rest ->
                <[(prefix ++ [seg])%list := Dir]> fs
                  !! ((prefix ++ [seg]) ++ take k rest)%list
                = fs !! ((prefix ++ [seg]) ++ take k rest)%list) as Hother.
      { intros k Hk. apply lookup_insert_ne. intros E.
        apply (f_equal (@length string)) in E.
        rewrite !length_app, length_take in E. cbn [length] in E. lia. }
      split.
      * intros (k & data & Hk & Hfile). exists (S k), data.
        rewrite Hshift, <- Hother by lia. split; [lia | exact Hfile].
      * intros (k & data & Hk & Hfile). destruct k as [|k]; [lia|].
        rewrite Hshift in Hfile. destruct k as [|k].
        -- cbn [take] in Hfile. rewrite app_nil_r in Hfile. congruence.
        -- exists (S k), data. rewrite Hother by lia. split; [lia | exact Hfile].
Qed.

(** X10. With a valid description the run ends in a file-system error
    exactly when a file sits at the output directory or at one of its
    parents (permissions are outside the file tree); the error is that of
    [mkdir], not wrapped, and nothing has happened but the attempt to
    create the directory: the scan engine is not invoked. *)
Theorem mkdir_failure_stops_run env opts w d
        (Hdescription : validatePageDescription (pageDescription opts) = inr d) :
  ((exists m,
       (runA11yTestAndGenerateReports env opts w).1 = inl (FileSystemError m))
   <-> exists k data,
         0 < k <= length (getArtifactsDir env (outputDir opts))
         /\ files w !! take k (getArtifactsDir env (outputDir opts))
            = Some (File data))
  /\ (forall m,
         (runA11yTestAndGenerateReports env opts w).1 = inl (FileSystemError m) ->
         fs_mkdir_on true (getArtifactsDir env (outputDir opts)) (files w) = inl m
         /\ (runA11yTestAndGenerateReports env opts w).2
            = logged w [EvMkdir (getArtifactsDir env (outputDir opts)) true]).
Proof.
  assert (forall m,
             (runA11yTestAndGenerateReports env opts w).1 = inl (FileSystemError m)
             <-> fs_mkdir_on true (getArtifactsDir env (outputDir opts)) (files w)
                 = inl m) as Hiff.
  { intros m.
    destruct (runA11yTestAndGenerateReports env opts w) as [out w'] eqn:H.
    cbn [fst]. run_cases H; split; congruence. }
  split; [split|].
  - intros [m Hm]. apply Hiff in Hm. unfold fs_mkdir_on in Hm.
    now apply (mkdir_p_fails _ []) in Hm as [_ Hfile].
  - intros Hfile. exists "ENOTDIR: not a directory". apply Hiff.
    unfold fs_mkdir_on. now apply (mkdir_p_fails _ []).
  - intros m Hm. split; [now apply Hiff|].
    destruct (runA11yTestAndGenerateReports env opts w) as [out w'] eqn:H.
    cbn [fst snd] in *. subst out. run_cases H. reflexivity.
Qed.

Lemma mkdir_failure_stops_run_witness :
  validatePageDescription (pageDescription default_options) = inr "Home page"
  /\ (exists m,
         (runA11yTestAndGenerateReports (sample_env sample_results) default_options
            blocked_world).1 = inl (FileSystemError m))
  /\ (runA11yTestAndGenerateReports (sample_env sample_results) default_options
        blocked_world).2
     = logged blocked_world [EvMkdir ["work"; "artifacts"; "accessibility"] true].
Proof.
  split; [reflexivity|].
  pose proof (mkdir_failure_stops_run (sample_env sample_results) default_options
                blocked_world "Home page" eq_refl) as [Hiff Hworld].
  assert (exists m,
             (runA11yTestAndGenerateReports (sample_env sample_results)
                default_options blocked_world).1 = inl (FileSystemError m))
    as [m Hout].
  { apply Hiff. exists 2, (Rendered "").
    split; [vm_compute; lia | vm_compute; reflexivity]. }
  split; [exists m; exact Hout|].
  exact (proj2 (Hworld m Hout)).
Defined.

(** X11. When the scan engine throws, the run ends with that error, its
    message unchanged, right after the directory was created and the engine
    was called: nothing is printed, no report is attempted, and
    [failImpacts] is not looked at. *)
Theorem scan_failure_stops_run env opts w d fs1
        (Hdescription : validatePageDescription (pageDescription opts) = inr d)
        (Hmkdir : fs_mkdir_on true (getArtifactsDir env (outputDir opts)) (files w)
                  = inr fs1) :
  forall m,
    (analyze env (configured_builder opts) = inl m
     <-> (runA11yTestAndGenerateReports env opts w).1 = inl (ScanEngineFailure m))
    /\ (analyze env (configured_builder opts) = inl m ->
        (runA11yTestAndGenerateReports env opts w).2
        = {| files := fs1;
             events := (events w
                        ++ [ EvMkdir (getArtifactsDir env (outputDir opts)) true;
                             EvAnalyze (configured_builder opts) ])%list |}).
Proof.
  intros m.
  destruct (runA11yTestAndGenerateReports env opts w) as [out w'] eqn:H.
  cbn [fst snd]. split; [split|].
  - intros Hscan. run_cases H; congruence.
  - intros ->. run_cases H; congruence.
  - intros Hscan. run_cases H; simplify_eq. show_events. reflexivity.
Qed.

Lemma scan_failure_stops_run_witness :
  (runA11yTestAndGenerateReports broken_engine_env misspelt_options prepared_world).1
  = inl (ScanEngineFailure "page crashed")
  /\ events (runA11yTestAndGenerateReports broken_engine_env misspelt_options
               prepared_world).2
     = [ EvMkdir ["work"; "artifacts"; "accessibility"] true;
         EvAnalyze (configured_builder misspelt_options) ].
Proof.
  assert (is_dir (files prepared_world)
            (getArtifactsDir broken_engine_env (outputDir misspelt_options)) = true)
    as Hthere by (vm_compute; reflexivity).
  pose proof (scan_failure_stops_run broken_engine_env misspelt_options
                prepared_world "Home page" (files prepared_world) eq_refl
                (fs_mkdir_recursive_existing _ _ prepared_world_tree Hthere)
                "page crashed") as [Hiff Hworld].
  split; [now apply Hiff|]. rewrite Hworld by reflexivity. reflexivity.
Defined.

Lemma fold_builder_include selectors : forall builder,
  fold_left builder_include selectors builder
  = {| b_page := b_page builder;
       b_include := (b_include builder ++ selectors)%list;
       b_exclude := b_exclude builder;
       b_disabledRules := b_disabledRules builder;
       b_tags := b_tags builder |}.
Proof.
  induction selectors as [|s selectors IH]; intros builder; cbn [fold_left].
  - rewrite app_nil_r. now destruct builder.
  - rewrite IH. unfold builder_include. cbn. now rewrite <- app_assoc.
Qed.

Lemma fold_builder_exclude selectors : forall builder,
  fold_left builder_exclude selectors builder
  = {| b_page := b_page builder;
       b_include := b_include builder;
       b_exclude := (b_exclude builder ++ selectors)%list;
       b_disabledRules := b_disabledRules builder;
       b_tags := b_tags builder |}.
Proof.
  induction selectors as [|s selectors IH]; intros builder; cbn [fold_left].
  - rewrite app_nil_r. now destruct builder.
  - rewrite IH. unfold builder_exclude. cbn. now rewrite <- app_assoc.
Qed.

(** X12. The builder handed to [analyze] carries the caller's [include]
    and [exclude] selectors in their order, the rules to disable, and the
    caller's tags or, only when [tags] is left out, the four default tags:
    an empty array of tags stays empty. *)
Theorem scan_configuration opts :
  configured_builder opts
  = {| b_page := page opts;
       b_include := default [] (include opts);
       b_exclude := default [] (exclude opts);
       b_disabledRules := default [] (disableRules opts);
       b_tags := Some (default DEFAULT_TAGS (tags opts)) |}.
Proof.
  unfold configured_builder.
  destruct (include opts) as [[|i0 i1]|], (exclude opts) as [[|e es]|],
    (disableRules opts) as [[|r rs]|];
    cbn [has_length default];
    rewrite ?fold_builder_include, ?fold_builder_exclude; reflexivity.
Qed.

(** X13. A run that returns, or raises the "test failed" error, has made
    exactly these calls in this order: [mkdir] of the output directory,
    [analyze], the summary line unless [logSummary] is false, and, only
    when there are violations, the HTML reporter and then the JSON write,
    each unless switched off. *)
Theorem run_trace env opts w
        (Hreached : ends_in_decision (runA11yTestAndGenerateReports env opts w).1) :
  exists d results,
    validatePageDescription (pageDescription opts) = inr d
    /\ analyze env (configured_builder opts) = inr results
    /\ events (runA11yTestAndGenerateReports env opts w).2
       = (events w ++ expected_events env opts d results)%list.
Proof.
  destruct (runA11yTestAndGenerateReports env opts w) as [out w'] eqn:H.
  cbn [fst snd] in *.
  run_cases H; cbn [ends_in_decision] in Hreached; try contradiction.
  all: do 2 eexists; split; [reflexivity|]; split; [reflexivity|].
  all: show_events; unfold expected_events, summary_line; use_conditions.
  all: rewrite ?json_path_join; reflexivity.
Qed.

Lemma run_trace_witness :
  ends_in_decision
    (runA11yTestAndGenerateReports (sample_env sample_results)
       strict_options fresh_world).1
  /\ List.map is_report_write
       (events (runA11yTestAndGenerateReports (sample_env sample_results)
                  strict_options fresh_world).2)
     = [false; false; false; true; true].
Proof.
  assert (ends_in_decision
            (runA11yTestAndGenerateReports (sample_env sample_results)
               strict_options fresh_world).1) as Hreached
      by (vm_compute; exact I).
  split; [exact Hreached|].
  destruct (run_trace (sample_env sample_results) strict_options fresh_world
              Hreached) as (d & results & Hd & Hscan & ->).
  cbn in Hd. inversion Hd; subst d.
  cbn in Hscan. inversion Hscan; subst results.
  reflexivity.
Defined.

(** X14. [writeHtmlReport] calls the reporter once, with the scan result
    and with options in which the caller's [reporterOptions] win over the
    four options the module sets; it returns [dir/<base>.html] whatever
    the caller's options say; an error of the reporter comes back
    wrapped. *)
Theorem reporterOptions_override env dir base d results ro w :
  exists call,
    events (writeHtmlReport env dir base d results ro w).2
    = (events w ++ [EvCreateHtmlReport call])%list
    /\ hc_results call = results
    /\ (forall k,
          hc_options call !! k
          = match default ∅ ro !! k with
            | Some v => Some v
            | None => own_reporter_option dir base d k
            end)
    /\ (forall p, (writeHtmlReport env dir base d results ro w).1 = inr p ->
                  p = path_join dir (base +:+ ".html")
                  /\ createHtmlReport env call (files w)
                     = inr (files (writeHtmlReport env dir base d results ro w).2))
    /\ (forall e, (writeHtmlReport env dir base d results ro w).1 = inl e ->
                  exists m,
                    createHtmlReport env call (files w) = inl m
                    /\ e = ReportWriteFailure HtmlReport
                             ("Failed to generate HTML report: " +:+ m)).
Proof.
  exists (html_call dir base d results ro).
  rewrite writeHtmlReport_run.
  split; [|split; [reflexivity|split]].
  - destruct (createHtmlReport env _ (files w)); reflexivity.
  - intros k. unfold html_call. cbn [hc_options].
    rewrite lookup_union. unfold own_reporter_option.
    destruct (default ∅ ro !! k) as [v|] eqn:Hk.
    + now rewrite union_Some_l.
    + rewrite (left_id None _).
      destruct (String.eqb_spec k "projectKey") as [->|?];
        [now rewrite lookup_insert_eq | rewrite lookup_insert_ne by congruence].
      destruct (String.eqb_spec k "reportFileName") as [->|?];
        [now rewrite lookup_insert_eq | rewrite lookup_insert_ne by congruence].
      destruct (String.eqb_spec k "outputDirPath") as [->|?];
        [now rewrite lookup_insert_eq | rewrite lookup_insert_ne by congruence].
      destruct (String.eqb_spec k "outputDir") as [->|?];
        [now rewrite lookup_insert_eq | rewrite lookup_insert_ne by congruence].
      apply lookup_empty.
  - destruct (createHtmlReport env _ (files w)) as [m|fs'] eqn:Hcall;
      cbn [fst snd files]; split.
    + discriminate.
    + intros e E. inversion E. eauto.
    + intros p E. inversion E. auto.
    + discriminate.
Qed.

Lemma reporterOptions_override_witness :
  exists call,
    events (writeHtmlReport (sample_env sample_results) ["work"; "out"]
              "home" "Home page" sample_results
              (Some (<["reportFileName" := "custom.html"]> ∅)) fresh_world).2
    = [EvCreateHtmlReport call]
    /\ hc_options call !! "reportFileName" = Some "custom.html"
    /\ hc_options call !! "projectKey" = Some "Home page"
    /\ (writeHtmlReport (sample_env sample_results) ["work"; "out"]
          "home" "Home page" sample_results
          (Some (<["reportFileName" := "custom.html"]> ∅)) fresh_world).1
       = inr ["work"; "out"; "home.html"].
Proof.
  destruct (reporterOptions_override (sample_env sample_results) ["work"; "out"]
              "home" "Home page" sample_results
              (Some (<["reportFileName" := "custom.html"]> ∅)) fresh_world)
    as (call & Hevents & _ & Hoptions & Hok & _).
  exists call. split; [exact Hevents|].
  split; [now rewrite Hoptions|]. split; [now rewrite Hoptions|].
  destruct (writeHtmlReport (sample_env sample_results) ["work"; "out"]
              "home" "Home page" sample_results
              (Some (<["reportFileName" := "custom.html"]> ∅)) fresh_world).1
    as [e|p] eqn:Hrun; [vm_compute in Hrun; discriminate Hrun|].
  cbn [fst]. f_equal. exact (proj1 (Hok p eq_refl)).
Defined.

Lemma fs_writeFile_written (file : path) (data : file_data) (fs fs' : gmap path node) :
  fs_writeFile_on file data fs = inr fs' ->
  fs' !! file = Some (File data)
  /\ forall p : path, p <> file -> fs' !! p = fs !! p.
Proof.
  unfold fs_writeFile_on. intros H.
  destruct (is_dir fs file); [discriminate|].
  destruct (is_dir fs (removelast file)); [|discriminate].
  inversion H; subst fs'. split; [apply lookup_insert_eq|].
  intros p Hp. now apply lookup_insert_ne.
Qed.

(** X15. When the JSON report is on and the run gets as far as the
    decision, with violations found, the file [<base>.json] in the output
    directory holds the scan result, the same result the run returns. *)
Theorem json_report_holds_result env opts w
        (Hreached : ends_in_decision (runA11yTestAndGenerateReports env opts w).1)
        (Hjson : not_false (generateJsonReport opts) = true) :
  exists d results,
    validatePageDescription (pageDescription opts) = inr d
    /\ analyze env (configured_builder opts) = inr results
    /\ (forall returned,
           (runA11yTestAndGenerateReports env opts w).1 = inr returned ->
           returned = results)
    /\ (0 < length (violations_or_empty results) ->
        files (runA11yTestAndGenerateReports env opts w).2 !! json_path env opts d
        = Some (File (JsonOf results))).
Proof.
  destruct (runA11yTestAndGenerateReports env opts w) as [out w'] eqn:H.
  cbn [fst snd] in *.
  run_cases H; cbn [ends_in_decision] in Hreached; try contradiction;
    try congruence.
  all: do 2 eexists; split; [reflexivity|]; split; [reflexivity|].
  all: split; [intros returned E; congruence|].
  all: intros Hpos; apply Nat.ltb_lt in Hpos; try congruence.
  all: rewrite <- json_path_join.
  all: match goal with
       | Hw : fs_writeFile_on _ _ _ = inr _ |- _ =>
           exact (proj1 (fs_writeFile_written _ _ _ _ Hw))
       end.
Qed.

Lemma json_report_holds_result_witness :
  not_false (generateJsonReport strict_options) = true
  /\ files (runA11yTestAndGenerateReports (sample_env sample_results)
              strict_options fresh_world).2
       !! ["work"; "artifacts"; "accessibility";
           "home-page-2024-03-09T07-05-59-042Z.json"]
     = Some (File (JsonOf sample_results)).
Proof.
  assert (ends_in_decision
            (runA11yTestAndGenerateReports (sample_env sample_results)
               strict_options fresh_world).1) as Hreached
      by (vm_compute; exact I).
  split; [reflexivity|].
  destruct (json_report_holds_result (sample_env sample_results) strict_options
              fresh_world Hreached eq_refl)
    as (d & results & Hd & Hscan & _ & Hfile).
  cbn in Hd. inversion Hd; subst d.
  cbn in Hscan. inversion Hscan; subst results.
  apply Hfile. vm_compute. lia.
Defined.







(** X18. The "test failed" error is raised only with [failOnViolations]
    set; it carries the page description, the URL of the result, the
    validated [failImpacts], a total that is at least the (positive) number
    of failing records, and the path of each report that was switched on:
    [dir/<base>.html] and [dir/<base>.json]. *)
Theorem failure_carries_report_paths env opts w details
        (Hraised : (runA11yTestAndGenerateReports env opts w).1
                   = inl (AccessibilityViolationsFound details)) :
  exists d results impacts,
    validatePageDescription (pageDescription opts) = inr d
    /\ analyze env (configured_builder opts) = inr results
    /\ validateFailImpacts (or_default (failImpacts opts) DEFAULT_FAIL_IMPACTS)
       = inr impacts
    /\ truthy_flag (failOnViolations opts) = true
    /\ fd_page details = d
    /\ fd_url details = url results
    /\ fd_failImpacts details = impacts
    /\ 0 < length (fd_failing details) <= fd_total details
    /\ fd_htmlPath details
       = (if not_false (generateHtmlReport opts)
          then Some (html_path env opts d) else None)
    /\ fd_jsonPath details
       = (if not_false (generateJsonReport opts)
          then Some (json_path env opts d) else None).
Proof.
  destruct (runA11yTestAndGenerateReports env opts w) as [out w'] eqn:H.
  cbn [fst] in Hraised. subst out.
  run_cases H.
  all: do 3 eexists; split; [reflexivity|]; split; [reflexivity|];
    split; [reflexivity|]; split; [reflexivity|].
  all: cbn [fd_page fd_url fd_failImpacts fd_failing fd_total fd_htmlPath
              fd_jsonPath fst snd].
  all: use_conditions; rewrite <- ?json_path_join, <- ?html_path_join.
  all: repeat (split; [reflexivity|]).
  all: try match goal with
         | Hpos : (0 <? length (filterViolationsByImpact ?a ?l))%nat = true
           |- _ /\ _ =>
             apply Nat.ltb_lt in Hpos;
             pose proof (sublist_length _ _ (filterViolationsByImpact_sublist a l))
         end.
  all: try (split; [lia|]); try (split; reflexivity).
  all: match goal with
       | Hzero : (0 <? length (violations_or_empty ?a))%nat = false,
         Hpos : 0 < length (filterViolationsByImpact ?a ?l),
         Hle : length (filterViolationsByImpact ?a ?l) <= _ |- _ =>
           apply Nat.ltb_ge in Hzero; lia
       end.
Qed.

Lemma failure_carries_report_paths_witness :
  exists details,
    (runA11yTestAndGenerateReports (sample_env sample_results)
       strict_options fresh_world).1 = inl (AccessibilityViolationsFound details)
    /\ fd_htmlPath details
       = Some ["work"; "artifacts"; "accessibility";
               "home-page-2024-03-09T07-05-59-042Z.html"]
    /\ fd_jsonPath details
       = Some ["work"; "artifacts"; "accessibility";
               "home-page-2024-03-09T07-05-59-042Z.json"].
Proof.
  assert (exists details,
             (runA11yTestAndGenerateReports (sample_env sample_results)
                strict_options fresh_world).1
             = inl (AccessibilityViolationsFound details)) as [details Hrun]
      by (vm_compute; eexists; reflexivity).
  exists details. split; [exact Hrun|].
  destruct (failure_carries_report_paths (sample_env sample_results)
              strict_options fresh_world details Hrun)
    as (d & results & impacts & Hd & _ & _ & _ & _ & _ & _ & _ & Hhtml & Hjson).
  cbn in Hd. inversion Hd; subst d.
  split; [exact Hhtml | exact Hjson].
Defined.






Lemma nonempty_line (c : ascii) (a b : string) :
  negb (String.eqb (String c a +:+ b) "") = true.
Proof. reflexivity. Qed.

Lemma nonempty_nl (b : string) : negb (String.eqb (nl +:+ b) "") = true.
Proof. reflexivity. Qed.

Lemma join_cons (sep x y : string) (rest : list string) :
  Str.join sep (x :: y :: rest) = x +:+ sep +:+ Str.join sep (y :: rest).
Proof. reflexivity. Qed.

(** X19. The message of the "test failed" error, line by line: the
    heading, the page, the URL when the result has one, the fail impacts,
    the totals, the path of each report written, an empty line, and the
    numbered failing violations; a line that does not apply is left out,
    not left empty. *)
Theorem failure_message_layout d :
  failure_message d
  = "Accessibility test failed." +:+ nl
    +:+ "Page: " +:+ fd_page d +:+ nl
    +:+ (if truthy_string (fd_url d)
         then "URL: " +:+ default "" (fd_url d) +:+ nl else "")
    +:+ "Fail impacts: " +:+ Str.join ", " (fd_failImpacts d) +:+ nl
    +:+ "Totals: total=" +:+ pretty (fd_total d) +:+ ", "
    +:+ count_text (fd_counts d) +:+ nl
    +:+ match fd_htmlPath d with
        | Some p => "HTML report: " +:+ path_to_string p +:+ nl
        | None => ""
        end
    +:+ match fd_jsonPath d with
        | Some p => "JSON report: " +:+ path_to_string p +:+ nl
        | None => ""
        end
    +:+ nl +:+ "Failing violations (" +:+ pretty (length (fd_failing d)) +:+ "):"
    +:+ nl +:+ Str.join nl (imap summary_item (fd_failing d)).
Proof.
  unfold failure_message. cbv zeta.
  cbn [List.filter].
  rewrite !nonempty_line, nonempty_nl. cbn [negb String.eqb].
  destruct (truthy_string (fd_url d)), (fd_htmlPath d) as [hp|], (fd_jsonPath d) as [jp|];
    rewrite ?nonempty_line; cbn [negb String.eqb];
    rewrite !join_cons, !append_assoc; reflexivity.
Qed.

(** ** What expectNoViolations prints, and the test *)

Lemma imap_cons_shift {A B} (f : nat -> A -> B) (x : A) (l : list A) :
  imap f (x :: l) = f 0 x :: imap (fun i => f (S i)) l.
Proof. reflexivity. Qed.

Lemma concat_blocks_lookup {A} (f : nat -> A -> list string) (l : list A) :
  forall i j (x : A),
    (forall i x, length (f i x) = 3) ->
    l !! i = Some x -> j < 3 ->
    concat (imap f l) !! (3 * i + j) = f i x !! j.
Proof.
  revert f. induction l as [|y l IH]; intros f i j x Hlen Hx Hj; [discriminate|].
  rewrite imap_cons_shift. cbn [concat].
  destruct i as [|i].
  - cbn in Hx. inversion Hx; subst y.
    rewrite lookup_app_l by (rewrite Hlen; lia). reflexivity.
  - cbn in Hx. rewrite lookup_app_r by (rewrite Hlen; lia). rewrite Hlen.
    replace (3 * S i + j - 3) with (3 * i + j) by lia.
    now apply (IH (fun i => f (S i))).
Qed.

Lemma length_concat_blocks {A} (f : nat -> A -> list string) (l : list A) :
  (forall i x, length (f i x) = 3) ->
  length (concat (imap f l)) = 3 * length l.
Proof.
  revert f. induction l as [|y l IH]; intros f Hlen; [reflexivity|].
  rewrite imap_cons_shift. cbn [concat length].
  rewrite length_app, Hlen, (IH (fun i => f (S i))) by auto. lia.
Qed.

Lemma expectNoViolations_run results w :
  exists lines,
    expectNoViolations results w
    = (inr (length (violations_or_empty results)), logged w (List.map EvLog lines))
    /\ (violations_or_empty results = [] ->
        lines = ["✓ No accessibility violations found"])
    /\ (violations_or_empty results <> [] ->
        lines = (nl +:+ "⚠️  Found "
                 +:+ pretty (length (violations_or_empty results))
                 +:+ " accessibility violation(s):" +:+ nl)
                :: concat (imap violation_lines (violations_or_empty results))).
Proof.
  unfold expectNoViolations. rewrite bind_run.
  destruct (violations_or_empty results) as [|v0 vs] eqn:Hvs.
  - cbn [length Nat.ltb Nat.leb]. rewrite console_log_run.
    eexists [_]. split; [reflexivity|]. split; [reflexivity|]. congruence.
  - rewrite <- Hvs.
    assert ((0 <? length (violations_or_empty results))%nat = true) as ->
        by (rewrite Hvs; reflexivity).
    rewrite bind_run, console_log_run. cbv beta iota.
    rewrite log_all_run. unfold logged. cbn [files events]. rewrite <- app_assoc.
    eexists (_ :: _).
    split; [reflexivity|]. split; [rewrite Hvs; discriminate|]. reflexivity.
Qed.

(** X20. [expectNoViolations] never throws and touches no file; it prints
    one line when there is no violation, and otherwise a heading with the
    count followed by three lines for each record, in order: its number, id
    and description; its impact; the number of affected nodes. *)
Theorem expectNoViolations_prints results w :
  exists lines,
    expectNoViolations results w
    = (inr (length (violations_or_empty results)), logged w (List.map EvLog lines))
    /\ (violations_or_empty results = [] ->
        lines = ["✓ No accessibility violations found"])
    /\ (violations_or_empty results <> [] ->
        length lines = 1 + 3 * length (violations_or_empty results)
        /\ lines !! 0
           = Some (nl +:+ "⚠️  Found "
                   +:+ pretty (length (violations_or_empty results))
                   +:+ " accessibility violation(s):" +:+ nl)
        /\ forall i v,
             violations_or_empty results !! i = Some v ->
             lines !! (1 + 3 * i)
             = Some (pretty (i + 1) +:+ ". " +:+ v_id v +:+ ": " +:+ v_description v)
             /\ lines !! (2 + 3 * i)
                = Some ("   Impact: " +:+ impact_to_string (v_impact v))
             /\ lines !! (3 + 3 * i)
                = Some ("   Affected nodes: " +:+ pretty (length (v_nodes v)) +:+ nl)).
Proof.
  destruct (expectNoViolations_run results w) as (lines & Hrun & Hnone & Hsome).
  exists lines. split; [exact Hrun|]. split; [exact Hnone|].
  intros Hne. rewrite (Hsome Hne).
  split; [|split; [reflexivity|]].
  - cbn [length]. now rewrite length_concat_blocks.
  - intros i v Hv.
    pose proof (fun j => concat_blocks_lookup violation_lines
                           (violations_or_empty results) i j v
                           (fun _ _ => eq_refl) Hv) as Hline.
    cbn [lookup list_lookup Nat.add].
    change (2 + 3 * i) with (S (1 + 3 * i)).
    change (3 + 3 * i) with (S (2 + 3 * i)).
    cbn [lookup list_lookup Nat.add].
    replace (3 * i) with (3 * i + 0) at 1 by lia.
    replace (S (3 * i)) with (3 * i + 1) by lia.
    replace (S (3 * i + 1)) with (3 * i + 2) by lia.
    rewrite !Hline by lia. repeat split.
Qed.

Lemma expectNoViolations_prints_witness :
  exists lines,
    (expectNoViolations sample_results fresh_world).2
    = logged fresh_world (List.map EvLog lines)
    /\ length lines = 13
    /\ lines !! 8 = Some "   Impact: unknown".
Proof.
  destruct (expectNoViolations_prints sample_results fresh_world)
    as (lines & Hrun & _ & Hsome).
  destruct Hsome as (Hlen & _ & Hlines); [discriminate|].
  exists lines. split; [now rewrite Hrun|]. split; [exact Hlen|].
  exact (proj1 (proj2 (Hlines 2 (sample (ImpactStr "unknown")) eq_refl))).
Defined.

Lemma run_without_violations env opts w d fs1 results impacts :
  validatePageDescription (pageDescription opts) = inr d ->
  fs_mkdir_on true (getArtifactsDir env (outputDir opts)) (files w) = inr fs1 ->
  analyze env (configured_builder opts) = inr results ->
  violations_or_empty results = [] ->
  validateFailImpacts (or_default (failImpacts opts) DEFAULT_FAIL_IMPACTS)
  = inr impacts ->
  runA11yTestAndGenerateReports env opts w
  = (inr results,
     {| files := fs1;
        events := (events w ++ expected_events env opts d results)%list |}).
Proof.
  intros Hd Hmk Hscan Hnone Hvalid.
  assert (filterViolationsByImpact results impacts = []) as Hnothing.
  { pose proof (sublist_length _ _ (filterViolationsByImpact_sublist results impacts))
      as Hle.
    rewrite Hnone in Hle. destruct (filterViolationsByImpact results impacts);
      [reflexivity | simpl in Hle; lia]. }
  unfold runA11yTestAndGenerateReports, expected_events.
  rewrite bind_run, lift_run, Hd. cbv beta iota.
  rewrite bind_run, ensureDir_run, Hmk. cbv beta iota.
  rewrite bind_run, runAxeScan_run, Hscan. cbv beta iota.
  rewrite Hnone. cbn [length Nat.ltb Nat.leb].
  destruct (not_false (logSummary opts)), (truthy_flag (failOnViolations opts));
    repeat first [ rewrite bind_run | rewrite console_log_run | rewrite mret_run
                 | rewrite lift_run | rewrite Hvalid | rewrite Hnothing
                 | progress cbv beta iota | progress cbn [length Nat.ltb Nat.leb] ];
    show_events; unfold summary_line; rewrite ?Hnone; reflexivity.
Qed.

Lemma home_page_run env page w :
  match (runA11yTestAndGenerateReports env (home_page_options page) w).1 with
  | inr result =>
      analyze env (default_builder page) = inr result
      /\ (violations_or_empty result <> [] ->
          (exists call,
              EvCreateHtmlReport call
              ∈ events (runA11yTestAndGenerateReports env (home_page_options page) w).2)
          /\ (exists file,
                 EvWriteFile file
                 ∈ events (runA11yTestAndGenerateReports env (home_page_options page) w).2))
  | inl (AccessibilityViolationsFound _) | inl (InvalidConfiguration _) => False
  | inl _ => True
  end.
Proof.
  destruct (runA11yTestAndGenerateReports env (home_page_options page) w)
    as [out w'] eqn:H.
  cbn [fst snd].
  unfold runA11yTestAndGenerateReports in H. exec_in H.
  all: try match goal with
         | Hx : validateFailImpacts _ = inl _ |- _ => discriminate Hx
         | Hx : validatePageDescription _ = inl _ |- _ => discriminate Hx
         | Hx : truthy_flag _ = true |- _ => discriminate Hx
         | Hx : not_false _ = false |- _ => discriminate Hx
         end.
  all: unfold logged in *; cbn [files events fst snd] in *;
    inversion H; subst; clear H; try exact I.
  all: split; [assumption|]; intros Hne.
  all: try match goal with
         | Hzero : (0 <? length ?l)%nat = false, Hne : ?l <> [] |- _ =>
             destruct l; [congruence | discriminate Hzero]
         end.
  all: show_events; split; eexists; apply list_elem_of_In, in_or_app; right;
    simpl; eauto 10.
Qed.

(** X21. The test of the home page passes exactly when the navigation
    succeeds, the output directory can be created and the scan returns no
    violation record; it has then made the directory, scanned with the
    default tags, printed the summary and the "no violations" line, and
    written no report.  It never fails with the "test failed" error or a
    configuration error; when its expectation fails, the number received is
    the number of all records, whatever their severity, and both reports
    have been attempted. *)
Theorem home_page_test_outcomes env goto page w :
  ((home_page_test env goto page w).1 = inr tt
   <-> goto home_page_url = None
       /\ (exists fs1,
              fs_mkdir_on true (cwd env ++ ["artifacts"; "accessibility"])%list
                          (files w) = inr fs1)
       /\ exists results,
            analyze env (default_builder page) = inr results
            /\ violations_or_empty results = [])
  /\ (forall fs1,
         (home_page_test env goto page w).1 = inr tt ->
         fs_mkdir_on true (cwd env ++ ["artifacts"; "accessibility"])%list
                     (files w) = inr fs1 ->
         (home_page_test env goto page w).2
         = {| files := fs1;
              events :=
                (events w
                 ++ [ EvMkdir (cwd env ++ ["artifacts"; "accessibility"])%list true;
                      EvAnalyze (default_builder page);
                      EvLog "[A11Y] Home page -> total=0 (critical=0, serious=0, moderate=0, minor=0)";
                      EvLog "✓ No accessibility violations found" ])%list |})
  /\ (forall e,
         (home_page_test env goto page w).1 = inl (Thrown e) ->
         match e with
         | AccessibilityViolationsFound _ | InvalidConfiguration _ => False
         | _ => True
         end)
  /\ (forall received expected,
         (home_page_test env goto page w).1 = inl (ExpectedToBe received expected) ->
         expected = 0
         /\ exists results,
              analyze env (default_builder page) = inr results
              /\ received = length (violations_or_empty results)
              /\ 0 < received
              /\ (exists call,
                     EvCreateHtmlReport call ∈ events (home_page_test env goto page w).2)
              /\ (exists file,
                     EvWriteFile file ∈ events (home_page_test env goto page w).2)).
Proof.
  pose proof (home_page_run env page w) as Hrun.
  assert (forall fs1 results,
             goto home_page_url = None ->
             fs_mkdir_on true (cwd env ++ ["artifacts"; "accessibility"])%list
                         (files w) = inr fs1 ->
             analyze env (default_builder page) = inr results ->
             violations_or_empty results = [] ->
             home_page_test env goto page w
             = (inr tt,
                {| files := fs1;
                   events :=
                     (events w
                      ++ [ EvMkdir (cwd env ++ ["artifacts"; "accessibility"])%list true;
                           EvAnalyze (default_builder page);
                           EvLog "[A11Y] Home page -> total=0 (critical=0, serious=0, moderate=0, minor=0)";
                           EvLog "✓ No accessibility violations found" ])%list |}))
    as Hpass.
  { intros fs1 results Hgoto Hmk Hscan Hnone. unfold home_page_test.
    rewrite Hgoto.
    rewrite (run_without_violations env (home_page_options page) w "Home page"
               fs1 results DEFAULT_FAIL_IMPACTS eq_refl)
      by first [ now rewrite getArtifactsDir_default | assumption | reflexivity ].
    destruct (expectNoViolations_run results
                {| files := fs1;
                   events := (events w ++ expected_events env (home_page_options page)
                                            "Home page" results)%list |})
      as (lines & -> & Hlines & _).
    rewrite (Hlines Hnone), Hnone. cbn [length Nat.eqb].
    unfold logged, expected_events, summary_line, countByImpact.
    rewrite Hnone, getArtifactsDir_default.
    cbn [files events]. rewrite <- app_assoc. reflexivity. }
  assert ((home_page_test env goto page w).1 = inr tt ->
          goto home_page_url = None
          /\ (exists fs1,
                 fs_mkdir_on true (cwd env ++ ["artifacts"; "accessibility"])%list
                             (files w) = inr fs1)
          /\ exists results,
               analyze env (default_builder page) = inr results
               /\ violations_or_empty results = []) as Honly.
  { unfold home_page_test.
    destruct (goto home_page_url) as [m|]; [discriminate|].
    destruct (runA11yTestAndGenerateReports env (home_page_options page) w)
      as [[e|result] w1] eqn:H; [discriminate|].
    cbn [fst snd] in Hrun. destruct Hrun as [Hscan _].
    destruct (expectNoViolations_run result w1) as (lines & -> & _).
    destruct (length (violations_or_empty result)) eqn:Hlen; [|discriminate].
    intros _. split; [reflexivity|]. split.
    - rewrite <- getArtifactsDir_default.
      change None with (outputDir (home_page_options page)).
      clear Hscan. run_cases H; eauto.
    - exists result. split; [exact Hscan|].
      now destruct (violations_or_empty result). }
  split; [split; [exact Honly|]|split; [|split]].
  - intros (Hgoto & [fs1 Hmk] & results & Hscan & Hnone).
    now rewrite (Hpass fs1 results).
  - intros fs1 Hpassed Hmk.
    destruct (Honly Hpassed) as (Hgoto & _ & results & Hscan & Hnone).
    now rewrite (Hpass fs1 results).
  - intros e. unfold home_page_test.
    destruct (goto home_page_url) as [m|]; [discriminate|].
    destruct (runA11yTestAndGenerateReports env (home_page_options page) w)
      as [[e'|result] w1] eqn:H; cbn [fst snd] in *.
    + intros E. inversion E; subst e'. destruct e; auto.
    + destruct (expectNoViolations_run result w1) as (lines & -> & _).
      destruct (length (violations_or_empty result) =? 0)%nat; discriminate.
  - intros received expected. unfold home_page_test.
    destruct (goto home_page_url) as [m|]; [discriminate|].
    destruct (runA11yTestAndGenerateReports env (home_page_options page) w)
      as [[e'|result] w1] eqn:H; cbn [fst snd] in *; [discriminate|].
    destruct Hrun as [Hscan Hreports].
    destruct (expectNoViolations_run result w1) as (lines & -> & _).
    destruct (length (violations_or_empty result)) as [|n] eqn:Hlen;
      cbn [Nat.eqb fst snd]; [discriminate|].
    intros E. inversion E; subst. split; [reflexivity|].
    exists result. split; [exact Hscan|]. split; [now rewrite Hlen|].
    split; [lia|].
    destruct Hreports as [[call Hcall] [file Hfile]].
    { intros Hnil. rewrite Hnil in Hlen. discriminate. }
    unfold logged. cbn [events]. split; eexists; apply elem_of_app; left; eassumption.
Qed.

Lemma home_page_test_outcomes_witness :
  (home_page_test (sample_env no_violations) (fun _ => None) 1 prepared_world).1
  = inr tt
  /\ List.map is_report_write
       (events (home_page_test (sample_env no_violations) (fun _ => None) 1
                  prepared_world).2)
     = [false; false; false; false].
Proof.
  pose proof (home_page_test_outcomes (sample_env no_violations) (fun _ => None) 1
                prepared_world) as (Hpasses & Hworld & _ & _).
  assert (is_dir (files prepared_world) ["work"; "artifacts"; "accessibility"] = true)
    as Hthere by (vm_compute; reflexivity).
  pose proof (fs_mkdir_recursive_existing _ _ prepared_world_tree Hthere) as Hmk.
  assert ((home_page_test (sample_env no_violations) (fun _ => None) 1
             prepared_world).1 = inr tt) as Hpassed.
  { apply Hpasses. split; [reflexivity|]. split; [eexists; exact Hmk|].
    exists no_violations. split; reflexivity. }
  split; [exact Hpassed|].
  rewrite (Hworld _ Hpassed Hmk). reflexivity.
Defined.

(** ** The previous version *)

Lemma old_bind_run {A B} (m : Old.Task A) (f : A -> Old.Task B) (w : World) :
  (m ≫= f) w =
    match m w with
    | (inr a, w') => f a w'
    | (inl e, w') => (inl e, w')
    end.
Proof. reflexivity. Qed.

Lemma old_mret_run {A} (a : A) (w : World) : (mret a : Old.Task A) w = (inr a, w).
Proof. reflexivity. Qed.

Lemma old_throw_run {A} (e : Old.Error) (w : World) :
  (Old.throw e : Old.Task A) w = (inl e, w).
Proof. reflexivity. Qed.

Lemma old_call_run {A} (m : M A) (w : World) :
  Old.call m w =
    match m w with
    | (inr a, w') => (inr a, w')
    | (inl e, w') => (inl (Old.Raised e), w')
    end.
Proof. reflexivity. Qed.

Lemma old_validatePageDescription v :
  Old.validatePageDescription v
  = match validatePageDescription v with
    | inr d => inr d
    | inl _ => inl (Old.Raised (InvalidConfiguration
                                  "pageDescription is required and must be a string"))
    end.
Proof.
  unfold Old.validatePageDescription, validatePageDescription.
  destruct v as [| |s]; try reflexivity. now destruct (String.eqb s "").
Qed.

Lemma fold_no_rule_switched_off (method : AxeBuilder -> list string -> AxeBuilder)
      (entries : list (string * Old.rule_config)) : forall builder : AxeBuilder,
  Forall (fun entry : string * Old.rule_config => Old.switched_off entry.2 = false)
         entries ->
  fold_left (fun builder (entry : string * Old.rule_config) =>
               if Old.switched_off entry.2 then method builder [entry.1]
               else builder)
            entries builder
  = builder.
Proof.
  induction entries as [|entry entries IH]; intros builder Hoff; [reflexivity|].
  inversion Hoff as [|? ? Hentry Hrest]; subst. cbn [fold_left].
  rewrite Hentry. now apply IH.
Qed.

Lemma old_configured_builder method opts :
  no_rule_switched_off opts ->
  Old.configured_builder method opts = configured_builder (upgraded_options opts).
Proof.
  intros Hoff. unfold Old.configured_builder, configured_builder.
  cbn [upgraded_options page include exclude tags disableRules has_length].
  f_equal.
  destruct (Old.rules opts) as [entries|] eqn:Hrules; [|reflexivity].
  apply fold_no_rule_switched_off. now apply Hoff.
Qed.

Lemma builder_analyze_run env builder w :
  builder_analyze env builder w =
    match analyze env builder with
    | inr results => (inr results, logged w [EvAnalyze builder])
    | inl m => (inl (ScanEngineFailure m), logged w [EvAnalyze builder])
    end.
Proof.
  unfold builder_analyze, emit, logged, mbind, M_bind.
  destruct (analyze env builder); reflexivity.
Qed.

Lemma fs_writeFile_run file data w :
  fs_writeFile file data w =
    match fs_writeFile_on file data (files w) with
    | inr fs' => (inr tt, {| files := fs';
                             events := (events w ++ [EvWriteFile file])%list |})
    | inl m => (inl (FileSystemError m), logged w [EvWriteFile file])
    end.
Proof.
  unfold fs_writeFile, on_files, emit, logged, mbind, M_bind. cbn [files events].
  destruct (fs_writeFile_on file data (files w)); reflexivity.
Qed.

Lemma call_createHtmlReport_run env call w :
  call_createHtmlReport env call w =
    match createHtmlReport env call (files w) with
    | inr fs' => (inr tt, {| files := fs';
                             events := (events w ++ [EvCreateHtmlReport call])%list |})
    | inl m => (inl (ReporterError m), logged w [EvCreateHtmlReport call])
    end.
Proof.
  unfold call_createHtmlReport, reporter_runs, emit, logged, mbind, M_bind.
  cbn [files events].
  destruct (createHtmlReport env call (files w)); reflexivity.
Qed.

Lemma recognized_selected (v : Violation) :
  truthy_impact (v_impact v)
  && set_has (list_to_set DEFAULT_FAIL_IMPACTS) (v_impact v)
  = recognized v.
Proof.
  unfold truthy_impact, set_has, recognized. destruct (v_impact v) as [| |s];
    try reflexivity.
  destruct (includes DEFAULT_FAIL_IMPACTS s) eqn:Hs.
  - apply includes_levels in Hs.
    rewrite bool_decide_eq_true_2
      by (rewrite elem_of_list_to_set, list_elem_of_In; simpl;
          unfold is_level in Hs; intuition).
    destruct Hs as [-> | [-> | [-> | ->]]]; reflexivity.
  - rewrite bool_decide_eq_false_2; [apply andb_false_r|].
    rewrite elem_of_list_to_set, list_elem_of_In. intros Hin.
    assert (is_level s) as Hl by (simpl in Hin; unfold is_level; intuition).
    apply includes_levels in Hl. unfold DEFAULT_FAIL_IMPACTS in Hs. congruence.
Qed.

Lemma default_failing_subset results :
  filterViolationsByImpact results DEFAULT_FAIL_IMPACTS
  = List.filter recognized (violations_or_empty results).
Proof.
  unfold filterViolationsByImpact. cbn [length DEFAULT_FAIL_IMPACTS Nat.eqb].
  apply filter_ext. intros v. apply recognized_selected.
Qed.

Lemma filter_nil_none {A} (p : A -> bool) (l : list A) :
  List.filter p l = [] -> Forall (fun x => p x = false) l.
Proof.
  induction l as [|x l IH]; cbn [List.filter]; [constructor|].
  destruct (p x) eqn:Hx; [discriminate|]. intros H. constructor; auto.
Qed.

Lemma validatePageDescription_message v e :
  validatePageDescription v = inl e ->
  e = InvalidConfiguration
        "pageDescription is required and must be a non-empty string".
Proof.
  unfold validatePageDescription. intros H.
  repeat case_match; congruence.
Qed.

Lemma old_violations_length_run results w :
  Old.violations_length results w =
    match violations results with
    | Some vs => (inr (length vs), w)
    | None => (inl Old.TypeError, w)
    end.
Proof. unfold Old.violations_length. now destruct (violations results). Qed.

Lemma old_writeHtmlReport_run env dir base d results ro w :
  Old.writeHtmlReport env dir base d results ro w =
    match createHtmlReport env (html_call dir base d results ro) (files w) with
    | inr fs' =>
        (inr (path_join dir (base +:+ ".html")),
         {| files := fs';
            events := (events w
                       ++ [EvCreateHtmlReport (html_call dir base d results ro)])%list |})
    | inl m =>
        (inl (Old.Raised (ReporterError m)),
         logged w [EvCreateHtmlReport (html_call dir base d results ro)])
    end.
Proof.
  unfold Old.writeHtmlReport.
  rewrite old_bind_run, old_call_run, call_createHtmlReport_run.
  fold (html_call dir base d results ro).
  destruct (createHtmlReport env _ (files w)); reflexivity.
Qed.

Lemma old_writeJsonReport_run dir base results w :
  Old.writeJsonReport dir base results w =
    match fs_writeFile_on (path_join dir (base +:+ ".json")) (JsonOf results)
                          (files w) with
    | inr fs' =>
        (inr (path_join dir (base +:+ ".json")),
         {| files := fs';
            events := (events w
                       ++ [EvWriteFile (path_join dir (base +:+ ".json"))])%list |})
    | inl m =>
        (inl (Old.Raised (FileSystemError m)),
         logged w [EvWriteFile (path_join dir (base +:+ ".json"))])
    end.
Proof.
  unfold Old.writeJsonReport. cbv zeta.
  rewrite old_bind_run, old_call_run, fs_writeFile_run.
  destruct (fs_writeFile_on _ _ (files w)); reflexivity.
Qed.

Ltac old_exec :=
  repeat first
    [ rewrite old_bind_run
    | rewrite old_writeHtmlReport_run
    | rewrite old_writeJsonReport_run
    | rewrite old_violations_length_run
    | rewrite old_call_run
    | rewrite old_mret_run
    | rewrite old_throw_run
    | rewrite ensureDir_run
    | rewrite builder_analyze_run
    | match goal with
      | Hx : fs_mkdir_on _ _ _ = _ |- _ => rewrite Hx
      | Hx : analyze _ _ = _ |- _ => rewrite Hx
      | Hx : createHtmlReport _ _ _ = _ |- _ => rewrite Hx
      | Hx : fs_writeFile_on _ _ _ = _ |- _ => rewrite Hx
      | Hx : not_false _ = _ |- _ => rewrite Hx
      | Hx : truthy_flag _ = _ |- _ => rewrite Hx
      | Hx : violations _ = _ |- _ => rewrite Hx
      | Hx : (0 <? length _)%nat = _ |- _ => rewrite Hx
      end
    | progress cbv beta iota
    | progress cbn [fst snd files events andb] ].

Lemma failing_needs_violations results impacts :
  (0 <? length (violations_or_empty results))%nat = false ->
  (0 <? length (filterViolationsByImpact results impacts))%nat = false.
Proof.
  intros H. apply Nat.ltb_ge in H. apply Nat.ltb_ge.
  pose proof (sublist_length _ _ (filterViolationsByImpact_sublist results impacts)).
  lia.
Qed.

(** X22. The previous version against the current one, when no entry of
    [rules] switches a rule off and the current version is asked for every
    severity and no summary line: both leave the same files and make the
    same calls.  Their outcomes correspond: the same result, or the same
    error of [mkdir] or of the scan engine; the error of the reporter or of
    the JSON write, bare before and wrapped now; the error about the page
    description, reworded.  Where the current version raises the "test
    failed" error, so did the previous one; where the current version
    returns, the previous one returned too, except that it threw a
    [TypeError] when the result has no [violations], and raised "test
    failed" (with [failOnViolations] set) for records none of which has a
    recognized severity. *)
Theorem old_version_agrees env method opts w
        (Hrules : no_rule_switched_off opts) :
  (Old.runA11yTestAndGenerateReports env method opts w).2
  = (runA11yTestAndGenerateReports env (upgraded_options opts) w).2
  /\ outcomes_correspond (truthy_flag (Old.failOnViolations opts))
       (runA11yTestAndGenerateReports env (upgraded_options opts) w).1
       (Old.runA11yTestAndGenerateReports env method opts w).1.
Proof.
  unfold Old.runA11yTestAndGenerateReports, Old.runAxe.
  rewrite (old_configured_builder method opts Hrules).
  destruct (runA11yTestAndGenerateReports env (upgraded_options opts) w)
    as [out w'] eqn:H.
  cbn [fst snd].
  unfold runA11yTestAndGenerateReports in H.
  cbn [upgraded_options pageDescription outputDir logSummary not_false
         generateHtmlReport generateJsonReport failImpacts failOnViolations
         or_default reporterOptions] in H.
  change (validateFailImpacts (Given DEFAULT_FAIL_IMPACTS))
    with (@inr RunError _ DEFAULT_FAIL_IMPACTS) in H.
  exec_in H.
  all: unfold logged in *; cbn [files events fst snd] in *;
    inversion H; subst; clear H.
  all: rewrite old_bind_run, old_validatePageDescription;
    match goal with Hx : validatePageDescription _ = _ |- _ => rewrite Hx end;
    cbv beta iota.
  all: try match goal with
         | Hx : validatePageDescription _ = inl _ |- _ =>
             apply validatePageDescription_message in Hx; subst
         end.
  all: try match goal with
         | Hz : (0 <? length (violations_or_empty ?a))%nat = false,
           Hp : (0 <? length (filterViolationsByImpact ?a ?l))%nat = true |- _ =>
             rewrite (failing_needs_violations a l Hz) in Hp; discriminate Hp
         end.
  all: old_exec.
  all: unfold logged; cbn [files events].
  all: try (split; [reflexivity | cbn; auto]; fail).
  all: match goal with
       | |- context [violations ?a] =>
           unfold violations_or_empty in *;
           destruct (violations a) as [vs|] eqn:Hvs;
           cbn [default from_option length] in *; unfold id in *
       end.
  all: try discriminate.
  all: old_exec.
  all: unfold logged; cbn [files events].
  all: try (split; [reflexivity | cbn; auto]; fail).
  all: split; [reflexivity|]; cbn [outcomes_correspond].
  all: split; [reflexivity|]; split.
  all: try (unfold violations_or_empty; rewrite Hvs; cbn [default from_option];
            unfold id; destruct vs; [discriminate | congruence]).
  all: apply filter_nil_none; rewrite <- default_failing_subset.
  all: match goal with
       | Hx : (0 <? length ?l)%nat = false |- ?l = [] =>
           destruct l; [reflexivity | discriminate Hx]
       end.
Qed.

Lemma old_version_agrees_witness :
  no_rule_switched_off cautious_old_options
  /\ (Old.runA11yTestAndGenerateReports (sample_env unrated_results)
        builder_disableRules cautious_old_options fresh_world).2
     = (runA11yTestAndGenerateReports (sample_env unrated_results)
          (upgraded_options cautious_old_options) fresh_world).2
  /\ outcomes_correspond true
       (runA11yTestAndGenerateReports (sample_env unrated_results)
          (upgraded_options cautious_old_options) fresh_world).1
       (Old.runA11yTestAndGenerateReports (sample_env unrated_results)
          builder_disableRules cautious_old_options fresh_world).1.
Proof.
  assert (no_rule_switched_off cautious_old_options) as Hrules.
  { intros entries E. inversion E; subst. repeat constructor. }
  split; [exact Hrules|].
  exact (old_version_agrees (sample_env unrated_results) builder_disableRules
           cautious_old_options fresh_world Hrules).
Defined.

Ltac old_exec_in H :=
  repeat first
    [ rewrite old_bind_run in H
    | rewrite old_writeHtmlReport_run in H
    | rewrite old_writeJsonReport_run in H
    | rewrite old_violations_length_run in H
    | rewrite old_call_run in H
    | rewrite old_mret_run in H
    | rewrite old_throw_run in H
    | rewrite ensureDir_run in H
    | rewrite builder_analyze_run in H
    | match type of H with
      | context [match ?x with _ => _ end] =>
          match x with
          | context [match _ with _ => _ end] => fail 1
          | _ => destruct x eqn:?
          end
      end
    | progress cbv beta iota in H ].

(** X23. The previous version raises its "test failed" error only with
    [failOnViolations] set and at least one violation record, of whatever
    severity; the message gives the number of all records, the page, and
    the paths of the reports switched on.  It returns the scan result only
    when [failOnViolations] is unset or there is no record.  It ends in a
    [TypeError], right after the scan, only when the result has no
    [violations]. *)
Theorem old_version_fails_on_any_violation env method opts w :
  (forall message,
      (Old.runA11yTestAndGenerateReports env method opts w).1
      = inl (Old.ViolationsFound message) ->
      truthy_flag (Old.failOnViolations opts) = true
      /\ exists d results vs,
           Old.validatePageDescription (Old.pageDescription opts) = inr d
           /\ analyze env (Old.configured_builder method opts) = inr results
           /\ violations results = Some vs
           /\ vs <> []
           /\ message
              = Old.failure_message (length vs) d results
                  (if not_false (Old.generateHtmlReport opts)
                   then Some (path_join (getArtifactsDir env (Old.outputDir opts))
                                        (reportBaseName (now env) d +:+ ".html"))
                   else None)
                  (if not_false (Old.generateJsonReport opts)
                   then Some (path_join (getArtifactsDir env (Old.outputDir opts))
                                        (reportBaseName (now env) d +:+ ".json"))
                   else None))
  /\ (forall results,
         (Old.runA11yTestAndGenerateReports env method opts w).1 = inr results ->
         analyze env (Old.configured_builder method opts) = inr results
         /\ exists vs, violations results = Some vs
                       /\ (truthy_flag (Old.failOnViolations opts) = true -> vs = []))
  /\ ((Old.runA11yTestAndGenerateReports env method opts w).1 = inl Old.TypeError ->
      exists results,
        analyze env (Old.configured_builder method opts) = inr results
        /\ violations results = None
        /\ events (Old.runA11yTestAndGenerateReports env method opts w).2
           = (events w
              ++ [ EvMkdir (getArtifactsDir env (Old.outputDir opts)) true;
                   EvAnalyze (Old.configured_builder method opts) ])%list).
Proof.
  destruct (Old.runA11yTestAndGenerateReports env method opts w) as [out w'] eqn:H.
  cbn [fst snd].
  unfold Old.runA11yTestAndGenerateReports, Old.runAxe in H.
  rewrite old_validatePageDescription in *.
  split; [|split].
  - intros message ->. old_exec_in H.
    all: unfold logged in *; cbn [files events fst snd] in *;
      inversion H; subst; clear H.
    all: try match goal with
           | Hx : (_ && _)%bool = true |- _ => apply andb_true_iff in Hx as [Hf Hp]
           end.
    all: split; [assumption|].
    all: do 3 eexists; split; [reflexivity|]; split; [reflexivity|];
      split; [eassumption|].
    all: match goal with
         | Hx : (0 <? length ?l)%nat = true |- _ =>
             split; [destruct l; [discriminate Hx | discriminate]|]
         | _ => idtac
         end.
    all: try reflexivity.
    all: congruence.
  - intros results ->. old_exec_in H.
    all: unfold logged in *; cbn [files events fst snd] in *;
      inversion H; subst; clear H.
    all: split; [reflexivity|]; eexists; split; [eassumption|].
    all: intros Hflag.
    all: repeat match goal with
           | Hx : truthy_flag _ = _ |- _ => rewrite Hx in *; clear Hx
           end.
    all: cbn [andb] in *; try discriminate; try congruence.
    all: match goal with
         | Hx : (0 <? length ?l)%nat = false |- ?l = [] =>
             destruct l; [reflexivity | discriminate Hx]
         end.
  - intros ->. old_exec_in H.
    all: unfold logged in *; cbn [files events fst snd] in *;
      inversion H; subst; clear H.
    all: eexists; split; [reflexivity|]; split; [assumption|].
    all: now rewrite <- app_assoc.
Qed.

Lemma old_version_fails_on_any_violation_witness :
  exists message vs,
    (Old.runA11yTestAndGenerateReports (sample_env unrated_results)
       builder_disableRules cautious_old_options fresh_world).1
    = inl (Old.ViolationsFound message)
    /\ violations unrated_results = Some vs
    /\ vs <> [].
Proof.
  assert (exists message,
             (Old.runA11yTestAndGenerateReports (sample_env unrated_results)
                builder_disableRules cautious_old_options fresh_world).1
             = inl (Old.ViolationsFound message)) as [message Hm]
      by (vm_compute; eexists; reflexivity).
  destruct (proj1 (old_version_fails_on_any_violation (sample_env unrated_results)
                     builder_disableRules cautious_old_options fresh_world)
              message Hm)
    as (_ & d & results & vs & _ & Hscan & Hvs & Hne & _).
  cbn in Hscan. inversion Hscan; subst results.
  exists message, vs. auto.
Defined.

(** X24. On a result without [violations] the previous [expectNoViolations]
    throws a [TypeError] and prints nothing, where the current one prints
    the "no violations" line and returns 0; on every other result the two
    print and return the same. *)
Theorem old_expectNoViolations_needs_violations results w :
  (violations results = None ->
   Old.expectNoViolations results w = (inl Old.TypeError, w)
   /\ expectNoViolations results w
      = (inr 0, logged w [EvLog "✓ No accessibility violations found"]))
  /\ (violations results <> None ->
      Old.expectNoViolations results w = Old.call (expectNoViolations results) w).
Proof.
  unfold Old.expectNoViolations, expectNoViolations, violations_or_empty.
  rewrite old_bind_run, old_violations_length_run, old_call_run.
  destruct (violations results) as [vs|]; split; try congruence; intros _.
  - cbn [default from_option]. unfold id.
    rewrite old_bind_run, bind_run.
    destruct (0 <? length vs)%nat.
    + rewrite old_bind_run, old_call_run, bind_run, console_log_run.
      cbv beta iota. rewrite old_call_run, log_all_run. reflexivity.
    + rewrite old_call_run, console_log_run. reflexivity.
  - split; [reflexivity|].
    cbn [default from_option length Nat.ltb Nat.leb].
    now rewrite bind_run, console_log_run.
Qed.

Lemma old_expectNoViolations_needs_violations_witness :
  Old.expectNoViolations {| violations := None; url := None |} fresh_world
  = (inl Old.TypeError, fresh_world)
  /\ Old.expectNoViolations sample_results fresh_world
     = Old.call (expectNoViolations sample_results) fresh_world.
Proof.
  split.
  - exact (proj1 (proj1 (old_expectNoViolations_needs_violations
                           {| violations := None; url := None |} fresh_world)
                    eq_refl)).
  - apply (proj2 (old_expectNoViolations_needs_violations sample_results fresh_world)).
    discriminate.
Defined.
